(** * chrome/browser/download/download_manager.cc

    A shallow embedding of [DownloadManager], the coordinator that owns every
    [DownloadItem] of a profile and keeps the indices over them
    ([downloads_], [active_downloads_], [in_progress_],
    [history_downloads_], [save_page_as_downloads_]).

    C++ objects live in an explicit heap indexed by addresses; the indices
    hold addresses, exactly as the [std::set<DownloadItem*>] and
    [std::map<int64, DownloadItem*>] of the source do.  Every method is a
    computation in a state-and-failure monad over the manager; calls that
    leave the manager (observers, the history service, tasks posted to the
    FILE thread, the delegate) are appended to a trace. *)

From Stdlib Require Import ZArith List Bool Ascii String Lia.

From stdpp Require Import base option gmap sets list strings sorting.

Local Open Scope Z_scope.

(** ** Data *)

(** [DownloadItem*]: an address; [NULL] is address zero. *)
Abbreviation ptr := N (only parsing).

Definition NULL : ptr := 0%N.

Abbreviation FilePath := string (only parsing).

Abbreviation GURL := string (only parsing).

(** [base::Time] is a count of microseconds; the null time is zero. *)
Abbreviation TimeT := Z (only parsing).

Definition is_null (t : TimeT) : bool := bool_decide (t = 0).

(** [DownloadItem::DownloadState]. *)
Inductive DownloadState :=
  IN_PROGRESS | COMPLETE | CANCELLED | REMOVING | INTERRUPTED.

(** [DownloadItem::SafetyState]. *)
Inductive SafetyState := SAFE | DANGEROUS | DANGEROUS_BUT_VALIDATED.

(** [DownloadItem::DeleteReason]. *)
Inductive DeleteReason :=
  DELETE_DUE_TO_BROWSER_SHUTDOWN | DELETE_DUE_TO_USER_DISCARD.

(** [download_util::DownloadDangerLevel]. *)
Inductive DownloadDangerLevel := NotDangerous | AllowOnUserGesture | Dangerous.

Global Instance DownloadState_eq_dec : EqDecision DownloadState.
Proof. solve_decision. Defined.

Global Instance SafetyState_eq_dec : EqDecision SafetyState.
Proof. solve_decision. Defined.

Global Instance DownloadDangerLevel_eq_dec : EqDecision DownloadDangerLevel.
Proof. solve_decision. Defined.

(** [DownloadStateInfo], the value threaded through path resolution. *)
Record DownloadStateInfo := {
  suggested_path : FilePath;
  target_name : FilePath;
  path_uniquifier : Z;
  has_user_gesture : bool;
  prompt_user_for_save_location : bool;
  is_dangerous_file : bool;
  is_dangerous_url : bool;
  is_extension_install : bool;
  force_file_name : FilePath }.

(** The fields of [DownloadItem] that the manager reads through accessors. *)
Record DownloadItem := {
  id : Z;
  db_handle : Z;
  state : DownloadState;
  safety_state : SafetyState;
  all_data_saved : bool;
  full_path : FilePath;
  start_time : TimeT;
  received_bytes : Z;
  total_bytes : Z;
  last_os_error : Z;
  state_info : DownloadStateInfo;
  url : GURL;
  referrer_url : GURL;
  mime_type : string;
  is_otr : bool;
  request_handle : Z;
  file_externally_removed : bool }.

(** [DownloadCreateInfo], as far as [CreateDownloadItem] reads it. *)
Record DownloadCreateInfo := {
  download_id : Z;
  info_url : GURL;
  info_referrer_url : GURL;
  info_mime_type : string;
  info_start_time : TimeT;
  info_total_bytes : Z;
  info_request_handle : Z;
  info_state : DownloadStateInfo }.

(** [DownloadHistoryInfo], one persisted row of the history service. *)
Record DownloadHistoryInfo := {
  hi_db_handle : Z;
  hi_path : FilePath;
  hi_url : GURL;
  hi_referrer_url : GURL;
  hi_start_time : TimeT;
  hi_received_bytes : Z;
  hi_total_bytes : Z;
  hi_state : DownloadState }.

(** [DownloadPrefs], read on the UI thread. *)
Record DownloadPrefs := {
  PromptForDownload : bool;
  IsDownloadPathManaged : bool;
  download_path : FilePath;
  IsAutoOpenEnabledForExtension : string → bool }.

(** [Profile], as far as the manager dereferences it. *)
Record Profile := {
  IsOffTheRecord : bool;
  has_extension_service : bool;
  GetPrefs : DownloadPrefs }.

(** Tasks posted to [BrowserThread::FILE]. *)
Inductive FileTask :=
  | OnDownloadManagerShutdown
  | CheckIfSuggestedPathExists (download_id : Z) (st : DownloadStateInfo)
      (default_path : FilePath)
  | RenameInProgressDownloadFile (download_id : Z) (path : FilePath)
  | CancelDownload (download_id : Z)
  | CompleteDownload (download_id : Z)
  | CheckForFileRemovalOnFileThread (handle : Z) (path : FilePath)
  | DeleteDownloadedFile (path : FilePath).

(** Calls that leave the manager, in program order. *)
Inductive Event :=
  | ObserverModelChanged
  | ObserverManagerGoingDown
  | ObserverSelectFileDialogDisplayed (download_id : Z)
  | StatusUpdaterUpdate
  | PostFileTask (t : FileTask)
  | HistoryLoad
  | HistoryAddEntry (download : ptr) (snapshot : DownloadItem)
  | HistoryUpdateEntry (download : ptr) (snapshot : DownloadItem)
  | HistoryRemoveEntry (download : ptr) (snapshot : DownloadItem)
  | HistoryRemoveEntriesBetween (remove_begin remove_end : TimeT)
  | HistoryUpdateDownloadPath (download : ptr) (path : FilePath)
  | HistoryCheckVisitedReferrerBefore (download_id : Z) (referrer : GURL)
  | SBCheckDownloadUrl (download_id : Z)
  | SBCheckDownloadHash (download_id : Z) (hash : string)
  | RequestCancel (request : Z)
  | DelegateChooseDownloadPath (download_id : Z) (suggested : FilePath)
  | ShowDownload (download : ptr)
  | ItemUpdateObservers (download : ptr)
  | ItemOnDownloadCompleting (download : ptr).

(** Field updates of [DownloadStateInfo] and [DownloadItem]. *)
Definition with_suggested_path (x : FilePath) (st : DownloadStateInfo) :=
  {| suggested_path := x; target_name := target_name st;
     path_uniquifier := path_uniquifier st;
     has_user_gesture := has_user_gesture st;
     prompt_user_for_save_location := prompt_user_for_save_location st;
     is_dangerous_file := is_dangerous_file st;
     is_dangerous_url := is_dangerous_url st;
     is_extension_install := is_extension_install st;
     force_file_name := force_file_name st |}.

Definition with_path_uniquifier (x : Z) (st : DownloadStateInfo) :=
  {| suggested_path := suggested_path st; target_name := target_name st;
     path_uniquifier := x; has_user_gesture := has_user_gesture st;
     prompt_user_for_save_location := prompt_user_for_save_location st;
     is_dangerous_file := is_dangerous_file st;
     is_dangerous_url := is_dangerous_url st;
     is_extension_install := is_extension_install st;
     force_file_name := force_file_name st |}.

Definition with_prompt_user_for_save_location (x : bool)
    (st : DownloadStateInfo) :=
  {| suggested_path := suggested_path st; target_name := target_name st;
     path_uniquifier := path_uniquifier st;
     has_user_gesture := has_user_gesture st;
     prompt_user_for_save_location := x;
     is_dangerous_file := is_dangerous_file st;
     is_dangerous_url := is_dangerous_url st;
     is_extension_install := is_extension_install st;
     force_file_name := force_file_name st |}.

Definition with_is_dangerous_file (x : bool) (st : DownloadStateInfo) :=
  {| suggested_path := suggested_path st; target_name := target_name st;
     path_uniquifier := path_uniquifier st;
     has_user_gesture := has_user_gesture st;
     prompt_user_for_save_location := prompt_user_for_save_location st;
     is_dangerous_file := x; is_dangerous_url := is_dangerous_url st;
     is_extension_install := is_extension_install st;
     force_file_name := force_file_name st |}.

Definition with_is_dangerous_url (x : bool) (st : DownloadStateInfo) :=
  {| suggested_path := suggested_path st; target_name := target_name st;
     path_uniquifier := path_uniquifier st;
     has_user_gesture := has_user_gesture st;
     prompt_user_for_save_location := prompt_user_for_save_location st;
     is_dangerous_file := is_dangerous_file st; is_dangerous_url := x;
     is_extension_install := is_extension_install st;
     force_file_name := force_file_name st |}.

Definition with_is_extension_install (x : bool) (st : DownloadStateInfo) :=
  {| suggested_path := suggested_path st; target_name := target_name st;
     path_uniquifier := path_uniquifier st;
     has_user_gesture := has_user_gesture st;
     prompt_user_for_save_location := prompt_user_for_save_location st;
     is_dangerous_file := is_dangerous_file st;
     is_dangerous_url := is_dangerous_url st; is_extension_install := x;
     force_file_name := force_file_name st |}.

Definition item_with_db_handle (x : Z) (d : DownloadItem) :=
  {| id := id d; db_handle := x; state := state d;
     safety_state := safety_state d; all_data_saved := all_data_saved d;
     full_path := full_path d; start_time := start_time d;
     received_bytes := received_bytes d; total_bytes := total_bytes d;
     last_os_error := last_os_error d; state_info := state_info d;
     url := url d; referrer_url := referrer_url d; mime_type := mime_type d;
     is_otr := is_otr d; request_handle := request_handle d;
     file_externally_removed := file_externally_removed d |}.

Definition item_with_state (x : DownloadState) (d : DownloadItem) :=
  {| id := id d; db_handle := db_handle d; state := x;
     safety_state := safety_state d; all_data_saved := all_data_saved d;
     full_path := full_path d; start_time := start_time d;
     received_bytes := received_bytes d; total_bytes := total_bytes d;
     last_os_error := last_os_error d; state_info := state_info d;
     url := url d; referrer_url := referrer_url d; mime_type := mime_type d;
     is_otr := is_otr d; request_handle := request_handle d;
     file_externally_removed := file_externally_removed d |}.

Definition item_with_safety_state (x : SafetyState) (d : DownloadItem) :=
  {| id := id d; db_handle := db_handle d; state := state d;
     safety_state := x; all_data_saved := all_data_saved d;
     full_path := full_path d; start_time := start_time d;
     received_bytes := received_bytes d; total_bytes := total_bytes d;
     last_os_error := last_os_error d; state_info := state_info d;
     url := url d; referrer_url := referrer_url d; mime_type := mime_type d;
     is_otr := is_otr d; request_handle := request_handle d;
     file_externally_removed := file_externally_removed d |}.

Definition item_with_all_data_saved (x : bool) (d : DownloadItem) :=
  {| id := id d; db_handle := db_handle d; state := state d;
     safety_state := safety_state d; all_data_saved := x;
     full_path := full_path d; start_time := start_time d;
     received_bytes := received_bytes d; total_bytes := total_bytes d;
     last_os_error := last_os_error d; state_info := state_info d;
     url := url d; referrer_url := referrer_url d; mime_type := mime_type d;
     is_otr := is_otr d; request_handle := request_handle d;
     file_externally_removed := file_externally_removed d |}.

Definition item_with_full_path (x : FilePath) (d : DownloadItem) :=
  {| id := id d; db_handle := db_handle d; state := state d;
     safety_state := safety_state d; all_data_saved := all_data_saved d;
     full_path := x; start_time := start_time d;
     received_bytes := received_bytes d; total_bytes := total_bytes d;
     last_os_error := last_os_error d; state_info := state_info d;
     url := url d; referrer_url := referrer_url d; mime_type := mime_type d;
     is_otr := is_otr d; request_handle := request_handle d;
     file_externally_removed := file_externally_removed d |}.

Definition item_with_received_bytes (x : Z) (d : DownloadItem) :=
  {| id := id d; db_handle := db_handle d; state := state d;
     safety_state := safety_state d; all_data_saved := all_data_saved d;
     full_path := full_path d; start_time := start_time d;
     received_bytes := x; total_bytes := total_bytes d;
     last_os_error := last_os_error d; state_info := state_info d;
     url := url d; referrer_url := referrer_url d; mime_type := mime_type d;
     is_otr := is_otr d; request_handle := request_handle d;
     file_externally_removed := file_externally_removed d |}.

Definition item_with_last_os_error (x : Z) (d : DownloadItem) :=
  {| id := id d; db_handle := db_handle d; state := state d;
     safety_state := safety_state d; all_data_saved := all_data_saved d;
     full_path := full_path d; start_time := start_time d;
     received_bytes := received_bytes d; total_bytes := total_bytes d;
     last_os_error := x; state_info := state_info d; url := url d;
     referrer_url := referrer_url d; mime_type := mime_type d;
     is_otr := is_otr d; request_handle := request_handle d;
     file_externally_removed := file_externally_removed d |}.

Definition item_with_state_info (x : DownloadStateInfo) (d : DownloadItem) :=
  {| id := id d; db_handle := db_handle d; state := state d;
     safety_state := safety_state d; all_data_saved := all_data_saved d;
     full_path := full_path d; start_time := start_time d;
     received_bytes := received_bytes d; total_bytes := total_bytes d;
     last_os_error := last_os_error d; state_info := x; url := url d;
     referrer_url := referrer_url d; mime_type := mime_type d;
     is_otr := is_otr d; request_handle := request_handle d;
     file_externally_removed := file_externally_removed d |}.

Definition item_with_file_externally_removed (x : bool) (d : DownloadItem) :=
  {| id := id d; db_handle := db_handle d; state := state d;
     safety_state := safety_state d; all_data_saved := all_data_saved d;
     full_path := full_path d; start_time := start_time d;
     received_bytes := received_bytes d; total_bytes := total_bytes d;
     last_os_error := last_os_error d; state_info := state_info d;
     url := url d; referrer_url := referrer_url d; mime_type := mime_type d;
     is_otr := is_otr d; request_handle := request_handle d;
     file_externally_removed := x |}.

(** ** What the translation unit takes from other headers

    Constants and pure helpers that [download_manager.cc] uses and other
    files define.  They are left abstract: every theorem below holds for
    each choice of them. *)
Class Config := {
  (** [!defined(NDEBUG)]: whether [DCHECK]s are compiled in. *)
  debug_build : bool;
  (** [ENABLE_SAFE_BROWSING]. *)
  enable_safe_browsing : bool;
  (** [DownloadHistory::kUninitializedHandle]. *)
  kUninitializedHandle : Z;
  (** The value of the [n]-th call of [DownloadHistory::GetNextFakeDbHandle]
      on one [DownloadHistory]. *)
  fake_db_handle : nat → Z;
  (** [net::ERR_CONNECTION_CLOSED]. *)
  ERR_CONNECTION_CLOSED : Z;
  (** [Extension::kMimeType]. *)
  kMimeType : string;
  IsURLUserScript : GURL → string → bool;
  Extension_IsExtension : FilePath → bool;
  IsDownloadFromGallery : GURL → GURL → bool;
  GenerateFileNameFromRequest : DownloadItem → FilePath;
  GetFileDangerLevel : FilePath → DownloadDangerLevel;
  GetCrDownloadPath : FilePath → FilePath;
  (** [FilePath::Extension], [BaseName], [DirName], [Append]. *)
  FilePath_Extension : FilePath → string;
  FilePath_BaseName : FilePath → FilePath;
  FilePath_DirName : FilePath → FilePath;
  FilePath_Append : FilePath → FilePath → FilePath;
  (** [DownloadItem::IsPartialDownload]. *)
  IsPartialDownload : DownloadItem → bool }.

(** ** The manager *)

Record DownloadManager := {
  shutdown_needed_ : bool;
  profile_ : option Profile;
  file_manager_ : bool;
  status_updater_ : bool;
  (** [scoped_ptr<DownloadHistory>]; the payload counts the fake handles
      handed out so far. *)
  download_history_ : option nat;
  download_prefs_ : option DownloadPrefs;
  last_download_path_ : FilePath;
  (** The free store: the live [DownloadItem] objects. *)
  heap : gmap ptr DownloadItem;
  downloads_ : gset ptr;
  history_downloads_ : gmap Z ptr;
  in_progress_ : gmap Z ptr;
  active_downloads_ : gmap Z ptr;
  save_page_as_downloads_ : gset ptr;
  trace : list Event }.

(** Why a run stops abnormally. *)
Inductive Failure :=
  | DCheckFailure     (* a DCHECK failed in a build that has them *)
  | CheckFailure      (* a CHECK failed *)
  | BadPointer        (* null or dangling pointer dereferenced or deleted *)
  | InvalidIterator.  (* an erased container position was used *)

Inductive Result (A : Type) :=
  | Ok (a : A) (s : DownloadManager)
  | Crash (f : Failure).

Arguments Ok {A} a s.

Arguments Crash {A} f.

Definition M (A : Type) : Type := DownloadManager → Result A.

Global Instance M_ret : MRet M := λ A a s, Ok a s.

Global Instance M_bind : MBind M := λ A B f m s,
  match m s with
  | Ok a s' => f a s'
  | Crash e => Crash e
  end.

Definition get : M DownloadManager := λ s, Ok s s.

Definition modify (f : DownloadManager → DownloadManager) : M unit :=
  λ s, Ok tt (f s).

Definition crash {A} (e : Failure) : M A := λ _, Crash e.

(** Field updates of the manager. *)
Definition set_shutdown_needed (b : bool) (s : DownloadManager) :=
  {| shutdown_needed_ := b; profile_ := profile_ s;
     file_manager_ := file_manager_ s; status_updater_ := status_updater_ s;
     download_history_ := download_history_ s;
     download_prefs_ := download_prefs_ s;
     last_download_path_ := last_download_path_ s; heap := heap s;
     downloads_ := downloads_ s; history_downloads_ := history_downloads_ s;
     in_progress_ := in_progress_ s; active_downloads_ := active_downloads_ s;
     save_page_as_downloads_ := save_page_as_downloads_ s; trace := trace s |}.

Definition set_profile (x : option Profile) (s : DownloadManager) :=
  {| shutdown_needed_ := shutdown_needed_ s; profile_ := x;
     file_manager_ := file_manager_ s; status_updater_ := status_updater_ s;
     download_history_ := download_history_ s;
     download_prefs_ := download_prefs_ s;
     last_download_path_ := last_download_path_ s; heap := heap s;
     downloads_ := downloads_ s; history_downloads_ := history_downloads_ s;
     in_progress_ := in_progress_ s; active_downloads_ := active_downloads_ s;
     save_page_as_downloads_ := save_page_as_downloads_ s; trace := trace s |}.

Definition set_file_manager (b : bool) (s : DownloadManager) :=
  {| shutdown_needed_ := shutdown_needed_ s; profile_ := profile_ s;
     file_manager_ := b; status_updater_ := status_updater_ s;
     download_history_ := download_history_ s;
     download_prefs_ := download_prefs_ s;
     last_download_path_ := last_download_path_ s; heap := heap s;
     downloads_ := downloads_ s; history_downloads_ := history_downloads_ s;
     in_progress_ := in_progress_ s; active_downloads_ := active_downloads_ s;
     save_page_as_downloads_ := save_page_as_downloads_ s; trace := trace s |}.

Definition set_download_history (x : option nat) (s : DownloadManager) :=
  {| shutdown_needed_ := shutdown_needed_ s; profile_ := profile_ s;
     file_manager_ := file_manager_ s; status_updater_ := status_updater_ s;
     download_history_ := x;
     download_prefs_ := download_prefs_ s;
     last_download_path_ := last_download_path_ s; heap := heap s;
     downloads_ := downloads_ s; history_downloads_ := history_downloads_ s;
     in_progress_ := in_progress_ s; active_downloads_ := active_downloads_ s;
     save_page_as_downloads_ := save_page_as_downloads_ s; trace := trace s |}.

Definition set_download_prefs (x : option DownloadPrefs)
    (s : DownloadManager) :=
  {| shutdown_needed_ := shutdown_needed_ s; profile_ := profile_ s;
     file_manager_ := file_manager_ s; status_updater_ := status_updater_ s;
     download_history_ := download_history_ s;
     download_prefs_ := x;
     last_download_path_ := last_download_path_ s; heap := heap s;
     downloads_ := downloads_ s; history_downloads_ := history_downloads_ s;
     in_progress_ := in_progress_ s; active_downloads_ := active_downloads_ s;
     save_page_as_downloads_ := save_page_as_downloads_ s; trace := trace s |}.

Definition set_last_download_path (x : FilePath) (s : DownloadManager) :=
  {| shutdown_needed_ := shutdown_needed_ s; profile_ := profile_ s;
     file_manager_ := file_manager_ s; status_updater_ := status_updater_ s;
     download_history_ := download_history_ s;
     download_prefs_ := download_prefs_ s;
     last_download_path_ := x; heap := heap s;
     downloads_ := downloads_ s; history_downloads_ := history_downloads_ s;
     in_progress_ := in_progress_ s; active_downloads_ := active_downloads_ s;
     save_page_as_downloads_ := save_page_as_downloads_ s; trace := trace s |}.

Definition set_heap (f : gmap ptr DownloadItem → gmap ptr DownloadItem)
    (s : DownloadManager) :=
  {| shutdown_needed_ := shutdown_needed_ s; profile_ := profile_ s;
     file_manager_ := file_manager_ s; status_updater_ := status_updater_ s;
     download_history_ := download_history_ s;
     download_prefs_ := download_prefs_ s;
     last_download_path_ := last_download_path_ s; heap := f (heap s);
     downloads_ := downloads_ s; history_downloads_ := history_downloads_ s;
     in_progress_ := in_progress_ s; active_downloads_ := active_downloads_ s;
     save_page_as_downloads_ := save_page_as_downloads_ s; trace := trace s |}.

Definition set_downloads (f : gset ptr → gset ptr) (s : DownloadManager) :=
  {| shutdown_needed_ := shutdown_needed_ s; profile_ := profile_ s;
     file_manager_ := file_manager_ s; status_updater_ := status_updater_ s;
     download_history_ := download_history_ s;
     download_prefs_ := download_prefs_ s;
     last_download_path_ := last_download_path_ s; heap := heap s;
     downloads_ := f (downloads_ s);
     history_downloads_ := history_downloads_ s;
     in_progress_ := in_progress_ s; active_downloads_ := active_downloads_ s;
     save_page_as_downloads_ := save_page_as_downloads_ s; trace := trace s |}.

Definition set_history_downloads (f : gmap Z ptr → gmap Z ptr)
    (s : DownloadManager) :=
  {| shutdown_needed_ := shutdown_needed_ s; profile_ := profile_ s;
     file_manager_ := file_manager_ s; status_updater_ := status_updater_ s;
     download_history_ := download_history_ s;
     download_prefs_ := download_prefs_ s;
     last_download_path_ := last_download_path_ s; heap := heap s;
     downloads_ := downloads_ s;
     history_downloads_ := f (history_downloads_ s);
     in_progress_ := in_progress_ s; active_downloads_ := active_downloads_ s;
     save_page_as_downloads_ := save_page_as_downloads_ s; trace := trace s |}.

Definition set_in_progress (f : gmap Z ptr → gmap Z ptr)
    (s : DownloadManager) :=
  {| shutdown_needed_ := shutdown_needed_ s; profile_ := profile_ s;
     file_manager_ := file_manager_ s; status_updater_ := status_updater_ s;
     download_history_ := download_history_ s;
     download_prefs_ := download_prefs_ s;
     last_download_path_ := last_download_path_ s; heap := heap s;
     downloads_ := downloads_ s; history_downloads_ := history_downloads_ s;
     in_progress_ := f (in_progress_ s);
     active_downloads_ := active_downloads_ s;
     save_page_as_downloads_ := save_page_as_downloads_ s; trace := trace s |}.

Definition set_active_downloads (f : gmap Z ptr → gmap Z ptr)
    (s : DownloadManager) :=
  {| shutdown_needed_ := shutdown_needed_ s; profile_ := profile_ s;
     file_manager_ := file_manager_ s; status_updater_ := status_updater_ s;
     download_history_ := download_history_ s;
     download_prefs_ := download_prefs_ s;
     last_download_path_ := last_download_path_ s; heap := heap s;
     downloads_ := downloads_ s; history_downloads_ := history_downloads_ s;
     in_progress_ := in_progress_ s;
     active_downloads_ := f (active_downloads_ s);
     save_page_as_downloads_ := save_page_as_downloads_ s; trace := trace s |}.

Definition set_save_page_as_downloads (f : gset ptr → gset ptr)
    (s : DownloadManager) :=
  {| shutdown_needed_ := shutdown_needed_ s; profile_ := profile_ s;
     file_manager_ := file_manager_ s; status_updater_ := status_updater_ s;
     download_history_ := download_history_ s;
     download_prefs_ := download_prefs_ s;
     last_download_path_ := last_download_path_ s; heap := heap s;
     downloads_ := downloads_ s; history_downloads_ := history_downloads_ s;
     in_progress_ := in_progress_ s; active_downloads_ := active_downloads_ s;
     save_page_as_downloads_ := f (save_page_as_downloads_ s);
     trace := trace s |}.

Definition set_trace (f : list Event → list Event) (s : DownloadManager) :=
  {| shutdown_needed_ := shutdown_needed_ s; profile_ := profile_ s;
     file_manager_ := file_manager_ s; status_updater_ := status_updater_ s;
     download_history_ := download_history_ s;
     download_prefs_ := download_prefs_ s;
     last_download_path_ := last_download_path_ s; heap := heap s;
     downloads_ := downloads_ s; history_downloads_ := history_downloads_ s;
     in_progress_ := in_progress_ s; active_downloads_ := active_downloads_ s;
     save_page_as_downloads_ := save_page_as_downloads_ s;
     trace := f (trace s) |}.

(** ** [DownloadItem] members

    [download_item.cc] is not part of this translation unit.  The members
    the manager calls are given here as the field updates that the
    specification's data model describes. *)
Module Item.

Section members.
Context {cfg : Config}.

(** Modelled from the spec: the constructor [DownloadItem(manager, info,
    is_otr)] is not under src/.  A new Record is IN_PROGRESS, has the
    uninitialized durable handle and an empty target path. *)
Definition Create (info : DownloadCreateInfo) (otr : bool) : DownloadItem :=
  {| id := download_id info; db_handle := kUninitializedHandle;
     state := IN_PROGRESS; safety_state := SAFE; all_data_saved := false;
     full_path := EmptyString; start_time := info_start_time info;
     received_bytes := 0; total_bytes := info_total_bytes info;
     last_os_error := 0; state_info := info_state info;
     url := info_url info; referrer_url := info_referrer_url info;
     mime_type := info_mime_type info; is_otr := otr;
     request_handle := info_request_handle info;
     file_externally_removed := false |}.

(** Modelled from the spec: the constructor [DownloadItem(manager,
    history_info)] is not under src/.  A replayed Record carries the
    journal entry's durable handle, times, byte counts, path and state;
    [no_id] stands for the transient id such a Record is given. *)
Definition Restore (no_id : Z) (e : DownloadHistoryInfo) : DownloadItem :=
  {| id := no_id; db_handle := hi_db_handle e; state := hi_state e;
     safety_state := SAFE; all_data_saved := false;
     full_path := hi_path e; start_time := hi_start_time e;
     received_bytes := hi_received_bytes e;
     total_bytes := hi_total_bytes e; last_os_error := 0;
     state_info :=
       {| suggested_path := EmptyString; target_name := EmptyString;
          path_uniquifier := 0;
          has_user_gesture := false;
          prompt_user_for_save_location := false;
          is_dangerous_file := false; is_dangerous_url := false;
          is_extension_install := false; force_file_name := EmptyString |};
     url := hi_url e; referrer_url := hi_referrer_url e;
     mime_type := EmptyString;
     is_otr := false; request_handle := 0;
     file_externally_removed := false |}.

End members.

(** Modelled from the spec: [IsInProgress], [IsComplete], [IsCancelled] and
    [IsInterrupted] are not under src/; they test the life state. *)
Definition IsInProgress (d : DownloadItem) : bool :=
  bool_decide (state d = IN_PROGRESS).

Definition IsComplete (d : DownloadItem) : bool :=
  bool_decide (state d = COMPLETE).

Definition IsCancelled (d : DownloadItem) : bool :=
  bool_decide (state d = CANCELLED).

Definition IsInterrupted (d : DownloadItem) : bool :=
  bool_decide (state d = INTERRUPTED).

(** Modelled from the spec: [DownloadStateInfo::IsDangerous] and
    [DownloadItem::IsDangerous] are not under src/; a download is classified
    dangerous by its file or by its URL. *)
Definition StateIsDangerous (st : DownloadStateInfo) : bool :=
  is_dangerous_file st || is_dangerous_url st.

Definition IsDangerous (d : DownloadItem) : bool :=
  StateIsDangerous (state_info d).

(** Modelled from the spec: [MarkUrlDangerous] is not under src/; it records
    the safety classifier's verdict on the URL. *)
Definition MarkUrlDangerous (d : DownloadItem) : DownloadItem :=
  item_with_safety_state DANGEROUS
    (item_with_state_info (with_is_dangerous_url true (state_info d)) d).

(** Modelled from the spec: [SetFileCheckResults] is not under src/; it
    stores the path-resolution result in the Record and classifies it. *)
Definition SetFileCheckResults (st : DownloadStateInfo) (d : DownloadItem)
    : DownloadItem :=
  item_with_safety_state (if StateIsDangerous st then DANGEROUS else SAFE)
    (item_with_state_info st d).

(** Modelled from the spec: [OnPathDetermined] is not under src/; it commits
    the chosen path as the Record's path. *)
Definition OnPathDetermined (path : FilePath) (d : DownloadItem)
    : DownloadItem := item_with_full_path path d.

(** Modelled from the spec: [Rename] is not under src/; the Record's path
    becomes the new name (the source notes that renaming to the current
    name is a no-op). *)
Definition Rename (path : FilePath) (d : DownloadItem) : DownloadItem :=
  item_with_full_path path d.

(** Modelled from the spec: [Update] is not under src/; a progress update
    stores the byte count. *)
Definition Update (size : Z) (d : DownloadItem) : DownloadItem :=
  item_with_received_bytes size d.

(** Modelled from the spec: [DownloadItem::OnAllDataSaved] is not under
    src/; all bytes have been received. *)
Definition OnAllDataSaved (size : Z) (d : DownloadItem) : DownloadItem :=
  item_with_all_data_saved true (item_with_received_bytes size d).

(** Modelled from the spec: [Interrupted] is not under src/; the Record
    becomes INTERRUPTED with the error code stored. *)
Definition Interrupted (size os_error : Z) (d : DownloadItem)
    : DownloadItem :=
  item_with_state INTERRUPTED
    (item_with_last_os_error os_error (item_with_received_bytes size d)).

(** Modelled from the spec: the state change of [Cancel] is not under src/;
    the Record becomes CANCELLED. *)
Definition Cancelled (d : DownloadItem) : DownloadItem :=
  item_with_state CANCELLED d.

(** Modelled from the spec: [set_db_handle] is not under src/; it assigns
    the durable handle. *)
Definition set_db_handle (h : Z) (d : DownloadItem) : DownloadItem :=
  item_with_db_handle h d.

(** Modelled from the spec: [set_path_uniquifier] is not under src/. *)
Definition set_path_uniquifier (n : Z) (d : DownloadItem) : DownloadItem :=
  item_with_state_info (with_path_uniquifier n (state_info d)) d.

(** Modelled from the spec: [DownloadItem::OnDownloadRenamedToFinalName] is
    not under src/; the final rename changes the Record's path. *)
Definition OnDownloadRenamedToFinalName (path : FilePath) (d : DownloadItem)
    : DownloadItem := item_with_full_path path d.

(** Modelled from the spec: [OnDownloadedFileRemoved] is not under src/. *)
Definition OnDownloadedFileRemoved (d : DownloadItem) : DownloadItem :=
  item_with_file_externally_removed true d.

End Item.

(** ** Primitive steps *)

(** The order in which [std::map<int64, DownloadItem*>] is traversed. *)
Definition key_le (a b : Z * ptr) : Prop := a.1 ≤ b.1.

Global Instance key_le_dec : RelDecision key_le.
Proof. intros a b. unfold key_le. apply _. Defined.

Section primitives.
Context {cfg : Config}.

Definition emit (e : Event) : M unit := modify (set_trace (λ t, t ++ [e])).

(** [DCHECK(b)]: fatal when compiled in, absent otherwise. *)
Definition DCHECK (b : bool) : M unit :=
  if debug_build && negb b then crash DCheckFailure else mret tt.

(** [CHECK(b)]: fatal in every build. *)
Definition CHECK (b : bool) : M unit :=
  if b then mret tt else crash CheckFailure.

(** [*p] for a [DownloadItem* p]. *)
Definition deref (p : ptr) : M DownloadItem := λ s,
  match heap s !! p with
  | Some d => Ok d s
  | None => Crash BadPointer
  end.

(** [p->member(...)] for a member that updates the object's fields. *)
Definition update (p : ptr) (f : DownloadItem → DownloadItem) : M unit :=
  d ← deref p; modify (set_heap <[p := f d]>).

(** [new DownloadItem(...)]: some address that is neither null nor in
    use. *)
Definition new (d : DownloadItem) : M ptr := λ s,
  let p := fresh ({[NULL]} ∪ dom (heap s)) in
  Ok p (set_heap <[p := d]> s).

(** [delete p]: nothing for the null pointer. *)
Definition delete_ (p : ptr) : M unit := λ s,
  if bool_decide (p = NULL) then Ok tt s
  else match heap s !! p with
       | Some _ => Ok tt (set_heap (delete p) s)
       | None => Crash BadPointer
       end.

(** [download_history_->], [download_prefs_->], [profile_->]. *)
Definition the_history : M nat := λ s,
  match download_history_ s with
  | Some n => Ok n s
  | None => Crash BadPointer
  end.

Definition the_prefs : M DownloadPrefs := λ s,
  match download_prefs_ s with
  | Some x => Ok x s
  | None => Crash BadPointer
  end.

Definition the_profile : M Profile := λ s,
  match profile_ s with
  | Some x => Ok x s
  | None => Crash BadPointer
  end.

Definition history_AddEntry (download : ptr) : M unit :=
  _ ← the_history; d ← deref download; emit (HistoryAddEntry download d).

Definition history_UpdateEntry (download : ptr) : M unit :=
  _ ← the_history; d ← deref download; emit (HistoryUpdateEntry download d).

Definition history_RemoveEntry (download : ptr) : M unit :=
  _ ← the_history; d ← deref download; emit (HistoryRemoveEntry download d).

Definition history_UpdateDownloadPath (download : ptr) (path : FilePath)
    : M unit :=
  _ ← the_history; _ ← deref download;
  emit (HistoryUpdateDownloadPath download path).

Definition history_RemoveEntriesBetween (b e : TimeT) : M unit :=
  _ ← the_history; emit (HistoryRemoveEntriesBetween b e).

Definition history_CheckVisitedReferrerBefore (download_id : Z)
    (referrer : GURL) : M unit :=
  _ ← the_history;
  emit (HistoryCheckVisitedReferrerBefore download_id referrer).

(** [DownloadHistory::GetNextFakeDbHandle]. *)
Definition history_GetNextFakeDbHandle : M Z :=
  n ← the_history;
  modify (set_download_history (Some (S n)));;
  mret (fake_db_handle n).

(** [std::map::operator[]] on [active_downloads_]: a missing key is
    inserted with a null pointer. *)
Definition active_downloads_index (download_id : Z) : M ptr :=
  s ← get;
  match active_downloads_ s !! download_id with
  | Some p => mret p
  | None =>
      modify (set_active_downloads <[download_id := NULL]>);; mret NULL
  end.

(** Modelled from the spec: the container types [DownloadMap] and
    [DownloadSet] are declared in download_manager.h, which is not under
    src/; the spec calls them indices and a collection and fixes no order
    of traversal.  The model walks a map by ascending key and a set by
    ascending address, the order of [std::map] and [std::set]. *)
Definition map_entries (m : gmap Z ptr) : list (Z * ptr) :=
  merge_sort key_le (map_to_list m).

Definition set_entries (X : gset ptr) : list ptr :=
  merge_sort N.le (elements X).

(** [for (...) body] over a snapshot of positions. *)
Fixpoint for_each {A} (l : list A) (body : A → M unit) : M unit :=
  match l with
  | [] => mret tt
  | x :: l' => body x;; for_each l' body
  end.

End primitives.

(** ** [DownloadManager] members *)

Section manager.
Context {cfg : Config}.

Definition UpdateAppIcon : M unit :=
  s ← get;
  if status_updater_ s then emit StatusUpdaterUpdate else mret tt.

Definition NotifyModelChanged : M unit := emit ObserverModelChanged.

Definition GetActiveDownloadItem (download_id : Z) : M ptr :=
  s ← get;
  DCHECK (bool_decide (is_Some (active_downloads_ s !! download_id)));;
  download ← active_downloads_index download_id;
  DCHECK (bool_decide (download ≠ NULL));;
  mret download.

(** The [history_downloads_] map is searched by the item's id. *)
Fixpoint GetDownloadItem_scan (l : list (Z * ptr)) (download_id : Z)
    : M ptr :=
  match l with
  | [] => mret NULL
  | (_, item) :: l' =>
      d ← deref item;
      if bool_decide (id d = download_id) then mret item
      else GetDownloadItem_scan l' download_id
  end.

Definition GetDownloadItem (download_id : Z) : M ptr :=
  s ← get;
  GetDownloadItem_scan (map_entries (history_downloads_ s)) download_id.

Definition ShouldOpenFileBasedOnExtension (path : FilePath) : M bool :=
  let extension := FilePath_Extension path in
  match extension with
  | EmptyString => mret false
  | String c rest =>
      if Extension_IsExtension path then mret false
      else
        DCHECK (bool_decide (c = "."%char));;
        prefs ← the_prefs;
        mret (IsAutoOpenEnabledForExtension prefs rest)
  end.

Definition IsDangerousFile (download : DownloadItem)
    (st : DownloadStateInfo) (visited_referrer_before : bool) : M bool :=
  auto_open ← ShouldOpenFileBasedOnExtension (suggested_path st);
  let danger_level :=
    GetFileDangerLevel (FilePath_BaseName (suggested_path st)) in
  if bool_decide (danger_level = Dangerous) then
    mret (negb (auto_open && has_user_gesture st))
  else if bool_decide (danger_level = AllowOnUserGesture)
          && (negb (has_user_gesture st) || negb visited_referrer_before)
  then mret true
  else if is_extension_install st then
    prof ← the_profile;
    if negb (has_extension_service prof)
       || negb (IsDownloadFromGallery (url download) (referrer_url download))
    then mret true else mret false
  else mret false.

Definition CreateDownloadItem (info : DownloadCreateInfo) : M unit :=
  prof ← the_profile;
  download ← new (Item.Create info (IsOffTheRecord prof));
  let download_id := download_id info in
  s ← get;
  DCHECK (negb (bool_decide (is_Some (in_progress_ s !! download_id))));;
  DCHECK (negb (bool_decide (is_Some (active_downloads_ s !! download_id))));;
  modify (set_downloads (λ X, {[download]} ∪ X));;
  modify (set_active_downloads <[download_id := download]>).

Definition ContinueDownloadWithPath (download : ptr)
    (chosen_file : FilePath) : M unit :=
  DCHECK (bool_decide (download ≠ NULL));;
  d ← deref download;
  let download_id := id d in
  s ← get;
  DCHECK (negb (bool_decide (is_Some (in_progress_ s !! download_id))));;
  DCHECK (bool_decide (download ∈ downloads_ s));;
  DCHECK (bool_decide (is_Some (active_downloads_ s !! download_id)));;
  (* Make sure the initial file name is set only once. *)
  DCHECK (bool_decide (full_path d = EmptyString));;
  update download (Item.OnPathDetermined chosen_file);;
  modify (set_in_progress <[download_id := download]>);;
  UpdateAppIcon;;
  (* Rename to intermediate name. *)
  d ← deref download;
  let download_path :=
    if Item.IsDangerous d then full_path d
    else GetCrDownloadPath (full_path d) in
  emit (PostFileTask (RenameInProgressDownloadFile (id d) download_path));;
  update download (Item.Rename download_path);;
  history_AddEntry download.

Definition UpdateDownload (download_id size : Z) : M unit :=
  s ← get;
  match active_downloads_ s !! download_id with
  | Some download =>
      d ← deref download;
      if Item.IsInProgress d then
        update download (Item.Update size);;
        UpdateAppIcon;;
        history_UpdateEntry download
      else mret tt
  | None => mret tt
  end.

Definition CheckDownloadHashDone (download_id : Z)
    (is_dangerous_hash : bool) : M unit :=
  s ← get;
  if bool_decide (active_downloads_ s !! download_id = None) then mret tt
  else mret tt.

Definition AssertQueueStateConsistent (download : ptr) : M unit :=
  d ← deref download;
  s ← get;
  if bool_decide (state d = REMOVING) then
    CHECK (negb (bool_decide (download ∈ downloads_ s)));;
    CHECK (negb (bool_decide (is_Some (active_downloads_ s !! id d))));;
    CHECK (negb (bool_decide (is_Some (in_progress_ s !! id d))));;
    CHECK (negb (bool_decide (is_Some (history_downloads_ s !! db_handle d))))
  else
    (* Should be in downloads_ if we're not REMOVING. *)
    CHECK (bool_decide (download ∈ downloads_ s));;
    (* history_downloads_ consistency. *)
    (if bool_decide (db_handle d ≠ kUninitializedHandle) then
       CHECK (bool_decide (is_Some (history_downloads_ s !! db_handle d)))
     else
       for_each (map_entries (history_downloads_ s))
         (λ it, CHECK (bool_decide (it.2 ≠ download))));;
    CHECK (eqb (bool_decide (is_Some (active_downloads_ s !! id d)))
               (bool_decide (state d = IN_PROGRESS)));;
    CHECK (eqb (bool_decide (is_Some (in_progress_ s !! id d)))
               (bool_decide (state d = IN_PROGRESS))).

Definition IsDownloadReadyForCompletion (download : ptr) : M bool :=
  d ← deref download;
  s ← get;
  (* If we don't have all the data, the download is not ready. *)
  if negb (all_data_saved d) then mret false
  (* If the download is dangerous, but not yet validated, it's not ready. *)
  else if bool_decide (safety_state d = DANGEROUS) then mret false
  (* If the download isn't active it's not ready. *)
  else if bool_decide (active_downloads_ s !! id d = None) then mret false
  (* If the download hasn't been inserted into the history system then
     it's not ready. *)
  else if bool_decide (db_handle d = kUninitializedHandle) then mret false
  else mret true.

Definition MaybeCompleteDownload (download : ptr) : M unit :=
  ready ← IsDownloadReadyForCompletion download;
  if negb ready then mret tt
  else
    d ← deref download;
    s ← get;
    DCHECK (bool_decide (safety_state d ≠ DANGEROUS));;
    DCHECK (bool_decide (is_Some (in_progress_ s !! id d)));;
    DCHECK (all_data_saved d);;
    DCHECK (bool_decide (db_handle d ≠ kUninitializedHandle));;
    DCHECK (bool_decide (is_Some (history_downloads_ s !! db_handle d)));;
    (* Remove the id from in_progress *)
    modify (set_in_progress (delete (id d)));;
    UpdateAppIcon;;
    history_UpdateEntry download;;
    (* Finish the download. *)
    emit (ItemOnDownloadCompleting download).

Definition OnAllDataSaved (download_id size : Z) (hash : string)
    : M unit :=
  s ← get;
  (* If it's not in active_downloads_, that means it was cancelled; just
     ignore the notification. *)
  if bool_decide (active_downloads_ s !! download_id = None) then mret tt
  else
    download ← active_downloads_index download_id;
    update download (Item.OnAllDataSaved size);;
    (if bool_decide (hash ≠ EmptyString) then
       if enable_safe_browsing
       then _ ← the_profile; emit (SBCheckDownloadHash download_id hash)
       else CheckDownloadHashDone download_id false
     else mret tt);;
    MaybeCompleteDownload download.

Definition DownloadCompleted (download_id : Z) : M unit :=
  download ← GetDownloadItem download_id;
  DCHECK (bool_decide (download ≠ NULL));;
  history_UpdateEntry download;;
  modify (set_active_downloads (delete download_id)).

Definition OnDownloadRenamedToFinalName (download_id : Z)
    (full_path : FilePath) (uniquifier : Z) : M unit :=
  item ← GetDownloadItem download_id;
  if bool_decide (item = NULL) then mret tt
  else
    d ← deref item;
    (if bool_decide (safety_state d = SAFE)
     then DCHECK (bool_decide (uniquifier = 0)) else mret tt);;
    emit (PostFileTask (CompleteDownload download_id));;
    (if bool_decide (uniquifier ≠ 0)
     then update item (Item.set_path_uniquifier uniquifier) else mret tt);;
    update item (Item.OnDownloadRenamedToFinalName full_path);;
    history_UpdateDownloadPath item full_path.

Definition DownloadCancelledInternal (download_id : Z) (request : Z)
    : M unit :=
  emit (RequestCancel request);;
  emit (PostFileTask (CancelDownload download_id)).

Definition DownloadCancelled (download_id : Z) : M unit :=
  s ← get;
  match in_progress_ s !! download_id with
  | None => mret tt
  | Some download =>
      d ← deref download;
      (* Clean up will happen when the history system create callback runs
         if we don't have a valid db_handle yet. *)
      (if bool_decide (db_handle d ≠ kUninitializedHandle) then
         modify (set_in_progress (delete download_id));;
         modify (set_active_downloads (delete download_id));;
         UpdateAppIcon;;
         history_UpdateEntry download
       else mret tt);;
      DownloadCancelledInternal download_id (request_handle d)
  end.

Definition OnDownloadError (download_id size os_error : Z) : M unit :=
  s ← get;
  match active_downloads_ s !! download_id with
  (* A cancel at the right time could remove the download from the
     active_downloads_ map before we get here. *)
  | None => mret tt
  | Some download =>
      update download (Item.Interrupted size os_error);;
      d ← deref download;
      (if bool_decide (db_handle d ≠ kUninitializedHandle) then
         modify (set_in_progress (delete download_id));;
         modify (set_active_downloads (delete download_id));;
         UpdateAppIcon;;
         history_UpdateEntry download
       else mret tt);;
      emit (PostFileTask (CancelDownload download_id))
  end.

Definition OnResponseCompleted (download_id size os_error : Z)
    (hash : string) : M unit :=
  if bool_decide (os_error = 0)
     || bool_decide (os_error = ERR_CONNECTION_CLOSED)
  then OnAllDataSaved download_id size hash
  else OnDownloadError download_id size os_error.

Definition RemoveDownload (download_handle : Z) : M unit :=
  s ← get;
  match history_downloads_ s !! download_handle with
  | None => mret tt
  | Some download =>
      (* Make history update. *)
      history_RemoveEntry download;;
      (* Remove from our tables and delete. *)
      modify (set_history_downloads (delete download_handle));;
      s ← get;
      let downloads_count :=
        if bool_decide (download ∈ downloads_ s) then 1 else 0 in
      modify (set_downloads (λ X, X ∖ {[download]}));;
      DCHECK (bool_decide (downloads_count = 1));;
      (* Tell observers to refresh their views. *)
      NotifyModelChanged;;
      delete_ download
  end.

(** The test of the scan in [RemoveDownloadsBetween]. *)
Definition in_removal_range (remove_begin remove_end : TimeT)
    (d : DownloadItem) : bool :=
  bool_decide (remove_begin ≤ start_time d)
  && (is_null remove_end || bool_decide (start_time d < remove_end))
  && (Item.IsComplete d || Item.IsCancelled d || Item.IsInterrupted d).

Fixpoint RemoveDownloadsBetween_scan (l : list (Z * ptr))
    (remove_begin remove_end : TimeT) (pending_deletes : list ptr)
    : M (list ptr) :=
  match l with
  | [] => mret pending_deletes
  | (handle, download) :: l' =>
      d ← deref download;
      if in_removal_range remove_begin remove_end d then
        AssertQueueStateConsistent download;;
        (* Remove from the map and move to the next in the list. *)
        modify (set_history_downloads (delete handle));;
        RemoveDownloadsBetween_scan l' remove_begin remove_end
          (pending_deletes ++ [download])
      else
        RemoveDownloadsBetween_scan l' remove_begin remove_end
          pending_deletes
  end.

(** [static_cast<int>] of a [size_t]. *)
Definition static_cast_int (n : Z) : Z :=
  (n + 2 ^ 31) `mod` 2 ^ 32 - 2 ^ 31.

Definition RemoveDownloadsBetween (remove_begin remove_end : TimeT)
    : M Z :=
  history_RemoveEntriesBetween remove_begin remove_end;;
  (* All downloads visible to the user will be in the history, so scan
     that map. *)
  s ← get;
  pending_deletes ←
    RemoveDownloadsBetween_scan (map_entries (history_downloads_ s))
      remove_begin remove_end [];
  (* If we aren't deleting anything, we're done. *)
  if bool_decide (pending_deletes = []) then mret 0
  else
    (* Remove the chosen downloads from the main owning container. *)
    for_each pending_deletes
      (λ it, modify (set_downloads (λ X, X ∖ {[it]})));;
    (* Tell observers to refresh their views. *)
    NotifyModelChanged;;
    (* Delete the download items themselves. *)
    let num_deleted := static_cast_int (Z.of_nat (length pending_deletes)) in
    for_each pending_deletes delete_;;
    mret num_deleted.

Definition RemoveDownloads (remove_begin : TimeT) : M Z :=
  RemoveDownloadsBetween remove_begin 0.

Definition AddDownloadItemToHistory (download : ptr) (db_handle0 : Z)
    : M unit :=
  (* HistoryBackend::CreateDownload() can call this function with an
     invalid db_handle; we need to assign a unique db_handle here. *)
  handle ←
    (if bool_decide (db_handle0 = kUninitializedHandle)
     then history_GetNextFakeDbHandle else mret db_handle0);
  CHECK (bool_decide (handle ≠ kUninitializedHandle));;
  d ← deref download;
  DCHECK (bool_decide (db_handle d = kUninitializedHandle));;
  update download (Item.set_db_handle handle);;
  s ← get;
  DCHECK (negb (bool_decide (is_Some (history_downloads_ s !! handle))));;
  modify (set_history_downloads <[handle := download]>).

Definition SavePageAsDownloadStarted (download : ptr) : M unit :=
  (if debug_build
   then modify (set_save_page_as_downloads (λ X, {[download]} ∪ X))
   else mret tt);;
  modify (set_downloads (λ X, {[download]} ∪ X));;
  (* Add to history and notify observers. *)
  AddDownloadItemToHistory download kUninitializedHandle;;
  NotifyModelChanged.

Definition CheckForFileRemoval (download_item : ptr) : M unit :=
  d ← deref download_item;
  if Item.IsComplete d && negb (file_externally_removed d) then
    emit (PostFileTask
            (CheckForFileRemovalOnFileThread (db_handle d) (full_path d)))
  else mret tt.

Definition CheckForHistoryFilesRemoval : M unit :=
  s ← get;
  for_each (map_entries (history_downloads_ s))
    (λ it, CheckForFileRemoval it.2).

Definition OnFileRemovalDetected (handle : Z) : M unit :=
  s ← get;
  match history_downloads_ s !! handle with
  | Some download_item =>
      update download_item Item.OnDownloadedFileRemoved
  | None => mret tt
  end.

(** [no_id] is the id a [DownloadItem] built from a history row has. *)
Definition OnQueryDownloadEntriesComplete (no_id : Z)
    (entries : list DownloadHistoryInfo) : M unit :=
  for_each entries (λ e,
    download ← new (Item.Restore no_id e);
    d ← deref download;
    s ← get;
    DCHECK (negb (bool_decide
                    (is_Some (history_downloads_ s !! db_handle d))));;
    modify (set_downloads (λ X, {[download]} ∪ X));;
    modify (set_history_downloads <[db_handle d := download]>));;
  NotifyModelChanged;;
  CheckForHistoryFilesRemoval.

Definition ShowDownloadInBrowser (download : ptr) : M unit :=
  _ ← deref download; emit (ShowDownload download).

Definition OnCreateDownloadEntryComplete (download_id db_handle0 : Z)
    : M unit :=
  download ← GetActiveDownloadItem download_id;
  if bool_decide (download = NULL) then mret tt
  else
    AddDownloadItemToHistory download db_handle0;;
    (* The appropriate browser UI shows it. *)
    ShowDownloadInBrowser download;;
    (* Inform interested objects about the new download. *)
    NotifyModelChanged;;
    d ← deref download;
    (* If the download is still in progress, try to complete it. *)
    if Item.IsInProgress d then MaybeCompleteDownload download
    else
      DCHECK (Item.IsCancelled d);;
      modify (set_in_progress (delete download_id));;
      modify (set_active_downloads (delete download_id));;
      history_UpdateEntry download;;
      emit (ItemUpdateObservers download).

Definition FileSelected (path : FilePath) (download_id : Z) : M unit :=
  download ← GetActiveDownloadItem download_id;
  if bool_decide (download = NULL) then mret tt
  else
    d ← deref download;
    (if prompt_user_for_save_location (state_info d)
     then modify (set_last_download_path (FilePath_DirName path))
     else mret tt);;
    (* Make sure the initial file name is set only once. *)
    ContinueDownloadWithPath download path.

Definition FileSelectionCanceled (download_id : Z) : M unit :=
  download ← GetActiveDownloadItem download_id;
  if bool_decide (download = NULL) then mret tt
  else
    d ← deref download;
    DownloadCancelledInternal download_id (request_handle d).

Definition OnPathExistenceAvailable (download_id : Z)
    (new_state : DownloadStateInfo) : M unit :=
  download ← GetActiveDownloadItem download_id;
  if bool_decide (download = NULL) then mret tt
  else
    update download (Item.SetFileCheckResults new_state);;
    d ← deref download;
    let suggested_path := suggested_path (state_info d) in
    if prompt_user_for_save_location (state_info d) then
      (* We must ask the user for the place to put the download. *)
      emit (DelegateChooseDownloadPath download_id suggested_path);;
      emit (ObserverSelectFileDialogDisplayed download_id)
    else
      (* No prompting for download, just continue with the suggested
         name. *)
      ContinueDownloadWithPath download suggested_path.

(** The [DownloadStateInfo] that [CheckVisitedReferrerBeforeDone] hands to
    the FILE thread. *)
Definition CheckVisitedReferrerBeforeDone_state (d : DownloadItem)
    (visited_referrer_before : bool) : M DownloadStateInfo :=
  let st := state_info d in
  (* Is this download for an extension install or not? *)
  let st :=
    if negb (prompt_user_for_save_location st)
       && (IsURLUserScript (url d) (mime_type d)
           || bool_decide (mime_type d = kMimeType))
    then with_is_extension_install true st else st in
  st ←
    (if bool_decide (force_file_name st = EmptyString) then
       let generated_name := GenerateFileNameFromRequest d in
       (* Freeze the user's preference for showing a Save As dialog. *)
       prefs ← the_prefs;
       st ←
         (if PromptForDownload prefs then
            (* But ignore the user's preference for extension
               installation and for filetypes marked "always open." *)
            if is_extension_install st then mret st
            else
              auto_open ← ShouldOpenFileBasedOnExtension generated_name;
              if negb auto_open
              then mret (with_prompt_user_for_save_location true st)
              else mret st
          else mret st);
       let st :=
         if IsDownloadPathManaged prefs
         then with_prompt_user_for_save_location false st else st in
       s ← get;
       let st :=
         if prompt_user_for_save_location st
            && negb (bool_decide (last_download_path_ s = EmptyString))
         then with_suggested_path (last_download_path_ s) st
         else with_suggested_path (download_path prefs) st in
       mret (with_suggested_path
               (FilePath_Append (suggested_path st) generated_name) st)
     else mret (with_suggested_path (force_file_name st) st));
  if negb (prompt_user_for_save_location st)
     && bool_decide (force_file_name st = EmptyString)
  then
    dangerous ← IsDangerousFile d st visited_referrer_before;
    mret (with_is_dangerous_file dangerous st)
  else mret st.

Definition CheckVisitedReferrerBeforeDone (download_id : Z)
    (visited_referrer_before : bool) : M unit :=
  download ← GetActiveDownloadItem download_id;
  if bool_decide (download = NULL) then mret tt
  else
    d ← deref download;
    st ← CheckVisitedReferrerBeforeDone_state d visited_referrer_before;
    (* We need to move over to the download thread because we don't want
       to stat the suggested path on the UI thread. *)
    prefs ← the_prefs;
    emit (PostFileTask
            (CheckIfSuggestedPathExists (id d) st (download_path prefs))).

Definition CheckDownloadUrlDone (download_id : Z) (is_dangerous_url : bool)
    : M unit :=
  download ← GetActiveDownloadItem download_id;
  if bool_decide (download = NULL) then mret tt
  else
    (if is_dangerous_url
     then update download Item.MarkUrlDangerous else mret tt);;
    d ← deref download;
    history_CheckVisitedReferrerBefore download_id (referrer_url d).

Definition StartDownload (download_id : Z) : M unit :=
  download ← GetActiveDownloadItem download_id;
  if bool_decide (download = NULL) then mret tt
  else if enable_safe_browsing then
    _ ← deref download; _ ← the_profile;
    emit (SBCheckDownloadUrl download_id)
  else CheckDownloadUrlDone download_id false.

Definition ClearLastDownloadPath : M unit :=
  modify (set_last_download_path EmptyString).

(** Modelled from the spec: [DownloadItem::Cancel] is not under src/.  It
    marks the Record CANCELLED and tells its observers; with
    [update_history] it goes through the manager's cancellation. *)
Definition DownloadItem_Cancel (update_history : bool) (download : ptr)
    : M unit :=
  update download Item.Cancelled;;
  emit (ItemUpdateObservers download);;
  if update_history
  then d ← deref download; DownloadCancelled (id d)
  else mret tt.

(** Modelled from the spec: [DownloadItem::Delete] is not under src/.  It
    deletes the on-disk data of the Record and asks the manager to
    remove it, which (as [Shutdown] notes) happens only when the history
    service knows it. *)
Definition DownloadItem_Delete (reason : DeleteReason) (download : ptr)
    : M unit :=
  d ← deref download;
  emit (PostFileTask (DeleteDownloadedFile (full_path d)));;
  RemoveDownload (db_handle d).

(** Confirm that everything in all maps is also in [downloads_], and that
    everything in [downloads_] is also in some other map. *)
Definition AssertContainersConsistent : M unit :=
  if debug_build then
    s ← get;
    let active_set : gset ptr := map_img (active_downloads_ s) in
    let history_set : gset ptr := map_img (history_downloads_ s) in
    DCHECK (bool_decide (active_set ∖ downloads_ s = ∅));;
    DCHECK (bool_decide (history_set ∖ downloads_ s = ∅));;
    DCHECK (bool_decide (save_page_as_downloads_ s ∖ downloads_ s = ∅));;
    let downloads_union :=
      active_set ∪ history_set ∪ save_page_as_downloads_ s in
    DCHECK (bool_decide (downloads_ s ∖ downloads_union = ∅))
  else mret tt.

(** The body of the loop of [Shutdown] for one element. *)
Definition Shutdown_visit (download : ptr) : M unit :=
  d ← deref download;
  if bool_decide (safety_state d = DANGEROUS) && IsPartialDownload d then
    (* The user hasn't accepted it, so we need to remove it from the
       disk. *)
    DownloadItem_Delete DELETE_DUE_TO_BROWSER_SHUTDOWN download
  else if IsPartialDownload d then
    DownloadItem_Cancel false download;;
    history_UpdateEntry download
  else mret tt.

(** The loop of [Shutdown] over [downloads_].  [positions] are the
    elements of the set when the loop starts, in order.  The iterator is
    advanced before the element is visited; called code may erase
    elements, and an element erased before the iterator reaches it is
    never visited, but erasing the one the iterator stands on leaves the
    iterator invalid. *)
Fixpoint Shutdown_loop (positions : list ptr) : M unit :=
  match positions with
  | [] => mret tt
  | download :: rest =>
      s ← get;
      if bool_decide (download ∈ downloads_ s) then
        let it := head (filter (λ q, q ∈ downloads_ s) rest) in
        Shutdown_visit download;;
        s' ← get;
        match it with
        | Some next =>
            if bool_decide (next ∈ downloads_ s') then Shutdown_loop rest
            else crash InvalidIterator
        | None => Shutdown_loop rest
        end
      else Shutdown_loop rest
  end.

Definition Shutdown : M unit :=
  s ← get;
  if negb (shutdown_needed_ s) then mret tt
  else
    modify (set_shutdown_needed false);;
    emit ObserverManagerGoingDown;;
    (if file_manager_ s
     then emit (PostFileTask OnDownloadManagerShutdown) else mret tt);;
    AssertContainersConsistent;;
    (* Go through all downloads in downloads_.  Dangerous ones we need to
       remove on disk, and in progress ones we need to cancel. *)
    Shutdown_loop (set_entries (downloads_ s));;
    (* Copy downloads_ to separate container so as not to set off checks
       in DownloadItem destruction. *)
    s ← get;
    let downloads_to_delete := downloads_ s in
    modify (set_downloads (λ _, ∅));;
    modify (set_in_progress (λ _, ∅));;
    modify (set_active_downloads (λ _, ∅));;
    modify (set_history_downloads (λ _, ∅));;
    (if debug_build
     then modify (set_save_page_as_downloads (λ _, ∅)) else mret tt);;
    for_each (set_entries downloads_to_delete) delete_;;
    modify (set_file_manager false);;
    modify (set_download_history None);;
    modify (set_download_prefs None);;
    modify (set_shutdown_needed false).

(** Query the history service for information about all persisted
    downloads.  [rdh] tells whether the process has a
    [ResourceDispatcherHost]. *)
Definition Init (profile : Profile) (rdh : bool) : M bool :=
  s ← get;
  DCHECK (negb (shutdown_needed_ s));;
  modify (set_shutdown_needed true);;
  modify (set_profile (Some profile));;
  modify (set_download_history (Some 0%nat));;
  emit HistoryLoad;;
  modify (set_download_prefs (Some (GetPrefs profile)));;
  (if rdh then modify (set_file_manager true) else mret tt);;
  mret true.

End manager.

(** ** Further members of [DownloadManager]

    The queries over the durable index, the progress counters and the
    destructor. *)

(** [DownloadItem::is_temporary], an accessor of [DownloadItem] that
    [download_manager.cc] only reads; like [IsPartialDownload] it is left
    abstract. *)
Class ItemAccessors := {
  is_temporary : DownloadItem → bool }.

(** The value of an [int64] after an arithmetic step or a conversion from
    [size_t]. *)
Definition to_int64 (z : Z) : Z := (z + 2 ^ 63) `mod` 2 ^ 64 - 2 ^ 63.

Section queries.
Context {cfg : Config} {acc : ItemAccessors}.

(** [~DownloadManager]; the registration with the status updater is
    outside the manager's own state. *)
Definition DownloadManager_dtor : M unit :=
  s ← get;
  DCHECK (negb (shutdown_needed_ s)).

(** The loop of [GetTemporaryDownloads] over [history_downloads_]. *)
Fixpoint GetTemporaryDownloads_scan (l : list (Z * ptr))
    (dir_path : FilePath) (result : list ptr) : M (list ptr) :=
  match l with
  | [] => mret result
  | (_, item) :: l' =>
      d ← deref item;
      if is_temporary d
         && bool_decide (FilePath_DirName (full_path d) = dir_path)
      then GetTemporaryDownloads_scan l' dir_path (result ++ [item])
      else GetTemporaryDownloads_scan l' dir_path result
  end.

(** [result] is the vector the caller passes; the items found are pushed
    at its back. *)
Definition GetTemporaryDownloads (dir_path : FilePath)
    (result : list ptr) : M (list ptr) :=
  s ← get;
  GetTemporaryDownloads_scan (map_entries (history_downloads_ s))
    dir_path result.

(** The loop of [GetAllDownloads] over [history_downloads_]. *)
Fixpoint GetAllDownloads_scan (l : list (Z * ptr))
    (dir_path : FilePath) (result : list ptr) : M (list ptr) :=
  match l with
  | [] => mret result
  | (_, item) :: l' =>
      d ← deref item;
      if negb (is_temporary d)
         && (bool_decide (dir_path = EmptyString)
             || bool_decide (FilePath_DirName (full_path d) = dir_path))
      then GetAllDownloads_scan l' dir_path (result ++ [item])
      else GetAllDownloads_scan l' dir_path result
  end.

Definition GetAllDownloads (dir_path : FilePath) (result : list ptr)
    : M (list ptr) :=
  s ← get;
  GetAllDownloads_scan (map_entries (history_downloads_ s)) dir_path result.

(** The loop of [IsDownloadProgressKnown] over [in_progress_]; it
    returns at the first Record whose total size is not known. *)
Fixpoint IsDownloadProgressKnown_scan (l : list (Z * ptr)) : M bool :=
  match l with
  | [] => mret true
  | (_, item) :: l' =>
      d ← deref item;
      if bool_decide (total_bytes d ≤ 0) then mret false
      else IsDownloadProgressKnown_scan l'
  end.

Definition IsDownloadProgressKnown : M bool :=
  s ← get;
  IsDownloadProgressKnown_scan (map_entries (in_progress_ s)).

Definition GetInProgressDownloadCount : M Z :=
  s ← get;
  mret (to_int64 (Z.of_nat (size (in_progress_ s)))).

(** A [DCHECK] whose condition is a call: the call is made only in a
    build that compiles [DCHECK]s in. *)
Definition DCHECK_call (test : M bool) : M unit :=
  if debug_build then b ← test; DCHECK b else mret tt.

(** The summing loops of [GetReceivedDownloadBytes] and
    [GetTotalDownloadBytes]. *)
Fixpoint sum_bytes_scan (l : list (Z * ptr)) (bytes : DownloadItem → Z)
    (acc_bytes : Z) : M Z :=
  match l with
  | [] => mret acc_bytes
  | (_, item) :: l' =>
      d ← deref item;
      sum_bytes_scan l' bytes (to_int64 (acc_bytes + bytes d))
  end.

Definition GetReceivedDownloadBytes : M Z :=
  DCHECK_call IsDownloadProgressKnown;;
  s ← get;
  sum_bytes_scan (map_entries (in_progress_ s)) received_bytes 0.

Definition GetTotalDownloadBytes : M Z :=
  DCHECK_call IsDownloadProgressKnown;;
  s ← get;
  sum_bytes_scan (map_entries (in_progress_ s)) total_bytes 0.

End queries.

(** ** Sample configurations and states *)

(** ** Sample configurations and inputs

    A concrete choice of the abstract constants and helpers, used to run the
    model on explicit inputs. *)
Definition sample_config (debug : bool) : Config :=
  {| debug_build := debug; enable_safe_browsing := false;
     kUninitializedHandle := 0; fake_db_handle := λ n, -1 - Z.of_nat n;
     ERR_CONNECTION_CLOSED := -100;
     kMimeType := "application/x-chrome-extension";
     IsURLUserScript := λ _ _, false; Extension_IsExtension := λ _, false;
     IsDownloadFromGallery := λ _ _, false;
     GenerateFileNameFromRequest := λ _, "report.pdf"%string;
     GetFileDangerLevel := λ _, NotDangerous;
     GetCrDownloadPath := λ p, (p ++ ".crdownload")%string;
     FilePath_Extension := λ _, ".pdf"%string;
     FilePath_BaseName := λ p, p;
     FilePath_DirName := λ _, "/home"%string;
     FilePath_Append := λ a b, (a ++ "/" ++ b)%string;
     IsPartialDownload := Item.IsInProgress |}.

Definition sample_prefs (prompt managed : bool) : DownloadPrefs :=
  {| PromptForDownload := prompt; IsDownloadPathManaged := managed;
     download_path := "/downloads";
     IsAutoOpenEnabledForExtension := λ e, String.eqb e "txt" |}.

(** Preferences that ask for a prompt and open PDF files automatically. *)
Definition auto_open_prefs : DownloadPrefs :=
  {| PromptForDownload := true; IsDownloadPathManaged := false;
     download_path := "/downloads";
     IsAutoOpenEnabledForExtension := λ e, String.eqb e "pdf" |}.

Definition sample_profile : Profile :=
  {| IsOffTheRecord := false; has_extension_service := false;
     GetPrefs := sample_prefs false false |}.

Definition sample_state_info : DownloadStateInfo :=
  {| suggested_path := EmptyString; target_name := EmptyString;
     path_uniquifier := 0;
     has_user_gesture := false; prompt_user_for_save_location := false;
     is_dangerous_file := false; is_dangerous_url := false;
     is_extension_install := false; force_file_name := EmptyString |}.

Definition sample_info (n : Z) : DownloadCreateInfo :=
  {| download_id := n; info_url := "http://example.org/report.pdf";
     info_referrer_url := "http://example.org/";
     info_mime_type := "application/pdf";
     info_start_time := 100 + n; info_total_bytes := 1000;
     info_request_handle := n; info_state := sample_state_info |}.

(** The manager as its constructor leaves it. *)
Definition DownloadManager_ctor (status_updater : bool) : DownloadManager :=
  {| shutdown_needed_ := false; profile_ := None; file_manager_ := false;
     status_updater_ := status_updater; download_history_ := None;
     download_prefs_ := None; last_download_path_ := EmptyString; heap := ∅;
     downloads_ := ∅; history_downloads_ := ∅; in_progress_ := ∅;
     active_downloads_ := ∅; save_page_as_downloads_ := ∅; trace := [] |}.

(** The state a run leaves; a run that crashes leaves none, and the state
    it started from stands in. *)
Definition state_after {A} (m : M A) (s : DownloadManager) : DownloadManager :=
  match m s with
  | Ok _ s' => s'
  | Crash _ => s
  end.

Section sample_runs.
Context (debug : bool).
Local Instance sample_run_config : Config := sample_config debug.

(** [Init] has run. *)
Definition initialized : DownloadManager :=
  state_after (Init sample_profile false) (DownloadManager_ctor false).

(** Download 1 was created. *)
Definition created : DownloadManager :=
  state_after (CreateDownloadItem (sample_info 1)) initialized.

(** Its path was chosen; the history service has not answered yet. *)
Definition awaiting_handle : DownloadManager :=
  state_after (FileSelected "/home/a.pdf" 1) created.

(** The history service answered with handle 5. *)
Definition in_history : DownloadManager :=
  state_after (OnCreateDownloadEntryComplete 1 5) awaiting_handle.



(** The data of download 1 arrived before the answer of the history
    service. *)
Definition data_before_handle : DownloadManager :=
  state_after (OnAllDataSaved 1 1000 EmptyString) awaiting_handle.

(** The history service was offline and answered with the uninitialized
    handle. *)
Definition offline_history : DownloadManager :=
  state_after (OnCreateDownloadEntryComplete 1 kUninitializedHandle)
    awaiting_handle.

(** Downloads 1 and 2 had their paths chosen while the history service
    was offline: it answered both with the uninitialized handle. *)
Definition two_created : DownloadManager :=
  state_after (CreateDownloadItem (sample_info 2)) created.

Definition two_awaiting : DownloadManager :=
  state_after (FileSelected "/home/b.pdf" 2)
    (state_after (FileSelected "/home/a.pdf" 1) two_created).

Definition two_offline : DownloadManager :=
  state_after (OnCreateDownloadEntryComplete 2 kUninitializedHandle)
    (state_after (OnCreateDownloadEntryComplete 1 kUninitializedHandle)
       two_awaiting).

(** Download 1 was created under preferences that ask for a prompt. *)
Definition prompting : DownloadManager :=
  set_download_prefs (Some (sample_prefs true false)) created.

(** Download 1 was created under preferences that ask for a prompt and
    open its kind of file automatically. *)
Definition auto_opening : DownloadManager :=
  set_download_prefs (Some auto_open_prefs) created.

(** [Shutdown] has run after [Init]. *)
Definition shut_down : DownloadManager :=
  state_after Shutdown initialized.

(** Five rows replayed from the history service: three COMPLETE ones that
    started in [100, 200), a COMPLETE one that started later, and a
    CANCELLED one that started earlier. *)
Definition sample_row (handle : Z) (start : TimeT) (st : DownloadState)
    : DownloadHistoryInfo :=
  {| hi_db_handle := handle; hi_path := "/downloads/file";
     hi_url := "http://example.org/file"; hi_referrer_url := EmptyString;
     hi_start_time := start; hi_received_bytes := 10;
     hi_total_bytes := 10; hi_state := st |}.

Definition sample_rows : list DownloadHistoryInfo :=
  [ sample_row 1 50 CANCELLED; sample_row 2 100 COMPLETE;
    sample_row 3 150 COMPLETE; sample_row 4 199 COMPLETE;
    sample_row 5 200 COMPLETE ].

(** Six rows of mixed fate: one that started before time 100, an
    INTERRUPTED, a CANCELLED and an unfinished one that started between 100
    and 200, and two COMPLETE ones that started later. *)
Definition mixed_rows : list DownloadHistoryInfo :=
  [ sample_row 1 50 COMPLETE; sample_row 2 100 INTERRUPTED;
    sample_row 3 150 CANCELLED; sample_row 4 150 IN_PROGRESS;
    sample_row 5 200 COMPLETE; sample_row 6 900 COMPLETE ].

Definition replayed_mixed : DownloadManager :=
  state_after (OnQueryDownloadEntriesComplete (-1) mixed_rows) initialized.

Definition replayed : DownloadManager :=
  state_after (OnQueryDownloadEntriesComplete (-1) sample_rows) initialized.

End sample_runs.

(** The Record of download 1 once its path is committed. *)
Definition committed_item (debug : bool) : DownloadItem :=
  Item.Rename "/home/a.pdf.crdownload"
    (Item.Create (cfg:=sample_config debug) (sample_info 1) false).

(** A sample reading of [is_temporary]: the Records with an even id. *)
Definition sample_accessors : ItemAccessors :=
  {| is_temporary := λ d, Z.even (id d) |}.

(** The Record of download 1 in [in_history]. *)
Definition filed_item (debug : bool) : DownloadItem :=
  Item.set_db_handle 5 (committed_item debug).

(** Download 1 was cancelled before the history service answered. *)
Definition cancelled_early (debug : bool) : DownloadManager :=
  state_after (DownloadItem_Cancel (cfg:=sample_config debug) true 1%N)
    (awaiting_handle debug).

(** A request whose target file name is forced. *)
Definition forced_info : DownloadCreateInfo :=
  {| download_id := 2; info_url := "http://example.org/report.pdf";
     info_referrer_url := "http://example.org/";
     info_mime_type := "application/pdf";
     info_start_time := 102; info_total_bytes := 1000;
     info_request_handle := 2;
     info_state :=
       {| suggested_path := EmptyString; target_name := EmptyString;
          path_uniquifier := 0; has_user_gesture := false;
          prompt_user_for_save_location := false;
          is_dangerous_file := false; is_dangerous_url := false;
          is_extension_install := false;
          force_file_name := "/tmp/forced.pdf" |} |}.

Definition forced (debug : bool) : DownloadManager :=
  state_after (CreateDownloadItem (cfg:=sample_config debug) forced_info)
    (initialized debug).

(** The answer of the FILE thread when the user is to be asked. *)
Definition prompt_state : DownloadStateInfo :=
  {| suggested_path := "/downloads/report.pdf"; target_name := EmptyString;
     path_uniquifier := 0; has_user_gesture := false;
     prompt_user_for_save_location := true;
     is_dangerous_file := false; is_dangerous_url := false;
     is_extension_install := false; force_file_name := EmptyString |}.

(** A page being saved: its Record was created by another owner. *)
Definition saving_page (debug : bool) : DownloadManager :=
  set_heap
    <[7%N := Item.Create (cfg:=sample_config debug) (sample_info 7) false]>
    (initialized debug).

(** The answer of the FILE thread for an extension install after a click. *)
Definition install_state (gesture : bool) : DownloadStateInfo :=
  {| suggested_path := "/downloads/report.pdf"; target_name := EmptyString;
     path_uniquifier := 0; has_user_gesture := gesture;
     prompt_user_for_save_location := false;
     is_dangerous_file := false; is_dangerous_url := false;
     is_extension_install := true; force_file_name := EmptyString |}.

(** * Specification vocabulary *)

(** [wp m Q s]: from [s], [m] returns normally and [Q] holds of the result.
    [wlp m Q s]: if [m] returns normally from [s], [Q] holds of the
    result. *)
Definition wp {A} (m : M A) (Q : A → DownloadManager → Prop)
    (s : DownloadManager) : Prop :=
  match m s with
  | Ok a s' => Q a s'
  | Crash _ => False
  end.

Definition wlp {A} (m : M A) (Q : A → DownloadManager → Prop)
    (s : DownloadManager) : Prop :=
  match m s with
  | Ok a s' => Q a s'
  | Crash _ => True
  end.

(** ** Reachable states

    The entry points through which the rest of the browser drives the
    manager: its public members, the callbacks it registers, the members of
    [DownloadItem] that the user interface invokes, and the creation of a
    [DownloadItem] by another owner (a page being saved). *)
Inductive Call :=
  | CallInit (profile : Profile) (rdh : bool)
  | CallShutdown
  | CallStartDownload (download_id : Z)
  | CallCheckDownloadUrlDone (download_id : Z) (is_dangerous_url : bool)
  | CallCheckVisitedReferrerBeforeDone (download_id : Z) (visited : bool)
  | CallOnPathExistenceAvailable (download_id : Z) (st : DownloadStateInfo)
  | CallCreateDownloadItem (info : DownloadCreateInfo)
  | CallFileSelected (path : FilePath) (download_id : Z)
  | CallFileSelectionCanceled (download_id : Z)
  | CallUpdateDownload (download_id size : Z)
  | CallOnResponseCompleted (download_id size os_error : Z) (hash : string)
  | CallOnAllDataSaved (download_id size : Z) (hash : string)
  | CallOnDownloadError (download_id size os_error : Z)
  | CallCheckDownloadHashDone (download_id : Z) (is_dangerous_hash : bool)
  | CallMaybeCompleteDownload (download : ptr)
  | CallDownloadCompleted (download_id : Z)
  | CallOnDownloadRenamedToFinalName (download_id : Z) (path : FilePath)
      (uniquifier : Z)
  | CallDownloadCancelled (download_id : Z)
  | CallRemoveDownload (handle : Z)
  | CallRemoveDownloadsBetween (remove_begin remove_end : TimeT)
  | CallRemoveDownloads (remove_begin : TimeT)
  | CallSavePageAsDownloadStarted (download : ptr)
  | CallOnQueryDownloadEntriesComplete (no_id : Z)
      (entries : list DownloadHistoryInfo)
  | CallOnCreateDownloadEntryComplete (download_id handle : Z)
  | CallOnFileRemovalDetected (handle : Z)
  | CallClearLastDownloadPath
  | CallCheckForHistoryFilesRemoval
  | CallAssertQueueStateConsistent (download : ptr)
  | CallItemCancel (update_history : bool) (download : ptr)
  | CallItemDelete (reason : DeleteReason) (download : ptr)
  | CallItemUpdate (download : ptr) (f : DownloadItem → DownloadItem)
  | CallNewItem (d : DownloadItem).

Section specification.
Context {cfg : Config}.
Implicit Types (s : DownloadManager) (m : gmap Z ptr).

(** The four conditions of [IsDownloadReadyForCompletion]. *)
Definition eligible (s : DownloadManager) (d : DownloadItem) : Prop :=
  all_data_saved d = true ∧ safety_state d ≠ DANGEROUS
  ∧ is_Some (active_downloads_ s !! id d)
  ∧ db_handle d ≠ kUninitializedHandle.



(** What cancellation and interruption do to an index. *)
Definition after_cancel (d : DownloadItem) (download_id : Z)
    (index : gmap Z ptr) : gmap Z ptr :=
  if bool_decide (db_handle d ≠ kUninitializedHandle)
  then delete download_id index else index.

(** The name [ContinueDownloadWithPath] leaves in the Record. *)
Definition committed_name (d : DownloadItem) (chosen_file : FilePath)
    : FilePath :=
  if Item.IsDangerous d then chosen_file else GetCrDownloadPath chosen_file.

(** [FilePath::Extension] returns the empty string or a string that starts
    with the separator. *)
Definition extension_contract : Prop :=
  ∀ path c rest, FilePath_Extension path = String c rest → c = "."%char.

(** Whether [CheckVisitedReferrerBeforeDone] takes the download for an
    extension install. *)
Definition taken_for_extension_install (d : DownloadItem) : bool :=
  is_extension_install (state_info d)
  || negb (prompt_user_for_save_location (state_info d))
     && (IsURLUserScript (url d) (mime_type d)
         || bool_decide (mime_type d = kMimeType)).

(** The file at [path] is configured to open automatically: it has an
    extension, it is not an extension package, and the preferences list
    the extension, taken without its separator, as one to open
    automatically. *)
Definition opens_automatically (prefs : DownloadPrefs) (path : FilePath)
    : bool :=
  match FilePath_Extension path with
  | EmptyString => false
  | String _ extension =>
      negb (Extension_IsExtension path)
      && IsAutoOpenEnabledForExtension prefs extension
  end.

(** The Records that [RemoveDownloadsBetween] selects. *)
Definition purged (s : DownloadManager) (remove_begin remove_end : TimeT)
    (download : ptr) : bool :=
  match heap s !! download with
  | Some d => in_removal_range remove_begin remove_end d
  | None => false
  end.

(** The entries of the durable index whose Record is selected. *)
Definition purged_entries (s : DownloadManager)
    (remove_begin remove_end : TimeT) : gmap Z ptr :=
  filter (λ kp, purged s remove_begin remove_end kp.2 = true)
    (history_downloads_ s).

(** What [AssertQueueStateConsistent] demands of a Record in a terminal
    state that the durable index holds under [handle]. *)
Definition queue_state_consistent (s : DownloadManager) (handle : Z)
    (download : ptr) (d : DownloadItem) : Prop :=
  download ∈ downloads_ s ∧ db_handle d = handle
  ∧ handle ≠ kUninitializedHandle
  ∧ active_downloads_ s !! id d = None ∧ in_progress_ s !! id d = None.

(** What the scan needs of the state to return. *)
Definition scan_ready (s : DownloadManager)
    (remove_begin remove_end : TimeT) : Prop :=
  is_Some (download_history_ s)
  ∧ heap s !! NULL = None
  ∧ (∀ handle download,
       history_downloads_ s !! handle = Some download →
       ∃ d, heap s !! download = Some d
            ∧ (in_removal_range remove_begin remove_end d = true →
               queue_state_consistent s handle download d))
  ∧ Z.of_nat (size (history_downloads_ s)) < 2 ^ 31.

(** The selection of the range removal in the words of the
    specification: the Record started at [t0] or later and before [t1], a
    null [t1] leaving the range open at its end, and its life state is
    terminal. *)
Definition started_within (t0 t1 : TimeT) (d : DownloadItem) : Prop :=
  t0 ≤ start_time d ∧ (t1 = 0 ∨ start_time d < t1).

Definition terminal (d : DownloadItem) : Prop :=
  state d = COMPLETE ∨ state d = CANCELLED ∨ state d = INTERRUPTED.

Definition to_purge (s : DownloadManager) (t0 t1 : TimeT) (download : ptr)
    : Prop :=
  match heap s !! download with
  | Some d => started_within t0 t1 d ∧ terminal d
  | None => False
  end.

Global Instance to_purge_dec s t0 t1 download :
  Decision (to_purge s t0 t1 download).
Proof.
  unfold to_purge, started_within, terminal.
  destruct (heap s !! download); apply _.
Defined.

(** The entries of the durable index that the range removal is to
    purge. *)
Definition purge_set (s : DownloadManager) (t0 t1 : TimeT) : gmap Z ptr :=
  filter (λ kp, to_purge s t0 t1 kp.2) (history_downloads_ s).

(** The states in which the range removal is called: the history service
    is there, the durable index leads to live Records, the Records to
    purge pass [AssertQueueStateConsistent], and the index is small enough
    for its size to fit an [int]. *)
Definition removal_ready (s : DownloadManager) (t0 t1 : TimeT) : Prop :=
  is_Some (download_history_ s)
  ∧ heap s !! NULL = None
  ∧ (∀ handle download,
       history_downloads_ s !! handle = Some download →
       ∃ d, heap s !! download = Some d
            ∧ (started_within t0 t1 d → terminal d →
               queue_state_consistent s handle download d))
  ∧ Z.of_nat (size (history_downloads_ s)) < 2 ^ 31.

(** The keys that the scan erases, erased from [m]. *)
Definition erase_entries (l : list (Z * ptr)) m : gmap Z ptr :=
  foldl (λ m kp, delete kp.1 m) m l.

(** The data-model invariants that tie the Records, the master collection
    and the durable index together. *)
Definition records_consistent s : Prop :=
  is_Some (download_history_ s)
  ∧ heap s !! NULL = None
  ∧ (∀ p, p ∈ downloads_ s → is_Some (heap s !! p))
  ∧ (∀ h p, history_downloads_ s !! h = Some p →
            p ∈ downloads_ s ∧ ∃ d, heap s !! p = Some d ∧ db_handle d = h)
  ∧ (∀ p d q, p ∈ downloads_ s → heap s !! p = Some d →
              history_downloads_ s !! db_handle d = Some q → q = p).

(** What [AssertContainersConsistent] checks; a build without DCHECKs has
    no [save_page_as_downloads_]. *)
Definition containers_consistent s : Prop :=
  if debug_build then
    map_img (active_downloads_ s) ⊆ downloads_ s
    ∧ map_img (history_downloads_ s) ⊆ downloads_ s
    ∧ save_page_as_downloads_ s ⊆ downloads_ s
    ∧ downloads_ s ⊆ map_img (active_downloads_ s)
                      ∪ map_img (history_downloads_ s)
                      ∪ save_page_as_downloads_ s
  else save_page_as_downloads_ s = ∅.

Definition consistent s : Prop :=
  records_consistent s ∧ containers_consistent s.

(** What [Shutdown] makes the outside world see for a Record that is
    partial when [Shutdown] starts. *)
Definition shutdown_event (download : ptr) (d : DownloadItem) : Event :=
  if bool_decide (safety_state d = DANGEROUS)
  then PostFileTask (DeleteDownloadedFile (full_path d))
  else HistoryUpdateEntry download (Item.Cancelled d).

(** The effect of one visit of the loop of [Shutdown] on a Record that
    satisfies the invariants. *)
Definition visited (download : ptr) (d : DownloadItem) s s' : Prop :=
  records_consistent s'
  ∧ downloads_ s' ⊆ downloads_ s
  ∧ (∀ q, q ≠ download → q ∈ downloads_ s → q ∈ downloads_ s')
  ∧ (∀ q, q ≠ download → heap s' !! q = heap s !! q)
  ∧ (download ∉ downloads_ s' → heap s' !! download = None)
  ∧ save_page_as_downloads_ s' = save_page_as_downloads_ s
  ∧ ∃ t, trace s' = trace s ++ t
         ∧ (IsPartialDownload d = true → shutdown_event download d ∈ t).

(** The effect of the loop of [Shutdown] over the positions [l]. *)
Definition looped (l : list ptr) s s' : Prop :=
  records_consistent s'
  ∧ downloads_ s' ⊆ downloads_ s
  ∧ (∀ q, q ∉ l → heap s' !! q = heap s !! q)
  ∧ (∀ q, q ∈ downloads_ s → q ∉ downloads_ s' → heap s' !! q = None)
  ∧ save_page_as_downloads_ s' = save_page_as_downloads_ s
  ∧ ∃ t, trace s' = trace s ++ t
         ∧ ∀ p d, p ∈ l → heap s !! p = Some d →
                  IsPartialDownload d = true → shutdown_event p d ∈ t.

Definition run_call (c : Call) : M unit :=
  match c with
  | CallInit profile rdh => _ ← Init profile rdh; mret tt
  | CallShutdown => Shutdown
  | CallStartDownload i => StartDownload i
  | CallCheckDownloadUrlDone i b => CheckDownloadUrlDone i b
  | CallCheckVisitedReferrerBeforeDone i b =>
      CheckVisitedReferrerBeforeDone i b
  | CallOnPathExistenceAvailable i st => OnPathExistenceAvailable i st
  | CallCreateDownloadItem info => CreateDownloadItem info
  | CallFileSelected path i => FileSelected path i
  | CallFileSelectionCanceled i => FileSelectionCanceled i
  | CallUpdateDownload i size => UpdateDownload i size
  | CallOnResponseCompleted i size e hash =>
      OnResponseCompleted i size e hash
  | CallOnAllDataSaved i size hash => OnAllDataSaved i size hash
  | CallOnDownloadError i size e => OnDownloadError i size e
  | CallCheckDownloadHashDone i b => CheckDownloadHashDone i b
  | CallMaybeCompleteDownload p => MaybeCompleteDownload p
  | CallDownloadCompleted i => DownloadCompleted i
  | CallOnDownloadRenamedToFinalName i path n =>
      OnDownloadRenamedToFinalName i path n
  | CallDownloadCancelled i => DownloadCancelled i
  | CallRemoveDownload h => RemoveDownload h
  | CallRemoveDownloadsBetween b e => _ ← RemoveDownloadsBetween b e; mret tt
  | CallRemoveDownloads b => _ ← RemoveDownloads b; mret tt
  | CallSavePageAsDownloadStarted p => SavePageAsDownloadStarted p
  | CallOnQueryDownloadEntriesComplete no_id entries =>
      OnQueryDownloadEntriesComplete no_id entries
  | CallOnCreateDownloadEntryComplete i h =>
      OnCreateDownloadEntryComplete i h
  | CallOnFileRemovalDetected h => OnFileRemovalDetected h
  | CallClearLastDownloadPath => ClearLastDownloadPath
  | CallCheckForHistoryFilesRemoval => CheckForHistoryFilesRemoval
  | CallAssertQueueStateConsistent p => AssertQueueStateConsistent p
  | CallItemCancel b p => DownloadItem_Cancel b p
  | CallItemDelete r p => DownloadItem_Delete r p
  | CallItemUpdate p f => update p f
  | CallNewItem d => _ ← new d; mret tt
  end.

(** The Record at [download], if there is one, has no durable handle. *)
Definition no_handle_yet s (download : ptr) : Prop :=
  ∀ d, heap s !! download = Some d → db_handle d = kUninitializedHandle.

(** What the callers owe the manager: the history service replays rows
    that carry an assigned handle and answers each [AddEntry] once, a page
    being saved is announced once, and only the manager assigns durable
    handles. *)
Definition admissible (c : Call) s : Prop :=
  match c with
  | CallOnQueryDownloadEntriesComplete _ entries =>
      ∀ e, e ∈ entries → hi_db_handle e ≠ kUninitializedHandle
  | CallOnCreateDownloadEntryComplete i _ =>
      ∀ p, active_downloads_ s !! i = Some p → no_handle_yet s p
  | CallSavePageAsDownloadStarted p => no_handle_yet s p
  | CallItemUpdate _ f => ∀ d, db_handle (f d) = db_handle d
  | _ => True
  end.

Inductive reachable : DownloadManager → Prop :=
  | reachable_ctor status_updater :
      reachable (DownloadManager_ctor status_updater)
  | reachable_call s c s' :
      reachable s → admissible c s → run_call c s = Ok tt s' →
      reachable s'.

(** Every key of the durable index is an assigned handle, and it is the
    handle of the Record it leads to. *)
Definition history_index_ok s : Prop :=
  ∀ h p, history_downloads_ s !! h = Some p →
         h ≠ kUninitializedHandle
         ∧ ∃ d, heap s !! p = Some d ∧ db_handle d = h.

(** [m] keeps the durable index in order. *)
Definition preserves {A} (m : M A) : Prop :=
  ∀ s, history_index_ok s → wlp m (λ _ s', history_index_ok s') s.

End specification.

(** ** Vocabulary of the further properties *)

Section further_vocabulary.
Context {cfg : Config} {acc : ItemAccessors}.
Implicit Types (s : DownloadManager).

(** What [AssertQueueStateConsistent] demands of the Record [d] at
    [download]. *)
Definition queue_state_ok s (download : ptr) (d : DownloadItem) : Prop :=
  if bool_decide (state d = REMOVING) then
    ((download ∉ downloads_ s)
     ∧ active_downloads_ s !! id d = None
     ∧ in_progress_ s !! id d = None
     ∧ history_downloads_ s !! db_handle d = None)
  else
    (download ∈ downloads_ s
     ∧ (if bool_decide (db_handle d ≠ kUninitializedHandle)
        then is_Some (history_downloads_ s !! db_handle d)
        else ∀ h, history_downloads_ s !! h ≠ Some download)
     ∧ (is_Some (active_downloads_ s !! id d) ↔ state d = IN_PROGRESS)
     ∧ (is_Some (in_progress_ s !! id d) ↔ state d = IN_PROGRESS)).

(** Every pointer of the durable index leads to a Record. *)
Definition history_live s : Prop :=
  ∀ h p, history_downloads_ s !! h = Some p → is_Some (heap s !! p).

(** What [GetDownloadItem] owes its caller: NULL when no Record of the
    durable index has the id, and otherwise a Record of the durable index
    that has it. *)
Definition found_by_id s (download_id : Z) (r : ptr) : Prop :=
  (r = NULL
   ∧ ∀ h p d, history_downloads_ s !! h = Some p →
              heap s !! p = Some d → id d ≠ download_id)
  ∨ (r ≠ NULL
     ∧ ∃ h d, history_downloads_ s !! h = Some r ∧ heap s !! r = Some d
              ∧ id d = download_id).

(** What [UpdateAppIcon] makes the status updater see. *)
Definition app_icon_events s : list Event :=
  if status_updater_ s then [StatusUpdaterUpdate] else [].

(** The indices and the master collection are the same in both states. *)
Definition same_indices s s' : Prop :=
  downloads_ s' = downloads_ s
  ∧ active_downloads_ s' = active_downloads_ s
  ∧ in_progress_ s' = in_progress_ s
  ∧ history_downloads_ s' = history_downloads_ s
  ∧ save_page_as_downloads_ s' = save_page_as_downloads_ s.

(** A Record of the durable index has the transient id [download_id]. *)
Definition known_to_history s (download_id : Z) : Prop :=
  ∃ h p d, history_downloads_ s !! h = Some p ∧ heap s !! p = Some d
           ∧ id d = download_id.

(** The Record after the final rename. *)
Definition renamed_to_final_name (full_path : FilePath) (uniquifier : Z)
    (d : DownloadItem) : DownloadItem :=
  Item.OnDownloadRenamedToFinalName full_path
    (if bool_decide (uniquifier ≠ 0)
     then Item.set_path_uniquifier uniquifier d else d).

(** The state in which [MaybeCompleteDownload] leaves a Record that is
    ready. *)
Definition completed (download : ptr) (d : DownloadItem) s
    : DownloadManager :=
  set_trace
    (λ t, t ++ app_icon_events s
            ++ [HistoryUpdateEntry download d;
                ItemOnDownloadCompleting download])
    (set_in_progress (delete (id d)) s).

(** The handle under which [AddDownloadItemToHistory] files a Record, and
    the history service afterwards. *)
Definition filed_handle s (db_handle0 : Z) : Z :=
  if bool_decide (db_handle0 = kUninitializedHandle)
  then from_option fake_db_handle 0 (download_history_ s)
  else db_handle0.

Definition next_history s (db_handle0 : Z) : option nat :=
  if bool_decide (db_handle0 = kUninitializedHandle)
  then S <$> download_history_ s else download_history_ s.

Definition filed s (download : ptr) (d : DownloadItem) (db_handle0 : Z)
    : DownloadManager :=
  set_history_downloads <[filed_handle s db_handle0 := download]>
    (set_heap <[download := Item.set_db_handle (filed_handle s db_handle0) d]>
       (set_download_history (next_history s db_handle0) s)).

(** The state after [OnCreateDownloadEntryComplete] has filed the Record
    and told the browser and the observers. *)
Definition announced s (download : ptr) (d : DownloadItem) (db_handle0 : Z)
    : DownloadManager :=
  set_trace (λ t, t ++ [ShowDownload download; ObserverModelChanged])
    (filed s download d db_handle0).

(** A download in progress that waits both for its data and for its
    durable handle. *)
Definition awaiting_data_and_handle s (download_id : Z) (download : ptr)
    (d : DownloadItem) : Prop :=
  active_downloads_ s !! download_id = Some download
  ∧ in_progress_ s !! download_id = Some download
  ∧ download ≠ NULL ∧ heap s !! download = Some d ∧ id d = download_id
  ∧ Item.IsInProgress d = true ∧ safety_state d ≠ DANGEROUS
  ∧ all_data_saved d = false ∧ db_handle d = kUninitializedHandle
  ∧ is_Some (download_history_ s) ∧ is_Some (profile_ s).

(** What the hash check of [OnAllDataSaved] makes the outside see. *)
Definition hash_check_events (download_id : Z) (hash : string)
    : list Event :=
  if bool_decide (hash ≠ EmptyString) && enable_safe_browsing
  then [SBCheckDownloadHash download_id hash] else [].

Definition data_saved s (download_id size : Z) (hash : string)
    (download : ptr) (d : DownloadItem) : DownloadManager :=
  set_trace (λ t, t ++ hash_check_events download_id hash)
    (set_heap <[download := Item.OnAllDataSaved size d]> s).

(** The directory in which [CheckVisitedReferrerBeforeDone] suggests to
    save. *)
Definition suggested_directory s (prefs : DownloadPrefs)
    (st : DownloadStateInfo) : FilePath :=
  if prompt_user_for_save_location st
     && negb (bool_decide (last_download_path_ s = EmptyString))
  then last_download_path_ s else download_path prefs.

(** The fields that the decision never writes. *)
Definition same_request (st0 st : DownloadStateInfo) : Prop :=
  target_name st = target_name st0
  ∧ path_uniquifier st = path_uniquifier st0
  ∧ has_user_gesture st = has_user_gesture st0
  ∧ is_dangerous_url st = is_dangerous_url st0
  ∧ force_file_name st = force_file_name st0.

(** The Record once [ContinueDownloadWithPath] has committed
    [chosen_file]. *)
Definition committed_record (d : DownloadItem) (chosen_file : FilePath)
    : DownloadItem :=
  Item.Rename (committed_name d chosen_file)
    (Item.OnPathDetermined chosen_file d).

(** The state in which [ContinueDownloadWithPath] leaves the manager. *)
Definition path_committed s (download : ptr) (d : DownloadItem)
    (chosen_file : FilePath) : DownloadManager :=
  set_trace
    (λ t, t ++ app_icon_events s
            ++ [PostFileTask
                  (RenameInProgressDownloadFile (id d)
                     (committed_name d chosen_file));
                HistoryAddEntry download (committed_record d chosen_file)])
    (set_in_progress <[id d := download]>
       (set_heap <[download := committed_record d chosen_file]> s)).

(** What the DCHECKs of [ContinueDownloadWithPath] demand. *)
Definition ready_for_path s (download : ptr) (d : DownloadItem) : Prop :=
  in_progress_ s !! id d = None ∧ download ∈ downloads_ s
  ∧ is_Some (active_downloads_ s !! id d) ∧ full_path d = EmptyString.

(** A Record whose file [CheckForFileRemoval] has checked. *)
Definition removal_checked (d : DownloadItem) : bool :=
  Item.IsComplete d && negb (file_externally_removed d).

(** The handle of a file-removal check posted to the FILE thread. *)
Definition removal_check_handle (e : Event) : option Z :=
  match e with
  | PostFileTask (CheckForFileRemovalOnFileThread h _) => Some h
  | _ => None
  end.

(** The loop of [OnQueryDownloadEntriesComplete]. *)
Definition replay_loop (no_id : Z) (entries : list DownloadHistoryInfo)
    : M unit :=
  for_each entries (λ e,
    download ← new (Item.Restore no_id e);
    d ← deref download;
    s ← get;
    DCHECK (negb (bool_decide
                    (is_Some (history_downloads_ s !! db_handle d))));;
    modify (set_downloads (λ X, {[download]} ∪ X));;
    modify (set_history_downloads <[db_handle d := download]>)).

(** What the replay of [entries] into [s] has made of [s'], with the new
    Records at [ps]. *)
Definition replayed_into s (no_id : Z) (entries : list DownloadHistoryInfo)
    (ps : list ptr) s' : Prop :=
  length ps = length entries ∧ NoDup ps
  ∧ (∀ p, p ∈ ps → p ≠ NULL ∧ heap s !! p = None)
  ∧ (∀ k e, entries !! k = Some e →
       ∃ p, ps !! k = Some p
            ∧ heap s' !! p = Some (Item.Restore no_id e)
            ∧ history_downloads_ s' !! hi_db_handle e = Some p)
  ∧ (∀ h, h ∉ hi_db_handle <$> entries →
          history_downloads_ s' !! h = history_downloads_ s !! h)
  ∧ (∀ q, q ∉ ps → heap s' !! q = heap s !! q)
  ∧ downloads_ s' = list_to_set ps ∪ downloads_ s
  ∧ active_downloads_ s' = active_downloads_ s
  ∧ in_progress_ s' = in_progress_ s.

(** The Records of the entries [l] that satisfy [keep], in the order of
    [l]. *)
Definition selected s (keep : DownloadItem → bool) (l : list (Z * ptr))
    : list ptr :=
  omap (λ it : Z * ptr,
          d ← heap s !! it.2; if keep d then Some it.2 else None) l.

(** The tests of [GetTemporaryDownloads] and [GetAllDownloads]. *)
Definition temporary_in (dir_path : FilePath) (d : DownloadItem) : bool :=
  is_temporary d
  && bool_decide (FilePath_DirName (full_path d) = dir_path).

Definition kept_in (dir_path : FilePath) (d : DownloadItem) : bool :=
  negb (is_temporary d)
  && (bool_decide (dir_path = EmptyString)
      || bool_decide (FilePath_DirName (full_path d) = dir_path)).

(** Every pointer of [in_progress_] leads to a Record. *)
Definition in_progress_live s : Prop :=
  ∀ i p, in_progress_ s !! i = Some p → is_Some (heap s !! p).

(** The total size of every download in progress is known. *)
Definition progress_known s : Prop :=
  ∀ i p d, in_progress_ s !! i = Some p → heap s !! p = Some d →
           0 < total_bytes d.

(** The sum of [bytes] over the Records of [in_progress_]. *)
Definition in_progress_sum s (bytes : DownloadItem → Z) : Z :=
  foldr Z.add 0
    ((λ it : Z * ptr, from_option bytes 0 (heap s !! it.2))
       <$> map_to_list (in_progress_ s)).

(** No Record lives at the null address, and every pointer of the master
    collection leads to a Record. *)
Definition owned_live s : Prop :=
  heap s !! NULL = None
  ∧ ∀ p, p ∈ downloads_ s → is_Some (heap s !! p).

(** [m] keeps the master collection free of dangling pointers. *)
Definition keeps {A} (m : M A) : Prop :=
  ∀ s, owned_live s → wlp m (λ _ s', owned_live s') s.

(** The generator of fake handles never hands out the same handle
    twice. *)
Definition fake_handles_unique : Prop :=
  ∀ m n, fake_db_handle m = fake_db_handle n → m = n.

(** A handle of the history service's own: assigned, and not one that the
    generator of fake handles hands out. *)
Definition real_handle (h : Z) : Prop :=
  h ≠ kUninitializedHandle ∧ ∀ n, h ≠ fake_db_handle n.

(** What the callers owe the manager for its handles to stay unique, on
    top of [admissible]: [Init] is not called on a manager that awaits its
    [Shutdown]; the rows that the history service replays carry real
    handles, all different and new to the durable index; and its answer to
    an [AddEntry] carries the uninitialized handle or a real handle that
    is new to the durable index. *)
Definition serviced_call (c : Call) s : Prop :=
  admissible c s
  ∧ match c with
    | CallInit _ _ => shutdown_needed_ s = false
    | CallOnQueryDownloadEntriesComplete _ entries =>
        NoDup (hi_db_handle <$> entries)
        ∧ ∀ e, e ∈ entries →
               real_handle (hi_db_handle e)
               ∧ history_downloads_ s !! hi_db_handle e = None
    | CallOnCreateDownloadEntryComplete _ h =>
        h = kUninitializedHandle
        ∨ (real_handle h ∧ history_downloads_ s !! h = None)
    | _ => True
    end.

(** The states that the manager reaches while its callers keep to
    [serviced_call]. *)
Inductive serviced : DownloadManager → Prop :=
  | serviced_ctor status_updater :
      serviced (DownloadManager_ctor status_updater)
  | serviced_step s c s' :
      serviced s → serviced_call c s → run_call c s = Ok tt s' →
      serviced s'.

(** Every Record of [downloads_] that has a handle is filed under it in
    the durable index. *)
Definition handles_filed s : Prop :=
  ∀ p d, p ∈ downloads_ s → heap s !! p = Some d →
         db_handle d ≠ kUninitializedHandle →
         history_downloads_ s !! db_handle d = Some p.

(** The fake handles in the durable index are ones that the generator
    has handed out already. *)
Definition fakes_issued s : Prop :=
  ∀ h p k, history_downloads_ s !! h = Some p → h = fake_db_handle k →
           ∃ n, download_history_ s = Some n ∧ (k < n)%nat.

(** A manager that does not await its [Shutdown] has no history
    service. *)
Definition history_while_needed s : Prop :=
  shutdown_needed_ s = false → download_history_ s = None.

Definition handles_ok s : Prop :=
  owned_live s ∧ history_index_ok s ∧ handles_filed s ∧ fakes_issued s
  ∧ history_while_needed s.

(** [m] keeps the handles in order. *)
Definition files {A} (m : M A) : Prop :=
  ∀ s, handles_ok s → wlp m (λ _ s', handles_ok s') s.

(** The fields that the handles depend on. *)
Definition same_handles s s' : Prop :=
  heap s' = heap s ∧ downloads_ s' = downloads_ s
  ∧ history_downloads_ s' = history_downloads_ s
  ∧ download_history_ s' = download_history_ s
  ∧ shutdown_needed_ s' = shutdown_needed_ s.

End further_vocabulary.

(** * Proofs *)

Ltac munfold :=
  repeat progress
    (unfold history_AddEntry, history_UpdateEntry, history_RemoveEntry,
       history_UpdateDownloadPath, history_RemoveEntriesBetween,
       history_CheckVisitedReferrerBefore, history_GetNextFakeDbHandle,
       UpdateAppIcon, NotifyModelChanged, active_downloads_index, update,
       emit, DCHECK, CHECK, deref, delete_, the_history, the_prefs,
       the_profile, mbind, M_bind, mret, M_ret, get, modify, crash in * ).

Section rules.
Context {cfg : Config}.
Context {A B : Type}.
Implicit Types (s : DownloadManager) (Q : A → DownloadManager → Prop).

Lemma wp_run (m : M A) Q s :
  wp m Q s ↔ ∃ a s', m s = Ok a s' ∧ Q a s'.
Proof.
  unfold wp. destruct (m s); [naive_solver|].
  split; [done|]. by intros (? & ? & ? & ?).
Qed.

Lemma wlp_run (m : M A) Q s :
  wlp m Q s ↔ ∀ a s', m s = Ok a s' → Q a s'.
Proof. unfold wlp. destruct (m s); naive_solver. Qed.

Lemma wp_wlp (m : M A) Q s : wp m Q s → wlp m Q s.
Proof. unfold wp, wlp. by destruct (m s). Qed.

Lemma wp_mono (m : M A) Q Q' s :
  wp m Q s → (∀ a s', Q a s' → Q' a s') → wp m Q' s.
Proof. unfold wp. destruct (m s); naive_solver. Qed.

Lemma wlp_mono (m : M A) Q Q' s :
  wlp m Q s → (∀ a s', Q a s' → Q' a s') → wlp m Q' s.
Proof. unfold wlp. destruct (m s); naive_solver. Qed.

Lemma wp_bind (m : M A) (f : A → M B) (R : B → DownloadManager → Prop) s :
  wp m (λ a s', wp (f a) R s') s → wp (m ≫= f) R s.
Proof. unfold wp, mbind, M_bind. by destruct (m s). Qed.

Lemma wlp_bind (m : M A) (f : A → M B) (R : B → DownloadManager → Prop) s :
  wlp m (λ a s', wlp (f a) R s') s → wlp (m ≫= f) R s.
Proof. unfold wlp, mbind, M_bind. by destruct (m s). Qed.

Lemma wp_ret (a : A) Q s : Q a s → wp (mret a) Q s.
Proof. done. Qed.

Lemma wlp_ret (a : A) Q s : Q a s → wlp (mret a) Q s.
Proof. done. Qed.

Lemma wlp_crash e Q s : wlp (crash e) Q s.
Proof. done. Qed.

End rules.

Section primitive_rules.
Context {cfg : Config}.
Implicit Types (s : DownloadManager).

Lemma wp_get (Q : DownloadManager → DownloadManager → Prop) s :
  Q s s → wp get Q s.
Proof. done. Qed.

Lemma wlp_get (Q : DownloadManager → DownloadManager → Prop) s :
  Q s s → wlp get Q s.
Proof. done. Qed.

Lemma wp_modify f (Q : unit → DownloadManager → Prop) s :
  Q tt (f s) → wp (modify f) Q s.
Proof. done. Qed.

Lemma wlp_modify f (Q : unit → DownloadManager → Prop) s :
  Q tt (f s) → wlp (modify f) Q s.
Proof. done. Qed.

Lemma wp_emit e (Q : unit → DownloadManager → Prop) s :
  Q tt (set_trace (λ t, t ++ [e]) s) → wp (emit e) Q s.
Proof. done. Qed.

Lemma wlp_emit e (Q : unit → DownloadManager → Prop) s :
  Q tt (set_trace (λ t, t ++ [e]) s) → wlp (emit e) Q s.
Proof. done. Qed.

Lemma wp_DCHECK b (Q : unit → DownloadManager → Prop) s :
  (debug_build = true → b = true) → Q tt s → wp (DCHECK b) Q s.
Proof.
  unfold wp, DCHECK. intros Hb HQ.
  destruct debug_build; [rewrite Hb by done|]; done.
Qed.

Lemma wlp_DCHECK b (Q : unit → DownloadManager → Prop) s :
  ((debug_build = true → b = true) → Q tt s) → wlp (DCHECK b) Q s.
Proof.
  unfold wlp, DCHECK. intros HQ.
  destruct debug_build, b; simpl; try done; by apply HQ.
Qed.

Lemma wp_CHECK b (Q : unit → DownloadManager → Prop) s :
  b = true → Q tt s → wp (CHECK b) Q s.
Proof. by intros ->. Qed.

Lemma wlp_CHECK b (Q : unit → DownloadManager → Prop) s :
  (b = true → Q tt s) → wlp (CHECK b) Q s.
Proof. destruct b; [|done]. intros HQ. by apply HQ. Qed.

Lemma wp_deref p d (Q : DownloadItem → DownloadManager → Prop) s :
  heap s !! p = Some d → Q d s → wp (deref p) Q s.
Proof. unfold wp, deref. by intros ->. Qed.

Lemma wlp_deref p (Q : DownloadItem → DownloadManager → Prop) s :
  (∀ d, heap s !! p = Some d → Q d s) → wlp (deref p) Q s.
Proof. unfold wlp, deref. destruct (heap s !! p); [|done]. auto. Qed.

Lemma wp_update p f d (Q : unit → DownloadManager → Prop) s :
  heap s !! p = Some d → Q tt (set_heap <[p := f d]> s) →
  wp (update p f) Q s.
Proof. unfold wp, update, mbind, M_bind, deref. by intros ->. Qed.

Lemma wlp_update p f (Q : unit → DownloadManager → Prop) s :
  (∀ d, heap s !! p = Some d → Q tt (set_heap <[p := f d]> s)) →
  wlp (update p f) Q s.
Proof.
  unfold wlp, update, mbind, M_bind, deref. intros HQ.
  destruct (heap s !! p) eqn:Hp; [|done]. simpl. by apply HQ.
Qed.

Lemma wp_new d (Q : ptr → DownloadManager → Prop) s :
  (∀ p, p ≠ NULL → heap s !! p = None → Q p (set_heap <[p := d]> s)) →
  wp (new d) Q s.
Proof.
  unfold wp, new. intros HQ.
  pose proof (is_fresh ({[NULL]} ∪ dom (heap s))) as Hfresh.
  apply HQ; [set_solver|]. apply not_elem_of_dom. set_solver.
Qed.

Lemma wlp_new d (Q : ptr → DownloadManager → Prop) s :
  (∀ p, p ≠ NULL → heap s !! p = None → Q p (set_heap <[p := d]> s)) →
  wlp (new d) Q s.
Proof. intros. by apply wp_wlp, wp_new. Qed.

Lemma wp_delete p (Q : unit → DownloadManager → Prop) s :
  p ≠ NULL → is_Some (heap s !! p) → Q tt (set_heap (delete p) s) →
  wp (delete_ p) Q s.
Proof.
  unfold wp, delete_. intros Hp [d Hd] HQ.
  rewrite bool_decide_eq_false_2 by done. by rewrite Hd.
Qed.

Lemma wlp_delete p (Q : unit → DownloadManager → Prop) s :
  (p = NULL → Q tt s) →
  (p ≠ NULL → is_Some (heap s !! p) → Q tt (set_heap (delete p) s)) →
  wlp (delete_ p) Q s.
Proof.
  unfold wlp, delete_. intros H0 H1. case_bool_decide; [auto|].
  destruct (heap s !! p) eqn:?; [|done]. apply H1; eauto.
Qed.

Lemma wp_the_history n (Q : nat → DownloadManager → Prop) s :
  download_history_ s = Some n → Q n s → wp the_history Q s.
Proof. unfold wp, the_history. by intros ->. Qed.

Lemma wlp_the_history (Q : nat → DownloadManager → Prop) s :
  (∀ n, download_history_ s = Some n → Q n s) → wlp the_history Q s.
Proof.
  unfold wlp, the_history. destruct (download_history_ s); [|done]. auto.
Qed.

Lemma wp_the_prefs x (Q : DownloadPrefs → DownloadManager → Prop) s :
  download_prefs_ s = Some x → Q x s → wp the_prefs Q s.
Proof. unfold wp, the_prefs. by intros ->. Qed.

Lemma wlp_the_prefs (Q : DownloadPrefs → DownloadManager → Prop) s :
  (∀ x, download_prefs_ s = Some x → Q x s) → wlp the_prefs Q s.
Proof.
  unfold wlp, the_prefs. destruct (download_prefs_ s); [|done]. auto.
Qed.

Lemma wp_the_profile x (Q : Profile → DownloadManager → Prop) s :
  profile_ s = Some x → Q x s → wp the_profile Q s.
Proof. unfold wp, the_profile. by intros ->. Qed.

Lemma wlp_the_profile (Q : Profile → DownloadManager → Prop) s :
  (∀ x, profile_ s = Some x → Q x s) → wlp the_profile Q s.
Proof.
  unfold wlp, the_profile. destruct (profile_ s); [|done]. auto.
Qed.

End primitive_rules.

(** One step of symbolic execution, for runs that must return ([wp]) and
    for runs that are assumed to return ([wlp]). *)
Ltac wp_pure :=
  lazymatch goal with
  | |- wp (mbind _ _) _ _ => apply wp_bind
  | |- wp (mret _) _ _ => apply wp_ret
  | |- wp get _ _ => apply wp_get
  | |- wp (modify _) _ _ => apply wp_modify
  | |- wp (emit _) _ _ => apply wp_emit
  | |- wp NotifyModelChanged _ _ => apply wp_emit
  end.

Ltac wlp_step :=
  lazymatch goal with
  | |- wlp (mbind _ _) _ _ => apply wlp_bind
  | |- wlp (mret _) _ _ => apply wlp_ret
  | |- wlp (crash _) _ _ => apply wlp_crash
  | |- wlp get _ _ => apply wlp_get
  | |- wlp (modify _) _ _ => apply wlp_modify
  | |- wlp (emit _) _ _ => apply wlp_emit
  | |- wlp NotifyModelChanged _ _ => apply wlp_emit
  | |- wlp (DCHECK _) _ _ => apply wlp_DCHECK; intros ?
  | |- wlp (CHECK _) _ _ => apply wlp_CHECK; intros ?
  | |- wlp (deref _) _ _ => apply wlp_deref; intros ? ?
  | |- wlp (update _ _) _ _ => apply wlp_update; intros ? ?
  | |- wlp (new _) _ _ => apply wlp_new; intros ? ? ?
  | |- wlp (delete_ _) _ _ => apply wlp_delete; [intros ?|intros ? ?]
  | |- wlp the_history _ _ => apply wlp_the_history; intros ? ?
  | |- wlp the_prefs _ _ => apply wlp_the_prefs; intros ? ?
  | |- wlp the_profile _ _ => apply wlp_the_profile; intros ? ?
  | |- wlp (if ?b then _ else _) _ _ => destruct b eqn:?
  | |- wlp (match ?x with _ => _ end) _ _ => destruct x eqn:?
  end.

Ltac wlp_unfold :=
  lazymatch goal with
  | |- wlp UpdateAppIcon _ _ => unfold UpdateAppIcon
  | |- wlp (history_AddEntry _) _ _ => unfold history_AddEntry
  | |- wlp (history_UpdateEntry _) _ _ => unfold history_UpdateEntry
  | |- wlp (history_RemoveEntry _) _ _ => unfold history_RemoveEntry
  | |- wlp (history_UpdateDownloadPath _ _) _ _ =>
      unfold history_UpdateDownloadPath
  | |- wlp (history_RemoveEntriesBetween _ _) _ _ =>
      unfold history_RemoveEntriesBetween
  | |- wlp (history_CheckVisitedReferrerBefore _ _) _ _ =>
      unfold history_CheckVisitedReferrerBefore
  | |- wlp history_GetNextFakeDbHandle _ _ =>
      unfold history_GetNextFakeDbHandle
  | |- wlp (active_downloads_index _) _ _ => unfold active_downloads_index
  | |- wlp (DownloadCancelledInternal _ _) _ _ =>
      unfold DownloadCancelledInternal
  end.

Ltac wlp_go := repeat (first [wlp_step | wlp_unfold]; simpl).

Section run_lemmas.
Context {cfg : Config}.

Lemma wp_of_run {A} (m : M A) (Q : A → DownloadManager → Prop) s a s' :
  m s = Ok a s' → Q a s' → wp m Q s.
Proof. unfold wp. by intros ->. Qed.

Lemma wp_run_eq {A} (m : M A) s a s' :
  wp m (λ a0 s0, a0 = a ∧ s0 = s') s → m s = Ok a s'.
Proof. by intros (? & ? & -> & -> & ->)%wp_run. Qed.

(** A run that returns and leaves the manager as it was. *)
Lemma wp_run_state {A} (m : M A) (P : A → Prop) s :
  wp m (λ a s', s' = s ∧ P a) s → ∃ a, m s = Ok a s ∧ P a.
Proof.
  intros (a & s' & Hrun & -> & HP)%wp_run. eauto.
Qed.

Lemma bind_Ok {A B} (m : M A) (f : A → M B) s a s1 :
  m s = Ok a s1 → (m ≫= f) s = f a s1.
Proof. unfold mbind, M_bind. by intros ->. Qed.

Lemma bind_Crash {A B} (m : M A) (f : A → M B) s e :
  m s = Crash e → (m ≫= f) s = Crash e.
Proof. unfold mbind, M_bind. by intros ->. Qed.

Lemma DCHECK_Ok b s : (debug_build = true → b = true) → DCHECK b s = Ok tt s.
Proof.
  unfold DCHECK. destruct debug_build; [|done]. by intros ->.
Qed.

Lemma DCHECK_Crash b s :
  debug_build = true → b = false → DCHECK b s = Crash DCheckFailure.
Proof. unfold DCHECK. by intros -> ->. Qed.

Lemma deref_Ok p d s : heap s !! p = Some d → deref p s = Ok d s.
Proof. unfold deref. by intros ->. Qed.

(** [GetActiveDownloadItem] on a registered id. *)
Lemma GetActiveDownloadItem_present s download_id download :
  active_downloads_ s !! download_id = Some download →
  (debug_build = true → download ≠ NULL) →
  GetActiveDownloadItem download_id s = Ok download s.
Proof.
  intros Hact Hnn. unfold GetActiveDownloadItem, active_downloads_index.
  rewrite (bind_Ok get _ s s s) by done.
  rewrite (bind_Ok (DCHECK _) _ s tt s)
    by (apply DCHECK_Ok; intros _; rewrite Hact;
        by apply bool_decide_eq_true_2).
  unfold mbind at 1, M_bind at 1, mbind at 1, M_bind at 1, get.
  rewrite Hact. simpl.
  rewrite (bind_Ok (DCHECK _) _ s tt s); [done|].
  apply DCHECK_Ok. intros Hd. by apply bool_decide_eq_true_2, Hnn.
Qed.

(** [GetActiveDownloadItem] on an id that is not registered: the lookup
    through [operator[]] registers it with a null pointer, unless the
    DCHECK stops the run first. *)
Lemma GetActiveDownloadItem_absent s download_id :
  active_downloads_ s !! download_id = None →
  GetActiveDownloadItem download_id s
  = if debug_build then Crash DCheckFailure
    else Ok NULL (set_active_downloads <[download_id := NULL]> s).
Proof.
  intros Hact. unfold GetActiveDownloadItem, active_downloads_index.
  unfold mbind, M_bind, get, DCHECK, modify, mret, M_ret, crash.
  rewrite Hact. destruct debug_build; simpl; [done|]. by rewrite Hact.
Qed.

Lemma wlp_GetActiveDownloadItem download_id
    (Q : ptr → DownloadManager → Prop) s :
  (∀ download, active_downloads_ s !! download_id = Some download →
               (debug_build = true → download ≠ NULL) → Q download s) →
  (active_downloads_ s !! download_id = None → debug_build = false →
   Q NULL (set_active_downloads <[download_id := NULL]> s)) →
  wlp (GetActiveDownloadItem download_id) Q s.
Proof.
  intros Hsome Hnone. unfold wlp.
  destruct (active_downloads_ s !! download_id) as [p|] eqn:Hact.
  - destruct debug_build eqn:Hdebug.
    + destruct (decide (p = NULL)) as [->|Hp].
      * unfold GetActiveDownloadItem, active_downloads_index.
        unfold mbind, M_bind, get, DCHECK, modify, mret, M_ret, crash.
        rewrite Hact, Hdebug. simpl. by rewrite Hact.
      * rewrite (GetActiveDownloadItem_present s download_id p) by done.
        apply Hsome; done.
    + rewrite (GetActiveDownloadItem_present s download_id p)
        by (done || congruence).
      apply Hsome; [done|congruence].
  - rewrite GetActiveDownloadItem_absent by done.
    destruct debug_build eqn:Hdebug; [done|]. by apply Hnone.
Qed.

End run_lemmas.

Ltac wlp_call :=
  lazymatch goal with
  | |- wlp (GetActiveDownloadItem _) _ _ =>
      apply wlp_GetActiveDownloadItem; [intros ? ? ?|intros ? ?]
  end.

Ltac wlp_all := repeat (first [wlp_step | wlp_unfold | wlp_call]; simpl).

Ltac wp_side :=
  simpl; first [eassumption | apply lookup_insert_eq | by simplify_map_eq].

Ltac wp_step :=
  lazymatch goal with
  | |- wp (mbind _ _) _ _ => apply wp_bind
  | |- wp (mret _) _ _ => apply wp_ret
  | |- wp get _ _ => apply wp_get
  | |- wp (modify _) _ _ => apply wp_modify
  | |- wp (emit _) _ _ => apply wp_emit
  | |- wp NotifyModelChanged _ _ => apply wp_emit
  | |- wp (deref _) _ _ => eapply wp_deref; [wp_side|]
  | |- wp (update _ _) _ _ => eapply wp_update; [wp_side|]
  | |- wp the_history _ _ => eapply wp_the_history; [wp_side|]
  | |- wp the_prefs _ _ => eapply wp_the_prefs; [wp_side|]
  | |- wp the_profile _ _ => eapply wp_the_profile; [wp_side|]
  | |- wp (CHECK _) _ _ => apply wp_CHECK
  | |- wp (DCHECK _) _ _ => apply wp_DCHECK
  | |- wp (if ?b then _ else _) _ _ => destruct b eqn:?
  | |- wp (match ?x with _ => _ end) _ _ => destruct x eqn:?
  end.

Ltac wp_unfold :=
  lazymatch goal with
  | |- wp UpdateAppIcon _ _ => unfold UpdateAppIcon
  | |- wp (history_AddEntry _) _ _ => unfold history_AddEntry
  | |- wp (history_UpdateEntry _) _ _ => unfold history_UpdateEntry
  | |- wp (history_RemoveEntry _) _ _ => unfold history_RemoveEntry
  | |- wp (history_UpdateDownloadPath _ _) _ _ =>
      unfold history_UpdateDownloadPath
  | |- wp (history_RemoveEntriesBetween _ _) _ _ =>
      unfold history_RemoveEntriesBetween
  | |- wp (history_CheckVisitedReferrerBefore _ _) _ _ =>
      unfold history_CheckVisitedReferrerBefore
  | |- wp history_GetNextFakeDbHandle _ _ =>
      unfold history_GetNextFakeDbHandle
  | |- wp (DownloadCancelledInternal _ _) _ _ =>
      unfold DownloadCancelledInternal
  end.

Ltac wp_all := repeat (first [wp_step | wp_unfold]; simpl).

Section eligibility.
Context {cfg : Config}.

Lemma IsDownloadReadyForCompletion_spec s download d :
  heap s !! download = Some d →
  ∃ b, IsDownloadReadyForCompletion download s = Ok b s
       ∧ (b = true ↔ eligible s d).
Proof.
  intros Hd. unfold IsDownloadReadyForCompletion, eligible. munfold.
  rewrite Hd. destruct (all_data_saved d); simpl.
  - repeat case_bool_decide; eexists; (split; [reflexivity|]);
      rewrite <- ?not_eq_None_Some; naive_solver.
  - eexists; split; [reflexivity|]. naive_solver.
Qed.




End eligibility.

Section creation.
Context {cfg : Config}.

(** C4, as the code has it: [CreateDownloadItem] does not consult
    [shutdown_needed_].  Whenever the profile is set (and, with DCHECKs, the
    id is not yet registered) it allocates a fresh Record, inserts it into
    [downloads_] and [active_downloads_] and leaves the flag as it was. *)
Theorem CreateDownloadItem_ignores_shutdown s info prof :
  profile_ s = Some prof →
  (debug_build = true →
   in_progress_ s !! download_id info = None
   ∧ active_downloads_ s !! download_id info = None) →
  ∃ download s',
    CreateDownloadItem info s = Ok tt s'
    ∧ download ≠ NULL ∧ heap s !! download = None
    ∧ heap s'
      = <[download := Item.Create info (IsOffTheRecord prof)]> (heap s)
    ∧ downloads_ s' = {[download]} ∪ downloads_ s
    ∧ active_downloads_ s'
    = <[download_id info := download]> (active_downloads_ s)
    ∧ shutdown_needed_ s' = shutdown_needed_ s.
Proof.
  intros Hprof Hfree.
  pose proof (is_fresh ({[NULL]} ∪ dom (heap s))) as Hfresh.
  exists (fresh ({[NULL]} ∪ dom (heap s))).
  unfold CreateDownloadItem, new. munfold. rewrite Hprof. simpl.
  destruct debug_build eqn:Hdebug; simpl.
  - destruct (Hfree eq_refl) as [-> ->]. simpl.
    eexists. split; [reflexivity|]. simpl.
    split_and!; try done; [set_solver|apply not_elem_of_dom; set_solver].
  - eexists. split; [reflexivity|]. simpl.
    split_and!; try done; [set_solver|apply not_elem_of_dom; set_solver].
Qed.

End creation.

(** With DCHECKs, [CreateDownloadItem] after [Shutdown] registers the new Record
    . *)
Lemma CreateDownloadItem_ignores_shutdown_witness :
  ∃ download s',
    CreateDownloadItem (cfg:=sample_config true) (sample_info 1)
      (shut_down true)
    = Ok tt s'
    ∧ download ≠ NULL ∧ heap (shut_down true) !! download = None
    ∧ heap s'
      = <[download := Item.Create (cfg:=sample_config true) (sample_info 1)
                        false]> (heap (shut_down true))
    ∧ downloads_ s' = {[download]} ∪ downloads_ (shut_down true)
    ∧ active_downloads_ s'
      = <[1 := download]> (active_downloads_ (shut_down true))
    ∧ shutdown_needed_ s' = shutdown_needed_ (shut_down true).
Proof.
  apply (CreateDownloadItem_ignores_shutdown (cfg:=sample_config true)
           (shut_down true) (sample_info 1) sample_profile).
  - vm_compute. reflexivity.
  - intros _. split; vm_compute; reflexivity.
Defined.

(** C4 as stated fails: after [Shutdown], [CreateDownloadItem] returns and
    has added a Record to [downloads_] and [active_downloads_]. *)
Lemma CreateDownloadItem_after_shutdown_counterexample :
  shutdown_needed_ (shut_down false) = false
  ∧ downloads_ (shut_down false) = ∅
  ∧ active_downloads_ (shut_down false) = ∅
  ∧ ∃ s', CreateDownloadItem (cfg:=sample_config false) (sample_info 1)
            (shut_down false)
          = Ok tt s'
          ∧ downloads_ s' = {[1%N]}
          ∧ active_downloads_ s' = {[1 := 1%N]}.
Proof.
  split_and!; [vm_compute; reflexivity..|].
  eexists. split_and!; vm_compute; reflexivity.
Qed.

Section cancellation.
Context {cfg : Config}.

(** C5, as the code has it: [DownloadCancelled] and [OnDownloadError] erase
    an in-progress Record from [active_downloads_] and [in_progress_]
    exactly when its [db_handle] is already assigned; a Record that still
    waits for its handle stays in both. *)
Theorem cancel_leaves_active_until_handle s download_id download d :
  heap s !! download = Some d →
  is_Some (download_history_ s) →
  (in_progress_ s !! download_id = Some download →
   ∃ s', DownloadCancelled download_id s = Ok tt s'
         ∧ active_downloads_ s'
           = after_cancel d download_id (active_downloads_ s)
         ∧ in_progress_ s' = after_cancel d download_id (in_progress_ s))
  ∧ (active_downloads_ s !! download_id = Some download →
     ∀ size os_error,
     ∃ s', OnDownloadError download_id size os_error s = Ok tt s'
           ∧ active_downloads_ s'
             = after_cancel d download_id (active_downloads_ s)
           ∧ in_progress_ s' = after_cancel d download_id (in_progress_ s)).
Proof.
  intros Hd [n Hn]. split.
  - intros Hin. unfold DownloadCancelled, DownloadCancelledInternal,
      after_cancel.
    munfold. rewrite Hin. simpl. rewrite Hd. simpl.
    case_bool_decide; simpl.
    + destruct (status_updater_ s); simpl; rewrite Hn; simpl; rewrite Hd;
        eexists; (split; [reflexivity|]); done.
    + eexists. split; [reflexivity|]. done.
  - intros Hact size os_error.
    unfold OnDownloadError, after_cancel.
    munfold. rewrite Hact. simpl. rewrite Hd. simpl.
    rewrite lookup_insert_eq. simpl.
    case_bool_decide; simpl.
    + destruct (status_updater_ s); simpl; rewrite Hn; simpl;
        rewrite lookup_insert_eq; eexists; (split; [reflexivity|]); done.
    + eexists. split; [reflexivity|]. done.
Qed.

End cancellation.

(** Download 1 has handle 5: cancelling it empties [active_downloads_]. *)
Lemma cancel_leaves_active_until_handle_witness :
  ∃ s', DownloadCancelled (cfg:=sample_config true) 1 (in_history true)
        = Ok tt s'
        ∧ active_downloads_ s' = ∅.
Proof.
  pose proof (cancel_leaves_active_until_handle (cfg:=sample_config true)
                (in_history true) 1 1%N
                (Item.set_db_handle 5
                   (Item.Rename "/home/a.pdf.crdownload"
                      (Item.Create (cfg:=sample_config true) (sample_info 1)
                         false))))
    as Hthm.
  destruct Hthm as [Hcancel _].
  - vm_compute. reflexivity.
  - vm_compute. eauto.
  - destruct Hcancel as (s' & Hrun & Hact & _); [vm_compute; reflexivity|].
    exists s'. split; [exact Hrun|]. rewrite Hact. vm_compute. reflexivity.
Defined.

(** C5 as stated fails: download 1 is in progress and waits for its handle;
    after [DownloadCancelled], and after [OnDownloadError], it is still in
    [active_downloads_]. *)
Lemma cancel_before_handle_counterexample :
  in_progress_ (awaiting_handle false) !! 1 = Some 1%N
  ∧ active_downloads_ (awaiting_handle false) !! 1 = Some 1%N
  ∧ (∃ s', DownloadCancelled (cfg:=sample_config false) 1
             (awaiting_handle false)
           = Ok tt s'
           ∧ active_downloads_ s' !! 1 = Some 1%N)
  ∧ (∃ s', OnDownloadError (cfg:=sample_config false) 1 500 (-101)
             (awaiting_handle false)
           = Ok tt s'
           ∧ active_downloads_ s' !! 1 = Some 1%N).
Proof.
  split_and!; [vm_compute; reflexivity..| |];
    eexists; split; vm_compute; reflexivity.
Qed.

Section path_commit.
Context {cfg : Config}.

Lemma ContinueDownloadWithPath_Ok s download chosen s' :
  ContinueDownloadWithPath download chosen s = Ok tt s' →
  ∃ d, heap s !! download = Some d
    ∧ heap s' = <[download := Item.Rename (committed_name d chosen)
                                (Item.OnPathDetermined chosen d)]> (heap s)
    ∧ in_progress_ s' = <[id d := download]> (in_progress_ s)
    ∧ active_downloads_ s' = active_downloads_ s
    ∧ (debug_build = true → download ≠ NULL ∧ full_path d = EmptyString).
Proof.
  revert s'. apply (wlp_run (ContinueDownloadWithPath download chosen)
    (λ _ s', ∃ d, heap s !! download = Some d
      ∧ heap s' = <[download := Item.Rename (committed_name d chosen)
                                 (Item.OnPathDetermined chosen d)]> (heap s)
      ∧ in_progress_ s' = <[id d := download]> (in_progress_ s)
      ∧ active_downloads_ s' = active_downloads_ s
      ∧ (debug_build = true → download ≠ NULL ∧ full_path d = EmptyString))).
  unfold ContinueDownloadWithPath, committed_name.
  wlp_all.
  all: simplify_map_eq; exists d; (split; [done|]);
    rewrite insert_insert_eq; (split_and!; [done..|]); intros Hdebug;
    repeat match goal with
           | H : debug_build = true → _ |- _ => specialize (H Hdebug)
           end;
    split; by repeat case_bool_decide.
Qed.

(** With DCHECKs compiled in, a Record that is already in [in_progress_]
    cannot be committed. *)
Lemma ContinueDownloadWithPath_in_progress s download d chosen :
  debug_build = true → download ≠ NULL →
  heap s !! download = Some d → is_Some (in_progress_ s !! id d) →
  ContinueDownloadWithPath download chosen s = Crash DCheckFailure.
Proof.
  intros Hdebug Hnn Hd Hin. unfold ContinueDownloadWithPath.
  rewrite (bind_Ok (DCHECK _) _ s tt s)
    by (apply DCHECK_Ok; intros _; by apply bool_decide_eq_true_2).
  rewrite (bind_Ok (deref _) _ s d s) by by apply deref_Ok.
  rewrite (bind_Ok get _ s s s) by done.
  apply bind_Crash, DCHECK_Crash; [done|].
  by rewrite bool_decide_eq_true_2.
Qed.

(** What the DCHECKs of [ContinueDownloadWithPath] give a debug build: a
    commit that returns found the path of the Record empty, and a second
    commit on the same Record, directly or through [FileSelected], stops at
    the DCHECK instead of returning. *)
Lemma path_commit_asserts_once :
  (∀ s download chosen s',
     ContinueDownloadWithPath download chosen s = Ok tt s' →
     ∃ d d', heap s !! download = Some d ∧ heap s' !! download = Some d'
       ∧ full_path d' = committed_name d chosen
       ∧ (debug_build = true →
          full_path d = EmptyString
          ∧ ∀ chosen', ContinueDownloadWithPath download chosen' s'
                       = Crash DCheckFailure))
  ∧ (∀ s download_id chosen s',
       debug_build = true →
       FileSelected chosen download_id s = Ok tt s' →
       ∀ chosen', FileSelected chosen' download_id s' = Crash DCheckFailure).
Proof.
  split.
  - intros s download chosen s' Hrun.
    apply ContinueDownloadWithPath_Ok in Hrun
      as (d & Hd & Hheap & Hin & Hact & Hempty).
    exists d. eexists. split; [done|].
    split; [rewrite Hheap; apply lookup_insert_eq|].
    split; [done|].
    intros Hdebug. destruct (Hempty Hdebug) as [Hnn Hpath].
    split; [done|]. intros chosen'.
    eapply ContinueDownloadWithPath_in_progress; [done..| |].
    + rewrite Hheap. apply lookup_insert_eq.
    + simpl. rewrite Hin, lookup_insert_eq. eauto.
  - intros s download_id chosen s' Hdebug. revert s'.
    apply (wlp_run (FileSelected chosen download_id)
      (λ _ s', ∀ chosen', FileSelected chosen' download_id s'
                          = Crash DCheckFailure)).
    unfold FileSelected. wlp_all; try congruence.
    all: try (exfalso;
              match goal with
              | Hb : bool_decide (?p = NULL) = true,
                Hn : debug_build = true → ?p ≠ NULL |- _ =>
                  apply bool_decide_eq_true in Hb; exact (Hn Hdebug Hb)
              end).
    all: apply wlp_run; intros [] s' Hrun chosen';
      apply ContinueDownloadWithPath_Ok in Hrun
        as (d0 & Hd0 & Hheap & Hin & Hact & Hempty);
      simpl in *; simplify_eq;
      rewrite (bind_Ok _ _ s' download s')
        by (apply GetActiveDownloadItem_present; [congruence|done]);
      rewrite bool_decide_eq_false_2 by auto;
      erewrite (bind_Ok (deref _) _ s')
        by (apply deref_Ok; rewrite Hheap; apply lookup_insert_eq);
      match goal with
      | |- ((if ?b then _ else _) ≫= _) _ = _ => destruct b
      end;
      [ erewrite (bind_Ok (modify _)) by reflexivity | ];
      (eapply ContinueDownloadWithPath_in_progress; [done|auto|..];
       [simpl; rewrite Hheap; apply lookup_insert_eq
       |simpl; rewrite Hin, lookup_insert_eq; eauto]).
Qed.

End path_commit.

Section prompting.
Context {cfg : Config}.

Lemma ShouldOpenFileBasedOnExtension_run s prefs path :
  extension_contract → download_prefs_ s = Some prefs →
  ShouldOpenFileBasedOnExtension path s
  = Ok (opens_automatically prefs path) s.
Proof.
  intros Hext Hprefs.
  unfold ShouldOpenFileBasedOnExtension, opens_automatically.
  destruct (FilePath_Extension path) as [|c rest] eqn:He; [done|].
  destruct (Extension_IsExtension path); [done|].
  rewrite (bind_Ok (DCHECK _) _ s tt s)
    by (apply DCHECK_Ok; intros _; apply bool_decide_eq_true_2; eauto).
  unfold mbind, M_bind, the_prefs. by rewrite Hprefs.
Qed.

Lemma ShouldOpenFileBasedOnExtension_total s prefs path :
  extension_contract → download_prefs_ s = Some prefs →
  ∃ b, ShouldOpenFileBasedOnExtension path s = Ok b s.
Proof.
  intros Hext Hprefs. unfold ShouldOpenFileBasedOnExtension.
  destruct (FilePath_Extension path) as [|c rest] eqn:He; [by eexists|].
  destruct (Extension_IsExtension path); [by eexists|].
  rewrite (bind_Ok (DCHECK _) _ s tt s)
    by (apply DCHECK_Ok; intros _; apply bool_decide_eq_true_2; eauto).
  unfold mbind, M_bind, the_prefs. rewrite Hprefs. by eexists.
Qed.

Lemma IsDangerousFile_total s prefs prof d st visited :
  extension_contract → download_prefs_ s = Some prefs →
  profile_ s = Some prof →
  ∃ b, IsDangerousFile d st visited s = Ok b s.
Proof.
  intros Hext Hprefs Hprof. unfold IsDangerousFile.
  destruct (ShouldOpenFileBasedOnExtension_total s prefs (suggested_path st))
    as [auto_open Hauto]; [done..|].
  rewrite (bind_Ok _ _ s auto_open s) by done.
  repeat (case_bool_decide || case_match); simpl; try by eexists.
  all: unfold mbind, M_bind, the_profile; rewrite Hprof;
    case_match; by eexists.
Qed.

(** C9: the decision of [CheckVisitedReferrerBeforeDone] for a request
    without a forced file name.  When the download directory is managed the
    prompt is off.  Otherwise, when the preference asks for a prompt, the
    prompt is on unless the download is an extension install or its file
    opens automatically, which is when the generated file name has an
    extension that the preferences list as one to open automatically,
    extension packages excepted; in those cases, and when the preference
    does not ask, the prompt is what the request carried. *)
Theorem CheckVisitedReferrerBeforeDone_prompting
    s download_id download d prefs prof visited :
  extension_contract →
  active_downloads_ s !! download_id = Some download → download ≠ NULL →
  heap s !! download = Some d →
  download_prefs_ s = Some prefs → profile_ s = Some prof →
  force_file_name (state_info d) = EmptyString →
  ∃ st,
    CheckVisitedReferrerBeforeDone download_id visited s
    = Ok tt (set_trace
               (λ t, t ++ [PostFileTask
                             (CheckIfSuggestedPathExists (id d) st
                                (download_path prefs))]) s)
    ∧ (IsDownloadPathManaged prefs = true →
       prompt_user_for_save_location st = false)
    ∧ (IsDownloadPathManaged prefs = false →
       PromptForDownload prefs = true →
       taken_for_extension_install d = false →
       opens_automatically prefs (GenerateFileNameFromRequest d) = false →
       prompt_user_for_save_location st = true)
    ∧ (IsDownloadPathManaged prefs = false →
       PromptForDownload prefs = false
       ∨ taken_for_extension_install d = true
       ∨ opens_automatically prefs (GenerateFileNameFromRequest d) = true →
       prompt_user_for_save_location st
       = prompt_user_for_save_location (state_info d)).
Proof.
  intros Hext Hact Hnn Hd Hprefs Hprof Hforce.
  pose proof (ShouldOpenFileBasedOnExtension_run s prefs
                (GenerateFileNameFromRequest d) Hext Hprefs) as Hauto.
  remember (opens_automatically prefs (GenerateFileNameFromRequest d))
    as auto_open eqn:Hopens. clear Hopens.
  (* the state computed by the decision *)
  assert (∃ st,
    CheckVisitedReferrerBeforeDone_state d visited s = Ok st s
    ∧ prompt_user_for_save_location st
      = (if IsDownloadPathManaged prefs then false
         else if PromptForDownload prefs
                 && negb (taken_for_extension_install d)
                 && negb auto_open
         then true
         else prompt_user_for_save_location (state_info d)))
    as (st & Hst & Hprompt).
  { apply wp_run_state.
    unfold CheckVisitedReferrerBeforeDone_state, taken_for_extension_install.
    cbv zeta.
    destruct (IsURLUserScript (url d) (mime_type d)
              || bool_decide (mime_type d = kMimeType)) eqn:Hscript,
      (prompt_user_for_save_location (state_info d)) eqn:Hp0,
      (is_extension_install (state_info d)) eqn:He0,
      (IsDownloadPathManaged prefs) eqn:Hmanaged,
      (PromptForDownload prefs) eqn:Hpref,
      (bool_decide (last_download_path_ s = EmptyString)) eqn:Hlast;
      simpl; rewrite ?Hforce, ?Hp0, ?He0, ?Hlast; simpl.
    all: repeat first
      [ wp_step
      | eapply wp_of_run; [exact Hauto|]
      | match goal with
        | |- wp (IsDangerousFile ?d ?st ?v) _ ?s =>
            let b := fresh "dangerous" in
            let Hb := fresh "Hdangerous" in
            destruct (IsDangerousFile_total s prefs prof d st v)
              as [b Hb]; [done..|];
            eapply wp_of_run; [exact Hb|]
        end ];
      simpl; rewrite ?Hforce, ?Hp0, ?He0, ?Hmanaged, ?Hpref, ?Hlast; simpl.
    all: simpl in *; rewrite ?Hforce, ?Hp0, ?He0, ?Hlast in *; simpl in *;
      try (split; [done|]); try done.
    all: try (destruct auto_open; simpl in *; congruence). }
  exists st. split.
  - unfold CheckVisitedReferrerBeforeDone.
    rewrite (bind_Ok _ _ s download s)
      by by apply GetActiveDownloadItem_present.
    rewrite bool_decide_eq_false_2 by done.
    rewrite (bind_Ok (deref _) _ s d s) by by apply deref_Ok.
    rewrite (bind_Ok _ _ s st s) by done.
    rewrite (bind_Ok the_prefs _ s prefs s)
      by (unfold the_prefs; by rewrite Hprefs).
    done.
  - rewrite Hprompt. split_and!.
    + by intros ->.
    + by intros -> -> -> ->.
    + intros -> [-> | [-> | ->]]; simpl; by rewrite ?andb_false_r.
Qed.

End prompting.

Section range_removal.
Context {cfg : Config}.
Implicit Types (s : DownloadManager) (m : gmap Z ptr).

(** The test of the loop selects what the specification says. *)
Lemma in_removal_range_spec t0 t1 d :
  in_removal_range t0 t1 d = true ↔ started_within t0 t1 d ∧ terminal d.
Proof.
  unfold in_removal_range, is_null, Item.IsComplete, Item.IsCancelled,
    Item.IsInterrupted, started_within, terminal.
  rewrite !andb_true_iff, !orb_true_iff, !bool_decide_eq_true. tauto.
Qed.

Lemma purged_to_purge s t0 t1 download :
  purged s t0 t1 download = true ↔ to_purge s t0 t1 download.
Proof.
  unfold purged, to_purge. destruct (heap s !! download); [|done].
  apply in_removal_range_spec.
Qed.

Lemma in_removal_range_terminal b e d :
  in_removal_range b e d = true →
  state d ≠ IN_PROGRESS ∧ state d ≠ REMOVING.
Proof.
  unfold in_removal_range, Item.IsComplete, Item.IsCancelled,
    Item.IsInterrupted.
  intros (_ & Hstate)%andb_prop.
  repeat case_bool_decide; simplify_eq /=; split; congruence.
Qed.

Lemma AssertQueueStateConsistent_terminal s download d :
  heap s !! download = Some d →
  state d ≠ IN_PROGRESS → state d ≠ REMOVING →
  download ∈ downloads_ s →
  db_handle d ≠ kUninitializedHandle →
  is_Some (history_downloads_ s !! db_handle d) →
  active_downloads_ s !! id d = None → in_progress_ s !! id d = None →
  AssertQueueStateConsistent download s = Ok tt s.
Proof.
  intros Hd Hnp Hnr Hin Hh Hhist Hact Hprog. apply wp_run_eq.
  unfold AssertQueueStateConsistent.
  wp_step. wp_step. wp_step. wp_step.
  rewrite (bool_decide_eq_false_2 (state d = REMOVING)) by done.
  rewrite (bool_decide_eq_false_2 (state d = IN_PROGRESS)) by done.
  rewrite (bool_decide_eq_true_2 (db_handle d ≠ _)) by done.
  rewrite Hact, Hprog.
  repeat wp_step; try done; by apply bool_decide_eq_true_2.
Qed.

Lemma lookup_erase_entries l m k :
  erase_entries l m !! k
  = if bool_decide (k ∈ l.*1) then None else m !! k.
Proof.
  revert m. induction l as [|[h p] l IH]; intros m.
  - simpl. first [done | case_bool_decide; [set_solver|done]].
  - unfold erase_entries in *. rewrite fmap_cons. simpl. rewrite IH.
    destruct (decide (k = h)) as [->|Hne].
    + rewrite lookup_delete_eq.
      rewrite (bool_decide_eq_true_2 (h ∈ h :: l.*1)) by set_solver.
      by case_bool_decide.
    + rewrite lookup_delete_ne by done.
      repeat case_bool_decide; set_solver.
Qed.

Lemma RemoveDownloadsBetween_scan_spec b e l s pending :
  NoDup l.*1 →
  (∀ h p, (h, p) ∈ l →
     history_downloads_ s !! h = Some p
     ∧ ∃ d, heap s !! p = Some d
            ∧ (in_removal_range b e d = true →
               queue_state_consistent s h p d)) →
  RemoveDownloadsBetween_scan l b e pending s
  = Ok (pending ++ (filter (λ kp, purged s b e kp.2 = true) l).*2)
       (set_history_downloads
          (erase_entries (filter (λ kp, purged s b e kp.2 = true) l)) s).
Proof.
  revert s pending. induction l as [|[h p] l IH]; intros s pending Hnd Hl.
  - simpl. rewrite app_nil_r. by destruct s.
  - apply NoDup_cons in Hnd as [Hh Hnd].
    destruct (Hl h p) as (Hhist & d & Hd & Hcons); [set_solver|].
    simpl. rewrite (bind_Ok (deref _) _ s d s) by by apply deref_Ok.
    destruct (in_removal_range b e d) eqn:Hrange.
    + destruct (Hcons eq_refl) as (Hin & Hdb & Hne & Hact & Hprog).
      destruct (in_removal_range_terminal _ _ _ Hrange).
      rewrite (bind_Ok _ _ s tt s).
      2:{ apply (AssertQueueStateConsistent_terminal s p d); try done.
          - congruence.
          - rewrite Hdb, Hhist. eauto. }
      rewrite (bind_Ok (modify _) _ s tt _) by reflexivity.
      rewrite IH; [|done|].
      * rewrite filter_cons_True by (unfold purged; simpl; by rewrite Hd).
        simpl. by rewrite <- app_assoc.
      * intros h' p' Hin'. destruct (Hl h' p') as (? & d' & ? & Hc');
          [set_solver|].
        split.
        -- simpl. rewrite lookup_delete_ne; [done|].
           intros ->. apply Hh. by apply (list_elem_of_fmap_2 fst _ (h', p')).
        -- exists d'. split; [done|]. intros Hr.
           destruct (Hc' Hr) as (? & ? & ? & ? & ?). by repeat split.
    + rewrite IH; [|done|].
      * by rewrite filter_cons_False
          by (unfold purged; simpl; rewrite Hd; congruence).
      * intros h' p' Hin'. apply Hl. set_solver.
Qed.

Lemma for_each_erase_downloads l s :
  for_each l (λ it, modify (set_downloads (λ X, X ∖ {[it]}))) s
  = Ok tt (set_downloads (λ X, foldl (λ X p, X ∖ {[p]}) X l) s).
Proof.
  revert s. induction l as [|p l IH]; intros s; simpl.
  - by destruct s.
  - rewrite (bind_Ok (modify _) _ s tt _) by reflexivity. by rewrite IH.
Qed.

Lemma for_each_delete l s :
  NoDup l → (∀ p, p ∈ l → p ≠ NULL ∧ is_Some (heap s !! p)) →
  for_each l delete_ s
  = Ok tt (set_heap (λ hp, foldl (λ hp p, delete p hp) hp l) s).
Proof.
  revert s. induction l as [|p l IH]; intros s Hnd Hl; simpl.
  - by destruct s.
  - apply NoDup_cons in Hnd as [Hp Hnd].
    destruct (Hl p) as [Hnn [d Hd]]; [set_solver|].
    rewrite (bind_Ok (delete_ p) _ s tt (set_heap (delete p) s)).
    + rewrite IH; [done|done|].
      intros q Hq. destruct (Hl q) as [? ?]; [set_solver|].
      split; [done|]. simpl. rewrite lookup_delete_ne; [done|].
      intros ->. done.
    + unfold delete_. rewrite bool_decide_eq_false_2 by done.
      by rewrite Hd.
Qed.

Lemma elem_of_foldl_difference (l : list ptr) (X : gset ptr) p :
  p ∈ foldl (λ X p, X ∖ {[p]}) X l ↔ p ∈ X ∧ p ∉ l.
Proof.
  revert X. induction l as [|q l IH]; intros X; simpl; [set_solver|].
  rewrite IH. set_solver.
Qed.

Lemma lookup_foldl_delete (l : list ptr) (hp : gmap ptr DownloadItem) p :
  foldl (λ hp p, delete p hp) hp l !! p
  = if bool_decide (p ∈ l) then None else hp !! p.
Proof.
  revert hp. induction l as [|q l IH]; intros hp; simpl.
  - first [done | case_bool_decide; [set_solver|done]].
  - rewrite IH. destruct (decide (p = q)) as [->|Hne].
    + rewrite lookup_delete_eq.
      rewrite (bool_decide_eq_true_2 (q ∈ q :: l)) by set_solver.
      by case_bool_decide.
    + rewrite lookup_delete_ne by done.
      repeat case_bool_decide; set_solver.
Qed.

Lemma static_cast_int_small n :
  0 ≤ n < 2 ^ 31 → static_cast_int n = n.
Proof.
  intros Hn. unfold static_cast_int.
  rewrite Z.mod_small by lia. lia.
Qed.

Lemma map_entries_Permutation m : map_entries m ≡ₚ map_to_list m.
Proof. apply merge_sort_Permutation. Qed.

Lemma elem_of_map_entries m h p :
  (h, p) ∈ map_entries m ↔ m !! h = Some p.
Proof. by rewrite map_entries_Permutation, elem_of_map_to_list. Qed.

Lemma NoDup_fst_map_entries m : NoDup (map_entries m).*1.
Proof. rewrite map_entries_Permutation. apply NoDup_fst_map_to_list. Qed.

Lemma RemoveDownloadsBetween_run s remove_begin remove_end :
  scan_ready s remove_begin remove_end →
  let gone := purged_entries s remove_begin remove_end in
  ∃ s',
    RemoveDownloadsBetween remove_begin remove_end s
    = Ok (Z.of_nat (size gone)) s'
    ∧ history_downloads_ s' = history_downloads_ s ∖ gone
    ∧ downloads_ s' = downloads_ s ∖ map_img gone
    ∧ (∀ p, heap s' !! p
            = if bool_decide (p ∈ map_img (SA:=gset ptr) gone) then None
              else heap s !! p)
    ∧ active_downloads_ s' = active_downloads_ s
    ∧ in_progress_ s' = in_progress_ s
    ∧ trace s'
      = trace s
        ++ HistoryRemoveEntriesBetween remove_begin remove_end
           :: (if bool_decide (gone = ∅) then [] else [ObserverModelChanged]).
Proof.
  intros ([n Hhist] & Hnull & Hentries & Hsize) gone.
  set (s1 := set_trace
               (λ t, t ++ [HistoryRemoveEntriesBetween remove_begin
                             remove_end]) s).
  set (P := λ kp : Z * ptr, purged s remove_begin remove_end kp.2 = true).
  set (F := filter P (map_entries (history_downloads_ s))).
  assert (HF : ∀ h p, (h, p) ∈ F ↔ gone !! h = Some p).
  { intros h p. unfold F, gone, purged_entries.
    rewrite list_elem_of_filter, elem_of_map_entries,
      map_lookup_filter_Some. naive_solver. }
  assert (HndF : NoDup F.*1).
  { eapply sublist_NoDup; [apply NoDup_fst_map_entries|].
    apply fmap_sublist, sublist_filter. }
  assert (Hlen : length F = size gone).
  { unfold gone, purged_entries. rewrite map_filter_alt.
    rewrite map_size_list_to_map.
    - unfold F. by rewrite map_entries_Permutation.
    - eapply sublist_NoDup;
        [apply (NoDup_fst_map_to_list (history_downloads_ s))|].
      apply fmap_sublist, sublist_filter. }
  assert (Hgone : ∀ h p, gone !! h = Some p →
            ∃ d, heap s !! p = Some d
                 ∧ queue_state_consistent s h p d).
  { intros h p (Hhp & Hp)%map_lookup_filter_Some. simpl in Hp.
    destruct (Hentries h p Hhp) as (d & Hd & Hc). exists d.
    split; [done|]. apply Hc. unfold purged in Hp. by rewrite Hd in Hp. }
  assert (HndP : NoDup F.*2).
  { apply NoDup_fmap_2_strong.
    - intros [h p] [h' p'] Hin Hin' Heq. simpl in Heq. subst p'.
      apply HF in Hin, Hin'.
      destruct (Hgone _ _ Hin) as (d & Hd & _ & Hdb & _).
      destruct (Hgone _ _ Hin') as (d' & Hd' & _ & Hdb' & _).
      congruence.
    - eapply NoDup_fmap_1, HndF. }
  assert (Himg : ∀ p, p ∈ F.*2 ↔ p ∈ map_img (SA:=gset ptr) gone).
  { intros p. rewrite elem_of_map_img, list_elem_of_fmap. split.
    - intros ([h p'] & -> & Hin). exists h. by apply HF.
    - intros (h & Hin). exists (h, p). split; [done|]. by apply HF. }
  assert (Hscan :
    RemoveDownloadsBetween_scan (map_entries (history_downloads_ s))
      remove_begin remove_end [] s1
    = Ok (F.*2) (set_history_downloads (erase_entries F) s1)).
  { apply (RemoveDownloadsBetween_scan_spec remove_begin remove_end
             (map_entries (history_downloads_ s)) s1 []).
    - apply NoDup_fst_map_entries.
    - intros h p Hin%elem_of_map_entries. split; [done|].
      destruct (Hentries h p Hin) as (d & Hd & Hc). by exists d. }
  assert (Hhist' : erase_entries F (history_downloads_ s)
                   = history_downloads_ s ∖ gone).
  { apply map_eq. intros k. rewrite lookup_erase_entries, lookup_difference.
    destruct (gone !! k) as [p|] eqn:Hk.
    - rewrite bool_decide_eq_true_2; [done|].
      apply HF in Hk. by apply (list_elem_of_fmap_2 fst _ (k, p)).
    - rewrite bool_decide_eq_false_2; [done|].
      intros ([h p] & -> & Hin%HF)%list_elem_of_fmap. simpl in Hk.
      congruence. }
  unfold RemoveDownloadsBetween, history_RemoveEntriesBetween.
  rewrite (bind_Ok _ _ s tt s1).
  2:{ rewrite (bind_Ok the_history _ s n s)
        by (unfold the_history; by rewrite Hhist). reflexivity. }
  rewrite (bind_Ok get _ s1 s1 s1) by reflexivity.
  change (history_downloads_ s1) with (history_downloads_ s).
  rewrite (bind_Ok _ _ _ _ _ Hscan).
  destruct F as [|[h0 p0] F'] eqn:HFeq.
  - (* nothing selected *)
    assert (gone = ∅) as Hempty by (by apply map_size_empty_inv).
    rewrite bool_decide_eq_true_2 by done.
    eexists. split; [by rewrite <- Hlen|].
    simpl. rewrite Hempty, bool_decide_eq_true_2 by done.
    rewrite map_img_empty_L.
    split_and!; try done; [by rewrite map_difference_empty|set_solver].
  - rewrite bool_decide_eq_false_2 by done.
    assert (gone ≠ ∅) as Hne.
    { intros Hempty. by rewrite Hempty, map_size_empty in Hlen. }
    rewrite <- HFeq in *. clear HFeq.
    rewrite (bind_Ok _ _ _ _ _ (for_each_erase_downloads _ _)).
    rewrite (bind_Ok NotifyModelChanged _ _ tt _) by reflexivity.
    erewrite bind_Ok.
    2:{ apply for_each_delete; [exact HndP|].
        intros p ([h p'] & -> & Hin%HF)%list_elem_of_fmap. simpl.
        destruct (Hgone _ _ Hin) as (d & Hd & _). split; [|eauto].
        intros ->. congruence. }
    eexists. split.
    { rewrite length_fmap, Hlen, static_cast_int_small; [done|].
      pose proof (map_size_filter
                    (λ kp, purged s remove_begin remove_end kp.2 = true)
                    (history_downloads_ s)) as Hle.
      fold (purged_entries s remove_begin remove_end) in Hle. fold gone in Hle.
      lia. }
    simpl. rewrite (bool_decide_eq_false_2 (gone = ∅)) by done.
    split_and!; try done.
    + apply set_eq. intros p. rewrite elem_of_foldl_difference.
      rewrite Himg. set_solver.
    + intros p. rewrite lookup_foldl_delete.
      repeat case_bool_decide; try done; by rewrite Himg in *.
    + by rewrite <- app_assoc.
Qed.

(** C8: [RemoveDownloadsBetween] erases from [history_downloads_] and
    [downloads_], and releases, exactly the Records of the durable index
    that started at [t0] or later and before [t1] (a null [t1], which is 0,
    is no bound) and whose state is COMPLETE, CANCELLED or INTERRUPTED; it
    returns how many they are, leaves the other indices alone, and notifies
    the observers once when there is at least one and not at all
    otherwise. *)
Theorem RemoveDownloadsBetween_purges s t0 t1 :
  removal_ready s t0 t1 →
  let gone := purge_set s t0 t1 in
  ∃ s',
    RemoveDownloadsBetween t0 t1 s = Ok (Z.of_nat (size gone)) s'
    ∧ history_downloads_ s' = history_downloads_ s ∖ gone
    ∧ downloads_ s' = downloads_ s ∖ map_img gone
    ∧ (∀ p, heap s' !! p
            = if bool_decide (p ∈ map_img (SA:=gset ptr) gone) then None
              else heap s !! p)
    ∧ active_downloads_ s' = active_downloads_ s
    ∧ in_progress_ s' = in_progress_ s
    ∧ trace s'
      = trace s
        ++ HistoryRemoveEntriesBetween t0 t1
           :: (if bool_decide (gone = ∅) then [] else [ObserverModelChanged]).
Proof.
  intros (Hhist & Hnull & Hentries & Hsize) gone.
  assert (gone = purged_entries s t0 t1) as Hgone.
  { unfold gone, purge_set, purged_entries. apply map_filter_ext.
    intros h p _. simpl. symmetry. apply purged_to_purge. }
  rewrite Hgone. apply RemoveDownloadsBetween_run.
  split_and!; try done.
  intros handle download Hentry.
  destruct (Hentries handle download Hentry) as (d & Hd & Hcons).
  exists d. split; [done|].
  intros (Hrange & Hterminal)%in_removal_range_spec. by apply Hcons.
Qed.

End range_removal.

Section shutdown.
Context {cfg : Config}.
Implicit Types (s : DownloadManager).

Lemma Shutdown_not_needed s :
  shutdown_needed_ s = false → Shutdown s = Ok tt s.
Proof.
  intros Hs. unfold Shutdown. rewrite (bind_Ok get _ s s s) by done.
  by rewrite Hs.
Qed.

Lemma AssertContainersConsistent_Ok s :
  containers_consistent s → AssertContainersConsistent s = Ok tt s.
Proof.
  unfold containers_consistent, AssertContainersConsistent.
  destruct debug_build eqn:Hdebug; [|done].
  intros (Ha & Hh & Hsp & Hu). apply wp_run_eq.
  repeat wp_step; try done; intros _; apply bool_decide_eq_true_2;
    set_solver.
Qed.

Lemma RemoveDownload_absent s h :
  history_downloads_ s !! h = None → RemoveDownload h s = Ok tt s.
Proof.
  intros Hh. unfold RemoveDownload. rewrite (bind_Ok get _ s s s) by done.
  by rewrite Hh.
Qed.

Lemma RemoveDownload_present s h p d :
  history_downloads_ s !! h = Some p → heap s !! p = Some d →
  p ≠ NULL → is_Some (download_history_ s) →
  (debug_build = true → p ∈ downloads_ s) →
  RemoveDownload h s
  = Ok tt (set_heap (delete p)
             (set_trace (λ t, t ++ [ObserverModelChanged])
                (set_downloads (λ X, X ∖ {[p]})
                   (set_history_downloads (delete h)
                      (set_trace (λ t, t ++ [HistoryRemoveEntry p d]) s))))).
Proof.
  intros Hh Hd Hnn [n Hn] Hin. apply wp_run_eq. unfold RemoveDownload.
  wp_step. wp_step. rewrite Hh. unfold history_RemoveEntry.
  repeat wp_step; simpl; try done.
  - intros Hdebug. specialize (Hin Hdebug).
    by rewrite (bool_decide_eq_true_2 (p ∈ downloads_ s)).
  - unfold delete_, wp. rewrite bool_decide_eq_false_2 by done.
    simpl. by rewrite Hd.
Qed.

Lemma Shutdown_visit_spec s download d :
  records_consistent s → download ∈ downloads_ s →
  heap s !! download = Some d →
  ∃ s', Shutdown_visit download s = Ok tt s' ∧ visited download d s s'.
Proof.
  intros (Hhist & Hnull & Hlive & Hidx & Huniq) Hin Hd.
  assert (download ≠ NULL) as Hnn by (intros ->; congruence).
  unfold Shutdown_visit.
  rewrite (bind_Ok (deref _) _ s d s) by by apply deref_Ok.
  destruct (bool_decide (safety_state d = DANGEROUS)) eqn:Hsafe;
    destruct (IsPartialDownload d) eqn:Hpartial; simpl.
  - (* dangerous and partial: the data is deleted from disk *)
    unfold DownloadItem_Delete.
    rewrite (bind_Ok (deref _) _ s d s) by by apply deref_Ok.
    rewrite (bind_Ok (emit _) _ s tt _) by reflexivity.
    destruct (history_downloads_ s !! db_handle d) as [q|] eqn:Hq.
    + assert (q = download) as -> by eauto.
      erewrite RemoveDownload_present; [|done..].
      eexists. split; [done|]. unfold visited, records_consistent. simpl.
      split_and!.
      * done.
      * by rewrite lookup_delete_ne.
      * intros p Hp. rewrite lookup_delete_ne by set_solver.
        apply Hlive. set_solver.
      * intros h p Hp.
        destruct (decide (h = db_handle d)) as [->|Hne];
          [by rewrite lookup_delete_eq in Hp|].
        rewrite lookup_delete_ne in Hp by done.
        destruct (Hidx h p Hp) as (Hpin & d' & Hd' & Hdb).
        assert (p ≠ download) by (intros ->; congruence).
        split; [set_solver|]. exists d'.
        by rewrite lookup_delete_ne.
      * intros p d' q Hp Hd' Hq'.
        assert (p ≠ download) by set_solver.
        rewrite lookup_delete_ne in Hd' by done.
        destruct (decide (db_handle d' = db_handle d)) as [Heq|Hne].
        -- rewrite Heq, lookup_delete_eq in Hq'. done.
        -- rewrite lookup_delete_ne in Hq' by done.
           eapply Huniq; [|done..]. set_solver.
      * set_solver.
      * set_solver.
      * intros q Hne. by rewrite lookup_delete_ne.
      * intros _. apply lookup_delete_eq.
      * done.
      * eexists. split; [rewrite <- !app_assoc; reflexivity|].
        intros _. unfold shutdown_event. rewrite Hsafe. set_solver.
    + rewrite RemoveDownload_absent by done.
      eexists. split; [done|]. unfold visited, records_consistent. simpl.
      split_and!; try done.
      eexists. split; [reflexivity|].
      intros _. unfold shutdown_event. rewrite Hsafe. set_solver.
  - eexists. split; [done|]. unfold visited, records_consistent.
    split_and!; try done. exists [].
    split; [by rewrite app_nil_r|congruence].
  - (* partial, not dangerous: the Record is cancelled *)
    destruct Hhist as [n Hn].
    unfold DownloadItem_Cancel, history_UpdateEntry.
    erewrite bind_Ok.
    2:{ apply wp_run_eq. repeat wp_step. done. }
    erewrite wp_run_eq.
    2:{ repeat wp_step. done. }
    eexists. split; [done|]. unfold visited, records_consistent. simpl.
    split_and!; try done.
    * rewrite lookup_insert_ne; done.
    * intros p Hp. destruct (decide (p = download)) as [->|Hne];
        [rewrite lookup_insert_eq; eauto|].
      rewrite lookup_insert_ne by done. auto.
    * intros h p Hp. destruct (Hidx h p Hp) as (Hpin & d' & Hd' & Hdb).
      split; [done|].
      destruct (decide (p = download)) as [->|Hne].
      -- rewrite lookup_insert_eq. eexists. split; [done|]. simpl.
         congruence.
      -- rewrite lookup_insert_ne by done. eauto.
    * intros p d' q Hp Hd' Hq.
      destruct (decide (p = download)) as [->|Hne].
      -- rewrite lookup_insert_eq in Hd'. simplify_eq. simpl in Hq. eauto.
      -- rewrite lookup_insert_ne in Hd' by done. eauto.
    * intros q Hne. by rewrite lookup_insert_ne.
    * eexists. split; [rewrite <- !app_assoc; reflexivity|].
      intros _. unfold shutdown_event. rewrite Hsafe. set_solver.
  - eexists. split; [done|]. unfold visited, records_consistent.
    split_and!; try done. exists [].
    split; [by rewrite app_nil_r|congruence].
Qed.

Lemma Shutdown_loop_spec l s :
  NoDup l → (∀ p, p ∈ l → p ∈ downloads_ s) → records_consistent s →
  ∃ s', Shutdown_loop l s = Ok tt s' ∧ looped l s s'.
Proof.
  revert s. induction l as [|p l IH]; intros s Hnd Hl Hrec.
  - exists s. split; [done|]. unfold looped. split_and!; try done.
    exists []. split; [by rewrite app_nil_r|]. intros ? ? []%elem_of_nil.
  - apply NoDup_cons in Hnd as [Hp Hnd].
    assert (p ∈ downloads_ s) as Hpin by (apply Hl; set_solver).
    destruct Hrec as (Hhist & Hnull & Hlive & Hidx & Huniq).
    destruct (Hlive p Hpin) as [d Hd].
    destruct (Shutdown_visit_spec s p d) as (s1 & Hvisit & Hv);
      [done..|].
    destruct Hv as (Hrec1 & Hsub1 & Hstay1 & Hframe1 & Hgone1 & Hsp1
                    & t1 & Ht1 & Hev1).
    destruct (IH s1) as (s' & Hloop & Hl');
      [done| |done|].
    { intros q Hq. apply Hstay1; [set_solver|]. apply Hl. set_solver. }
    destruct Hl' as (Hrec' & Hsub' & Hframe' & Hgone' & Hsp' & t2 & Ht2
                     & Hev2).
    exists s'. split.
    + simpl. rewrite (bind_Ok get _ s s s) by done.
      rewrite bool_decide_eq_true_2 by done.
      rewrite (bind_Ok _ _ _ _ _ Hvisit).
      rewrite (bind_Ok get _ s1 s1 s1) by done.
      destruct (head (filter (λ q, q ∈ downloads_ s) l)) as [next|] eqn:Hn;
        [|done].
      apply head_Some_elem_of, list_elem_of_filter in Hn as [Hnin Hnl].
      rewrite bool_decide_eq_true_2; [done|].
      apply Hstay1; [set_solver|done].
    + unfold looped. split_and!.
      * done.
      * set_solver.
      * intros q Hq. rewrite Hframe' by set_solver.
        apply Hframe1. set_solver.
      * intros q Hq Hq'. destruct (decide (q ∈ downloads_ s1)) as [Hin1|Hout1].
        -- by apply Hgone'.
        -- assert (q = p) as ->.
           { destruct (decide (q = p)); [done|]. exfalso. auto. }
           rewrite Hframe' by done. auto.
      * congruence.
      * exists (t1 ++ t2). split; [by rewrite Ht2, Ht1, app_assoc|].
        intros q dq Hq Hdq Hpart. apply elem_of_app.
        apply elem_of_cons in Hq as [->|Hq].
        -- left. simplify_eq. auto.
        -- right. eapply Hev2; [done| |done].
           rewrite Hframe1; [done|]. set_solver.
Qed.

Lemma set_entries_Permutation (X : gset ptr) : set_entries X ≡ₚ elements X.
Proof. apply merge_sort_Permutation. Qed.

Lemma elem_of_set_entries (X : gset ptr) p : p ∈ set_entries X ↔ p ∈ X.
Proof. by rewrite set_entries_Permutation, elem_of_elements. Qed.

Lemma NoDup_set_entries (X : gset ptr) : NoDup (set_entries X).
Proof. rewrite set_entries_Permutation. apply NoDup_elements. Qed.

(** C3: [Shutdown] returns without any change when [shutdown_needed_] is
    false (initialization never completed, or [Shutdown] already ran).
    From a consistent state in which it is needed, it returns, clears the
    flag, empties [downloads_], [active_downloads_], [in_progress_],
    [history_downloads_] and [save_page_as_downloads_], releases all the
    Records, has asked for the data of every partial DANGEROUS one to be
    deleted and has cancelled every other partial one, and a second
    [Shutdown] changes nothing. *)
Theorem Shutdown_clears_everything :
  (∀ s, shutdown_needed_ s = false → Shutdown s = Ok tt s)
  ∧ (∀ s, consistent s → shutdown_needed_ s = true →
       ∃ s', Shutdown s = Ok tt s'
         ∧ shutdown_needed_ s' = false
         ∧ downloads_ s' = ∅ ∧ active_downloads_ s' = ∅
         ∧ in_progress_ s' = ∅ ∧ history_downloads_ s' = ∅
         ∧ save_page_as_downloads_ s' = ∅
         ∧ (∀ p, p ∈ downloads_ s → heap s' !! p = None)
         ∧ (∃ t, trace s' = trace s ++ t
                 ∧ ∀ p d, p ∈ downloads_ s → heap s !! p = Some d →
                          IsPartialDownload d = true →
                          shutdown_event p d ∈ t)
         ∧ Shutdown s' = Ok tt s').
Proof.
  split; [apply Shutdown_not_needed|].
  intros s [Hrec Hcont] Hneeded.
  set (s0 := (if file_manager_ s
              then set_trace
                     (λ t, t ++ [PostFileTask OnDownloadManagerShutdown])
              else λ s, s)
               (set_trace (λ t, t ++ [ObserverManagerGoingDown])
                  (set_shutdown_needed false s))).
  assert (Hs0 : heap s0 = heap s ∧ downloads_ s0 = downloads_ s
                ∧ history_downloads_ s0 = history_downloads_ s
                ∧ active_downloads_ s0 = active_downloads_ s
                ∧ save_page_as_downloads_ s0 = save_page_as_downloads_ s
                ∧ download_history_ s0 = download_history_ s
                ∧ ∃ t0, trace s0 = trace s ++ t0).
  { unfold s0. destruct (file_manager_ s); simpl; split_and!; try done.
    - eexists. rewrite <- app_assoc. reflexivity.
    - eexists. reflexivity. }
  destruct Hs0 as (Hh0 & Hd0 & Hi0 & Ha0 & Hsp0 & Hhi0 & t0 & Ht0).
  assert (Hrec0 : records_consistent s0).
  { unfold records_consistent. by rewrite Hh0, Hd0, Hi0, Hhi0. }
  assert (Hcont0 : containers_consistent s0).
  { unfold containers_consistent. by rewrite Hd0, Hi0, Ha0, Hsp0. }
  destruct (Shutdown_loop_spec (set_entries (downloads_ s)) s0)
    as (s1 & Hloop & Hl).
  { apply NoDup_set_entries. }
  { intros p Hp. rewrite Hd0. by apply elem_of_set_entries. }
  { done. }
  destruct Hl as (Hrec1 & Hsub1 & Hframe1 & Hgone1 & Hsp1 & t1 & Ht1
                  & Hev1).
  destruct Hrec1 as (Hhist1 & Hnull1 & Hlive1 & _).
  set (s2 := (if debug_build
              then set_save_page_as_downloads (λ _, ∅) else λ s, s)
               (set_history_downloads (λ _, ∅)
                  (set_active_downloads (λ _, ∅)
                     (set_in_progress (λ _, ∅)
                        (set_downloads (λ _, ∅) s1))))).
  assert (Hs2 : heap s2 = heap s1 ∧ trace s2 = trace s1
                ∧ downloads_ s2 = ∅ ∧ active_downloads_ s2 = ∅
                ∧ in_progress_ s2 = ∅ ∧ history_downloads_ s2 = ∅
                ∧ save_page_as_downloads_ s2
                  = if debug_build then ∅ else save_page_as_downloads_ s1).
  { unfold s2. by destruct debug_build. }
  destruct Hs2 as (Hh2 & Ht2 & Hd2 & Ha2 & Hp2 & Hi2 & Hsp2).
  assert (Hdel :
    for_each (set_entries (downloads_ s1)) delete_ s2
    = Ok tt (set_heap
               (λ hp, foldl (λ hp p, delete p hp) hp
                        (set_entries (downloads_ s1))) s2)).
  { apply for_each_delete; [apply NoDup_set_entries|].
    intros p Hp%elem_of_set_entries. rewrite Hh2.
    split; [|auto]. intros ->. destruct (Hlive1 NULL Hp). congruence. }
  eexists. split.
  { unfold Shutdown. rewrite (bind_Ok get _ s s s) by done.
    rewrite Hneeded. simpl.
    rewrite (bind_Ok (modify _) _ s tt _) by reflexivity.
    rewrite (bind_Ok (emit _) _ _ tt _) by reflexivity.
    rewrite (bind_Ok _ _ _ tt s0) by (unfold s0; by destruct (file_manager_ s)).
    rewrite (bind_Ok _ _ s0 tt s0)
      by by apply AssertContainersConsistent_Ok.
    rewrite (bind_Ok _ _ _ _ _ Hloop).
    rewrite (bind_Ok get _ s1 s1 s1) by done.
    do 4 rewrite (bind_Ok (modify _) _ _ tt _) by reflexivity.
    rewrite (bind_Ok _ _ _ tt s2) by (unfold s2; by destruct debug_build).
    rewrite (bind_Ok _ _ _ _ _ Hdel).
    do 3 rewrite (bind_Ok (modify _) _ _ tt _) by reflexivity.
    reflexivity. }
  simpl. split_and!; try done.
  - rewrite Hsp2. destruct debug_build eqn:Hdebug; [done|].
    rewrite Hsp1, Hsp0. unfold containers_consistent in Hcont.
    by rewrite Hdebug in Hcont.
  - intros p Hp. rewrite lookup_foldl_delete, Hh2.
    case_bool_decide as Hpe; [done|].
    rewrite elem_of_set_entries in Hpe. apply Hgone1; [by rewrite Hd0|done].
  - exists (t0 ++ t1). split; [by rewrite Ht2, Ht1, Ht0, app_assoc|].
    intros p d Hp Hd Hpart. apply elem_of_app. right.
    eapply Hev1; [by apply elem_of_set_entries|by rewrite Hh0|done].
Qed.

End shutdown.

Section preservation.
Context {cfg : Config}.
Implicit Types (s : DownloadManager).

Lemma wlp_trivial {A} (m : M A) s : wlp m (λ _ _, True) s.
Proof. unfold wlp. by destruct (m s). Qed.

Lemma preserves_bind {A B} (m : M A) (f : A → M B) :
  preserves m → (∀ a, preserves (f a)) → preserves (m ≫= f).
Proof.
  intros Hm Hf s Hs. apply wlp_bind. eapply wlp_mono; [by apply Hm|].
  intros a s' Hs'. by apply Hf.
Qed.

Lemma preserves_ret {A} (a : A) : preserves (mret a).
Proof. by intros s Hs. Qed.

Lemma preserves_crash {A} e : preserves (crash (A:=A) e).
Proof. by intros s Hs. Qed.

(** A step that leaves the manager as it is. *)
Lemma preserves_reader {A} (m : M A) :
  (∀ s, wlp m (λ _ s', s' = s) s) → preserves m.
Proof.
  intros Hm s Hs. eapply wlp_mono; [apply Hm|]. by intros _ ? ->.
Qed.

Lemma preserves_get : preserves get.
Proof. by intros s Hs. Qed.

Lemma preserves_DCHECK b : preserves (DCHECK b).
Proof. intros s Hs. by apply wlp_DCHECK. Qed.

Lemma preserves_CHECK b : preserves (CHECK b).
Proof. intros s Hs. by apply wlp_CHECK. Qed.

Lemma preserves_deref p : preserves (deref p).
Proof. intros s Hs. by apply wlp_deref. Qed.

Lemma preserves_the_history : preserves the_history.
Proof. intros s Hs. by apply wlp_the_history. Qed.

Lemma preserves_the_prefs : preserves the_prefs.
Proof. intros s Hs. by apply wlp_the_prefs. Qed.

Lemma preserves_the_profile : preserves the_profile.
Proof. intros s Hs. by apply wlp_the_profile. Qed.

(** A field update that touches neither the free store nor the durable
    index. *)
Lemma preserves_frame f :
  (∀ s, heap (f s) = heap s
        ∧ history_downloads_ (f s) = history_downloads_ s) →
  preserves (modify f).
Proof.
  intros Hf s Hs. apply wlp_modify. unfold history_index_ok.
  destruct (Hf s) as [-> ->]. done.
Qed.

Lemma preserves_emit e : preserves (emit e).
Proof. by apply preserves_frame. Qed.

Lemma preserves_update p f :
  (∀ d, db_handle (f d) = db_handle d) → preserves (update p f).
Proof.
  intros Hf s Hs. apply wlp_update. intros d Hd h q Hq. simpl in *.
  destruct (Hs h q Hq) as (Hne & dq & Hdq & Hdb). split; [done|].
  destruct (decide (q = p)) as [->|Hqp].
  - rewrite lookup_insert_eq. eexists. split; [done|]. simplify_eq.
    apply Hf.
  - rewrite lookup_insert_ne by done. eauto.
Qed.

Lemma preserves_new d : preserves (new d).
Proof.
  intros s Hs. apply wlp_new. intros p Hnn Hp h q Hq. simpl in *.
  destruct (Hs h q Hq) as (Hne & dq & Hdq & Hdb). split; [done|].
  exists dq. rewrite lookup_insert_ne; [done|]. intros ->. congruence.
Qed.

Lemma preserves_erase h :
  preserves (modify (set_history_downloads (delete h))).
Proof.
  intros s Hs. apply wlp_modify. intros h' q Hq. simpl in *.
  apply lookup_delete_Some in Hq as [_ Hq]. by apply Hs.
Qed.

Lemma preserves_clear :
  preserves (modify (set_history_downloads (λ _, ∅))).
Proof. intros s Hs. apply wlp_modify. intros h' q Hq. done. Qed.

Lemma preserves_for_each {A} (l : list A) (body : A → M unit) :
  (∀ x, x ∈ l → preserves (body x)) → preserves (for_each l body).
Proof.
  induction l as [|x l IH]; intros Hbody; simpl.
  - apply preserves_ret.
  - apply preserves_bind; [apply Hbody; set_solver|].
    intros _. apply IH. intros y Hy. apply Hbody. set_solver.
Qed.

End preservation.

Ltac preserves_step :=
  lazymatch goal with
  | |- preserves (mbind _ _) => apply preserves_bind; [|intros ?]
  | |- preserves (mret _) => apply preserves_ret
  | |- preserves (crash _) => apply preserves_crash
  | |- preserves get => apply preserves_get
  | |- preserves (DCHECK _) => apply preserves_DCHECK
  | |- preserves (CHECK _) => apply preserves_CHECK
  | |- preserves (deref _) => apply preserves_deref
  | |- preserves the_history => apply preserves_the_history
  | |- preserves the_prefs => apply preserves_the_prefs
  | |- preserves the_profile => apply preserves_the_profile
  | |- preserves (emit _) => apply preserves_emit
  | |- preserves NotifyModelChanged => apply preserves_emit
  | |- preserves (modify (set_history_downloads (delete _))) =>
      apply preserves_erase
  | |- preserves (modify (set_history_downloads (λ _, ∅))) =>
      apply preserves_clear
  | |- preserves (modify _) => apply preserves_frame; by intros ?
  | |- preserves (update _ _) => apply preserves_update; by intros ?
  | |- preserves (new _) => apply preserves_new
  | |- preserves (for_each _ _) => apply preserves_for_each; intros ? ?
  | |- preserves (if ?b then _ else _) => destruct b
  | |- preserves (match ?x with _ => _ end) => destruct x
  | |- preserves (let _ := _ in _) => cbv zeta
  | |- preserves UpdateAppIcon => unfold UpdateAppIcon
  | |- preserves (history_AddEntry _) => unfold history_AddEntry
  | |- preserves (history_UpdateEntry _) => unfold history_UpdateEntry
  | |- preserves (history_RemoveEntry _) => unfold history_RemoveEntry
  | |- preserves (history_UpdateDownloadPath _ _) =>
      unfold history_UpdateDownloadPath
  | |- preserves (history_RemoveEntriesBetween _ _) =>
      unfold history_RemoveEntriesBetween
  | |- preserves (history_CheckVisitedReferrerBefore _ _) =>
      unfold history_CheckVisitedReferrerBefore
  | |- preserves (active_downloads_index _) => unfold active_downloads_index
  | |- preserves (GetActiveDownloadItem _) => unfold GetActiveDownloadItem
  | |- preserves (DownloadCancelledInternal _ _) =>
      unfold DownloadCancelledInternal
  | |- preserves (ShowDownloadInBrowser _) => unfold ShowDownloadInBrowser
  | |- preserves (CheckDownloadHashDone _ _) => unfold CheckDownloadHashDone
  | |- preserves (IsDownloadReadyForCompletion _) =>
      unfold IsDownloadReadyForCompletion
  | |- preserves (MaybeCompleteDownload _) => unfold MaybeCompleteDownload
  | |- preserves (ContinueDownloadWithPath _ _) =>
      unfold ContinueDownloadWithPath
  | |- preserves (ShouldOpenFileBasedOnExtension _) =>
      unfold ShouldOpenFileBasedOnExtension
  | |- preserves (IsDangerousFile _ _ _) => unfold IsDangerousFile
  | |- preserves (CheckVisitedReferrerBeforeDone_state _ _) =>
      unfold CheckVisitedReferrerBeforeDone_state
  | |- preserves (CheckForFileRemoval _) => unfold CheckForFileRemoval
  | |- preserves (OnAllDataSaved _ _ _) => unfold OnAllDataSaved
  | |- preserves (OnDownloadError _ _ _) => unfold OnDownloadError
  | |- preserves (DownloadCancelled _) => unfold DownloadCancelled
  | |- preserves (CheckDownloadUrlDone _ _) => unfold CheckDownloadUrlDone
  end.

Ltac preserves_auto := repeat preserves_step.

Ltac as_preserves :=
  match goal with
  | |- ∀ s, history_index_ok s → wlp ?m _ s => change (preserves m)
  end.

Section simple_calls.
Context {cfg : Config}.

Lemma GetDownloadItem_scan_preserves l i :
  preserves (GetDownloadItem_scan l i).
Proof.
  induction l as [|[h p] l IH]; simpl; preserves_auto. apply IH.
Qed.

Lemma GetDownloadItem_preserves i : preserves (GetDownloadItem i).
Proof.
  unfold GetDownloadItem. preserves_auto. apply GetDownloadItem_scan_preserves.
Qed.

Lemma Init_preserves profile rdh : preserves (Init profile rdh).
Proof. unfold Init. preserves_auto. Qed.

Lemma StartDownload_preserves i : preserves (StartDownload i).
Proof. unfold StartDownload. preserves_auto. Qed.

Lemma CheckDownloadUrlDone_preserves i b :
  preserves (CheckDownloadUrlDone i b).
Proof. preserves_auto. Qed.

Lemma CheckVisitedReferrerBeforeDone_preserves i b :
  preserves (CheckVisitedReferrerBeforeDone i b).
Proof. unfold CheckVisitedReferrerBeforeDone. preserves_auto. Qed.

Lemma OnPathExistenceAvailable_preserves i st :
  preserves (OnPathExistenceAvailable i st).
Proof. unfold OnPathExistenceAvailable. preserves_auto. Qed.

Lemma CreateDownloadItem_preserves info :
  preserves (CreateDownloadItem info).
Proof. unfold CreateDownloadItem. preserves_auto. Qed.

Lemma FileSelected_preserves path i : preserves (FileSelected path i).
Proof. unfold FileSelected. preserves_auto. Qed.

Lemma FileSelectionCanceled_preserves i :
  preserves (FileSelectionCanceled i).
Proof. unfold FileSelectionCanceled. preserves_auto. Qed.

Lemma UpdateDownload_preserves i size : preserves (UpdateDownload i size).
Proof. unfold UpdateDownload. preserves_auto. Qed.

Lemma OnResponseCompleted_preserves i size e hash :
  preserves (OnResponseCompleted i size e hash).
Proof. unfold OnResponseCompleted. preserves_auto. Qed.

Lemma DownloadCompleted_preserves i : preserves (DownloadCompleted i).
Proof.
  unfold DownloadCompleted.
  apply preserves_bind; [apply GetDownloadItem_preserves|intros ?].
  preserves_auto.
Qed.

Lemma OnDownloadRenamedToFinalName_preserves i path n :
  preserves (OnDownloadRenamedToFinalName i path n).
Proof.
  unfold OnDownloadRenamedToFinalName.
  apply preserves_bind; [apply GetDownloadItem_preserves|intros ?].
  preserves_auto.
Qed.

Lemma OnFileRemovalDetected_preserves h :
  preserves (OnFileRemovalDetected h).
Proof. unfold OnFileRemovalDetected. preserves_auto. Qed.

Lemma CheckForHistoryFilesRemoval_preserves :
  preserves CheckForHistoryFilesRemoval.
Proof. unfold CheckForHistoryFilesRemoval. preserves_auto. Qed.

Lemma AssertQueueStateConsistent_preserves p :
  preserves (AssertQueueStateConsistent p).
Proof. unfold AssertQueueStateConsistent. preserves_auto. Qed.

Lemma DownloadItem_Cancel_preserves b p :
  preserves (DownloadItem_Cancel b p).
Proof. unfold DownloadItem_Cancel. preserves_auto. Qed.

End simple_calls.

Section index_calls.
Context {cfg : Config}.
Implicit Types (s : DownloadManager).

Lemma RemoveDownload_preserves h : preserves (RemoveDownload h).
Proof.
  intros s Hs. unfold RemoveDownload. apply wlp_bind, wlp_get.
  destruct (history_downloads_ s !! h) as [p|] eqn:Hp; [|done].
  destruct (Hs h p Hp) as (Hne & d & Hd & Hdb).
  unfold history_RemoveEntry. wlp_all.
  - (* the null pointer is not deleted *)
    intros h' q Hq. simpl in *.
    apply lookup_delete_Some in Hq as [_ Hq]. by apply Hs.
  - intros h' q Hq. simpl in *.
    apply lookup_delete_Some in Hq as [Hh' Hq].
    destruct (Hs h' q Hq) as (Hne' & dq & Hdq & Hdbq). split; [done|].
    exists dq. rewrite lookup_delete_ne; [done|].
    intros ->. by simplify_eq.
Qed.

Lemma DownloadItem_Delete_preserves r p :
  preserves (DownloadItem_Delete r p).
Proof.
  unfold DownloadItem_Delete. preserves_auto. apply RemoveDownload_preserves.
Qed.

(** Registering a Record that has no handle yet. *)
Lemma AddDownloadItemToHistory_preserves download h0 s :
  history_index_ok s → no_handle_yet s download →
  wlp (AddDownloadItemToHistory download h0)
    (λ _ s', history_index_ok s') s.
Proof.
  intros Hs Hnone. unfold AddDownloadItemToHistory.
  assert (Hfinal : ∀ s1 handle d,
    heap s1 = heap s → history_downloads_ s1 = history_downloads_ s →
    handle ≠ kUninitializedHandle → heap s !! download = Some d →
    history_index_ok
      (set_history_downloads <[handle := download]>
         (set_heap <[download := Item.set_db_handle handle d]> s1))).
  { intros s1 handle d Hh1 Hi1 Hhandle Hd h q Hq. simpl in *.
    rewrite Hh1, Hi1 in *.
    destruct (decide (h = handle)) as [->|Hneq].
    - rewrite lookup_insert_eq in Hq. simplify_eq. split; [done|].
      rewrite lookup_insert_eq. by eexists.
    - rewrite lookup_insert_ne in Hq by done.
      destruct (Hs h q Hq) as (Hne & dq & Hdq & Hdb). split; [done|].
      exists dq. rewrite lookup_insert_ne; [done|].
      intros ->. simplify_eq. by apply Hne, Hnone. }
  wlp_all.
  all: match goal with
       | H : bool_decide (_ ≠ kUninitializedHandle) = true |- _ =>
           apply bool_decide_eq_true in H
       end.
  all: simplify_map_eq; by apply Hfinal.
Qed.

Lemma SavePageAsDownloadStarted_preserves download s :
  history_index_ok s → no_handle_yet s download →
  wlp (SavePageAsDownloadStarted download) (λ _ s', history_index_ok s') s.
Proof.
  intros Hs Hnone. unfold SavePageAsDownloadStarted.
  apply wlp_bind.
  assert (∀ s1, heap s1 = heap s →
                history_downloads_ s1 = history_downloads_ s →
                history_index_ok s1 ∧ no_handle_yet s1 download) as Hsame.
  { intros s1 Hh Hi. unfold history_index_ok, no_handle_yet.
    by rewrite Hh, Hi. }
  destruct debug_build; wlp_step; apply wlp_bind, wlp_modify, wlp_bind.
  all: eapply wlp_mono;
    [apply AddDownloadItemToHistory_preserves; by apply Hsame|].
  all: intros [] s1 Hs1; by apply preserves_emit.
Qed.

Lemma OnCreateDownloadEntryComplete_preserves i h0 s :
  history_index_ok s →
  (∀ p, active_downloads_ s !! i = Some p → no_handle_yet s p) →
  wlp (OnCreateDownloadEntryComplete i h0) (λ _ s', history_index_ok s') s.
Proof.
  intros Hs Hnone. unfold OnCreateDownloadEntryComplete.
  apply wlp_bind, wlp_GetActiveDownloadItem.
  - intros download Hact Hnn. case_bool_decide; [done|].
    apply wlp_bind. eapply wlp_mono;
      [apply AddDownloadItemToHistory_preserves; auto|].
    intros [] s1 Hs1. revert s1 Hs1.
    change (preserves
      (ShowDownloadInBrowser download;;
       NotifyModelChanged;;
       d ← deref download;
       if Item.IsInProgress d then MaybeCompleteDownload download
       else
         DCHECK (Item.IsCancelled d);;
         modify (set_in_progress (delete i));;
         modify (set_active_downloads (delete i));;
         history_UpdateEntry download;;
         emit (ItemUpdateObservers download))).
    preserves_auto.
  - intros Hact Hdebug. rewrite bool_decide_eq_true_2 by done.
    apply wlp_ret. intros h q Hq. by apply Hs.
Qed.

Lemma OnQueryDownloadEntriesComplete_preserves no_id entries s :
  history_index_ok s →
  (∀ e, e ∈ entries → hi_db_handle e ≠ kUninitializedHandle) →
  wlp (OnQueryDownloadEntriesComplete no_id entries)
    (λ _ s', history_index_ok s') s.
Proof.
  intros Hs Hentries. revert s Hs.
  change (preserves (OnQueryDownloadEntriesComplete no_id entries)).
  unfold OnQueryDownloadEntriesComplete.
  apply preserves_bind;
    [|intros _; apply preserves_bind;
        [apply preserves_emit
        |intros _; apply CheckForHistoryFilesRemoval_preserves]].
  apply preserves_for_each. intros e He s Hs.
  specialize (Hentries e He). wlp_all.
  match goal with
  | H : heap (set_heap _ _) !! _ = Some ?d |- _ =>
      simpl in H; rewrite lookup_insert_eq in H;
      assert (d = Item.Restore no_id e) as -> by congruence; clear H
  end.
  change (db_handle (Item.Restore no_id e)) with (hi_db_handle e) in *.
  intros h q Hq. simpl in *.
  destruct (decide (h = hi_db_handle e)) as [->|Hneq].
  - rewrite lookup_insert_eq in Hq. simplify_eq. split; [done|].
    rewrite lookup_insert_eq. by eexists.
  - rewrite lookup_insert_ne in Hq by done.
    destruct (Hs h q Hq) as (Hne & dq & Hdq & Hdb). split; [done|].
    exists dq. rewrite lookup_insert_ne; [done|]. intros ->. congruence.
Qed.

Lemma for_each_CHECK_reader {A} (l : list A) (test : A → bool) s :
  wlp (for_each l (λ it, CHECK (test it))) (λ _ s', s' = s) s.
Proof.
  induction l as [|x l IH]; simpl; [done|].
  apply wlp_bind, wlp_CHECK. intros _. apply IH.
Qed.

Lemma AssertQueueStateConsistent_reader p s :
  wlp (AssertQueueStateConsistent p) (λ _ s', s' = s) s.
Proof.
  unfold AssertQueueStateConsistent. wlp_all; try done.
  all: (eapply wlp_mono; [apply for_each_CHECK_reader|]);
    intros [] ? ->; wlp_all; done.
Qed.

(** The range removal erases the index entries of the Records it
    deletes. *)
Lemma RemoveDownloadsBetween_scan_preserves l b e pending s :
  NoDup l.*1 →
  (∀ h p, (h, p) ∈ l → history_downloads_ s !! h = Some p) →
  history_index_ok s →
  (∀ h q, history_downloads_ s !! h = Some q → q ∉ pending) →
  wlp (RemoveDownloadsBetween_scan l b e pending)
    (λ pending' s',
       history_index_ok s' ∧ heap s' = heap s
       ∧ ∀ h q, history_downloads_ s' !! h = Some q → q ∉ pending') s.
Proof.
  revert pending s. induction l as [|[h p] l IH];
    intros pending s Hnd Hl Hs Hpending.
  - done.
  - rewrite fmap_cons in Hnd. apply NoDup_cons in Hnd as [Hh Hnd].
    assert (history_downloads_ s !! h = Some p) as Hp by (apply Hl; set_solver).
    destruct (Hs h p Hp) as (Hne & d & Hd & Hdb).
    cbn [RemoveDownloadsBetween_scan].
    apply wlp_bind, wlp_deref. intros d' Hd'.
    assert (d' = d) as -> by congruence. clear Hd'.
    assert (∀ h' p', (h', p') ∈ l → h' ≠ h) as Hfresh.
    { intros h' p' Hin ->. apply Hh.
      by apply (list_elem_of_fmap_2 fst _ (h, p')). }
    destruct (in_removal_range b e d).
    + apply wlp_bind.
      eapply wlp_mono; [apply AssertQueueStateConsistent_reader|].
      intros [] s1 ->. apply wlp_bind, wlp_modify.
      eapply wlp_mono; [apply IH|].
      * done.
      * intros h' p' Hin. simpl. rewrite lookup_delete_ne; [|].
        -- apply Hl. set_solver.
        -- intros <-. by eapply Hfresh.
      * by apply preserves_erase.
      * intros h' q Hq. simpl in Hq.
        apply lookup_delete_Some in Hq as [Hh' Hq].
        apply not_elem_of_app. split; [by eapply Hpending|].
        intros ->%list_elem_of_singleton.
        destruct (Hs h' p Hq) as (_ & dq & Hdq & Hdbq). congruence.
      * by intros pending' s' (? & ? & ?).
    + apply IH; [done| |done..].
      intros h' p' Hin. apply Hl. set_solver.
Qed.

Lemma for_each_erase_preserves (l : list ptr) s :
  wlp (for_each l (λ it, modify (set_downloads (λ X, X ∖ {[it]}))))
    (λ _ s', heap s' = heap s
             ∧ history_downloads_ s' = history_downloads_ s) s.
Proof.
  unfold wlp. rewrite for_each_erase_downloads. done.
Qed.

Lemma for_each_delete_preserves (l : list ptr) s :
  history_index_ok s →
  (∀ h q, history_downloads_ s !! h = Some q → q ∉ l) →
  wlp (for_each l delete_) (λ _ s', history_index_ok s') s.
Proof.
  revert s. induction l as [|p l IH]; intros s Hs Hl; simpl; [done|].
  apply wlp_bind, wlp_delete.
  - intros ->. apply IH; [done|]. intros h q Hq. specialize (Hl h q Hq).
    set_solver.
  - intros Hnn _. apply IH.
    + intros h q Hq. simpl in *. destruct (Hs h q Hq) as (? & dq & ? & ?).
      split; [done|]. exists dq. rewrite lookup_delete_ne; [done|].
      intros ->. specialize (Hl h q Hq). set_solver.
    + intros h q Hq. specialize (Hl h q Hq). set_solver.
Qed.

Lemma RemoveDownloadsBetween_preserves b e :
  preserves (RemoveDownloadsBetween b e).
Proof.
  intros s Hs. unfold RemoveDownloadsBetween, history_RemoveEntriesBetween.
  apply wlp_bind, wlp_bind, wlp_the_history. intros n Hn.
  apply wlp_emit, wlp_bind, wlp_get, wlp_bind.
  eapply wlp_mono.
  { apply RemoveDownloadsBetween_scan_preserves.
    - apply NoDup_fst_map_entries.
    - by intros h p ?%elem_of_map_entries.
    - by apply preserves_emit.
    - intros h q _. apply not_elem_of_nil. }
  intros pending s2 (Hs2 & Hh2 & Hdead). simpl.
  case_bool_decide; [done|].
  apply wlp_bind.
  eapply wlp_mono; [apply for_each_erase_preserves|].
  intros [] s3 (Hh3 & Hi3). apply wlp_bind, wlp_emit, wlp_bind.
  eapply wlp_mono; [apply for_each_delete_preserves|].
  - unfold history_index_ok. simpl. by rewrite Hh3, Hi3.
  - simpl. by rewrite Hi3.
  - done.
Qed.

Lemma for_each_delete_index (l : list ptr) s :
  wlp (for_each l delete_)
    (λ _ s', history_downloads_ s' = history_downloads_ s) s.
Proof.
  revert s. induction l as [|p l IH]; intros s; simpl; [done|].
  apply wlp_bind, wlp_delete; intros;
    (eapply wlp_mono; [apply IH|]); by intros [] ? ->.
Qed.

Lemma Shutdown_preserves : preserves Shutdown.
Proof.
  intros s Hs. unfold Shutdown. apply wlp_bind, wlp_get.
  destruct (shutdown_needed_ s); simpl; [|done].
  do 5 (apply wlp_bind; eapply wlp_mono; [apply wlp_trivial|];
        intros [] ? _).
  apply wlp_bind, wlp_get.
  do 4 apply wlp_bind, wlp_modify.
  apply wlp_bind.
  match goal with
  | |- wlp ?m _ ?s0 =>
      apply (wlp_mono m (λ _ s', history_downloads_ s' = ∅))
  end.
  { by destruct debug_build. }
  intros [] s1 Hs1. apply wlp_bind.
  eapply wlp_mono; [apply for_each_delete_index|].
  intros [] s2 Hs2. wlp_all.
  intros h q Hq. simpl in Hq. by rewrite Hs2, Hs1 in Hq.
Qed.

End index_calls.

Section durable_index.
Context {cfg : Config}.
Implicit Types (s : DownloadManager).

Lemma run_call_preserves c s :
  admissible c s → history_index_ok s →
  wlp (run_call c) (λ _ s', history_index_ok s') s.
Proof.
  intros Hadm Hs. destruct c; simpl in Hadm; unfold run_call.
  - clear Hadm; revert s Hs.
    as_preserves.
    apply preserves_bind; [apply Init_preserves|intros ?; apply preserves_ret].
  - by apply Shutdown_preserves.
  - by apply StartDownload_preserves.
  - by apply CheckDownloadUrlDone_preserves.
  - by apply CheckVisitedReferrerBeforeDone_preserves.
  - by apply OnPathExistenceAvailable_preserves.
  - by apply CreateDownloadItem_preserves.
  - by apply FileSelected_preserves.
  - by apply FileSelectionCanceled_preserves.
  - by apply UpdateDownload_preserves.
  - by apply OnResponseCompleted_preserves.
  - clear Hadm; revert s Hs. as_preserves.
    preserves_auto.
  - clear Hadm; revert s Hs.
    as_preserves.
    preserves_auto.
  - clear Hadm; revert s Hs.
    as_preserves.
    preserves_auto.
  - clear Hadm; revert s Hs. as_preserves.
    preserves_auto.
  - by apply DownloadCompleted_preserves.
  - by apply OnDownloadRenamedToFinalName_preserves.
  - clear Hadm; revert s Hs. as_preserves.
    preserves_auto.
  - by apply RemoveDownload_preserves.
  - clear Hadm; revert s Hs.
    as_preserves.
    apply preserves_bind;
      [apply RemoveDownloadsBetween_preserves|intros ?; apply preserves_ret].
  - clear Hadm; revert s Hs.
    as_preserves.
    apply preserves_bind;
      [apply RemoveDownloadsBetween_preserves|intros ?; apply preserves_ret].
  - by apply SavePageAsDownloadStarted_preserves.
  - by apply OnQueryDownloadEntriesComplete_preserves.
  - by apply OnCreateDownloadEntryComplete_preserves.
  - by apply OnFileRemovalDetected_preserves.
  - clear Hadm; revert s Hs. change (preserves ClearLastDownloadPath).
    unfold ClearLastDownloadPath. preserves_auto.
  - by apply CheckForHistoryFilesRemoval_preserves.
  - by apply AssertQueueStateConsistent_preserves.
  - by apply DownloadItem_Cancel_preserves.
  - by apply DownloadItem_Delete_preserves.
  - by apply preserves_update.
  - clear Hadm; revert s Hs. as_preserves.
    preserves_auto.
Qed.

Lemma reachable_history_index_ok s : reachable s → history_index_ok s.
Proof.
  induction 1 as [status_updater|s c s' _ IH Hadm Hrun].
  - intros h p Hp. done.
  - pose proof (run_call_preserves c s Hadm IH) as Hwlp.
    unfold wlp in Hwlp. by rewrite Hrun in Hwlp.
Qed.

Lemma AddDownloadItemToHistory_fake_handle s download s' :
  AddDownloadItemToHistory download kUninitializedHandle s = Ok tt s' →
  ∃ n, download_history_ s = Some n
       ∧ fake_db_handle n ≠ kUninitializedHandle
       ∧ history_downloads_ s'
         = <[fake_db_handle n := download]> (history_downloads_ s).
Proof.
  revert s'. apply (wlp_run (AddDownloadItemToHistory download _)
    (λ _ s', ∃ n, download_history_ s = Some n
                  ∧ fake_db_handle n ≠ kUninitializedHandle
                  ∧ history_downloads_ s'
                    = <[fake_db_handle n := download]>
                        (history_downloads_ s))).
  unfold AddDownloadItemToHistory.
  rewrite bool_decide_eq_true_2 by done.
  wlp_all. eexists. split; [done|]. split; [|done].
  by match goal with
     | H : bool_decide (_ ≠ _) = true |- _ => apply bool_decide_eq_true in H
     end.
Qed.

End durable_index.


(** C2: the failing input.  The path of download 1 is committed by
    [FileSelected] with /home/a.pdf, and then [FileSelected] runs a second
    time for the same download with /tmp/b.pdf.  Without DCHECKs the second
    call returns and the path of the Record has changed from
    /home/a.pdf.crdownload to /tmp/b.pdf.crdownload, although the comment
    and the DCHECK of [ContinueDownloadWithPath] say that the initial file
    name is set only once; with DCHECKs the second call stops at a DCHECK
    of [ContinueDownloadWithPath]. *)
Theorem path_commit_twice_overwrites :
  (∃ s1 s2 d1 d2,
     FileSelected (cfg:=sample_config false) "/home/a.pdf" 1
       (created false)
     = Ok tt s1
     ∧ FileSelected (cfg:=sample_config false) "/tmp/b.pdf" 1 s1 = Ok tt s2
     ∧ heap s1 !! 1%N = Some d1 ∧ heap s2 !! 1%N = Some d2
     ∧ full_path d1 = "/home/a.pdf.crdownload"%string
     ∧ full_path d2 = "/tmp/b.pdf.crdownload"%string)
  ∧ (∃ s1,
       FileSelected (cfg:=sample_config true) "/home/a.pdf" 1
         (created true)
       = Ok tt s1
       ∧ FileSelected (cfg:=sample_config true) "/tmp/b.pdf" 1 s1
         = Crash DCheckFailure).
Proof.
  split.
  - do 4 eexists. split_and!; vm_compute; reflexivity.
  - eexists. split; vm_compute; reflexivity.
Qed.


(** C7: the failing input.  No download is registered under id 7.  Without
    DCHECKs, each callback that looks the id up through
    [GetActiveDownloadItem] returns after the lookup has registered id 7
    with a null pointer in [active_downloads_]; with DCHECKs the lookup
    stops the run. *)
Theorem stale_callback_registers_null :
  active_downloads_ (initialized false) !! 7 = None
  ∧ (∃ s', FileSelected (cfg:=sample_config false) "/home/a.pdf" 7
             (initialized false) = Ok tt s'
           ∧ active_downloads_ s' = {[7 := NULL]})
  ∧ (∃ s', CheckDownloadUrlDone (cfg:=sample_config false) 7 true
             (initialized false) = Ok tt s'
           ∧ active_downloads_ s' = {[7 := NULL]})
  ∧ (∃ s', OnCreateDownloadEntryComplete (cfg:=sample_config false) 7 5
             (initialized false) = Ok tt s'
           ∧ active_downloads_ s' = {[7 := NULL]})
  ∧ FileSelected (cfg:=sample_config true) "/home/a.pdf" 7 (initialized true)
    = Crash DCheckFailure
  ∧ OnAllDataSaved (cfg:=sample_config false) 7 1000 EmptyString
      (initialized false)
    = Ok tt (initialized false).
Proof.
  split_and!; try (vm_compute; reflexivity);
    eexists; split; vm_compute; reflexivity.
Qed.

(** The sample [FilePath::Extension] keeps its contract. *)
Lemma sample_extension_contract debug :
  extension_contract (cfg:=sample_config debug).
Proof. intros path c rest Hext. by injection Hext as <- _. Qed.

(** The preference asks for a prompt and the directory is not managed.
    Download 1 is no extension install; when its file does not open
    automatically the posted state asks for a prompt, and when it does the
    posted state does not. *)
Lemma CheckVisitedReferrerBeforeDone_prompting_witness :
  (∃ st,
     CheckVisitedReferrerBeforeDone (cfg:=sample_config false) 1 false
       (prompting false)
     = Ok tt (set_trace
                (λ t, t ++ [PostFileTask
                              (CheckIfSuggestedPathExists 1 st "/downloads")])
                (prompting false))
     ∧ prompt_user_for_save_location st = true)
  ∧ (∃ st,
       CheckVisitedReferrerBeforeDone (cfg:=sample_config false) 1 false
         (auto_opening false)
       = Ok tt (set_trace
                  (λ t, t ++ [PostFileTask
                                (CheckIfSuggestedPathExists 1 st
                                   "/downloads")])
                  (auto_opening false))
       ∧ prompt_user_for_save_location st = false).
Proof.
  split.
  - destruct (CheckVisitedReferrerBeforeDone_prompting
                (cfg:=sample_config false)
                (prompting false) 1 1%N
                (Item.Create (cfg:=sample_config false) (sample_info 1) false)
                (sample_prefs true false) sample_profile false)
      as (st & Hrun & _ & Hprompt & _).
    + apply sample_extension_contract.
    + vm_compute. reflexivity.
    + discriminate.
    + vm_compute. reflexivity.
    + vm_compute. reflexivity.
    + vm_compute. reflexivity.
    + vm_compute. reflexivity.
    + exists st. split; [exact Hrun|]. apply Hprompt; reflexivity.
  - destruct (CheckVisitedReferrerBeforeDone_prompting
                (cfg:=sample_config false)
                (auto_opening false) 1 1%N
                (Item.Create (cfg:=sample_config false) (sample_info 1) false)
                auto_open_prefs sample_profile false)
      as (st & Hrun & _ & _ & Hsuppressed).
    + apply sample_extension_contract.
    + vm_compute. reflexivity.
    + discriminate.
    + vm_compute. reflexivity.
    + vm_compute. reflexivity.
    + vm_compute. reflexivity.
    + vm_compute. reflexivity.
    + exists st. split; [exact Hrun|]. rewrite Hsuppressed; [reflexivity..|].
      right. right. reflexivity.
Defined.

(** The state in which download 1 has handle 5 is consistent. *)
Lemma in_history_consistent debug :
  consistent (cfg:=sample_config debug) (in_history debug).
Proof.
  assert (Hheap : heap (in_history debug)
                  = {[1%N := Item.set_db_handle 5 (committed_item debug)]})
    by (destruct debug; vm_compute; reflexivity).
  assert (Hdl : downloads_ (in_history debug) = {[1%N]})
    by (destruct debug; vm_compute; reflexivity).
  assert (Hhist : history_downloads_ (in_history debug) = {[5 := 1%N]})
    by (destruct debug; vm_compute; reflexivity).
  assert (Hact : active_downloads_ (in_history debug) = {[1 := 1%N]})
    by (destruct debug; vm_compute; reflexivity).
  assert (Hsp : save_page_as_downloads_ (in_history debug) = ∅)
    by (destruct debug; vm_compute; reflexivity).
  assert (Hdb : is_Some (download_history_ (in_history debug)))
    by (destruct debug; vm_compute; eauto).
  generalize dependent (in_history debug).
  intros s Hheap Hdl Hhist Hact Hsp Hdb.
  split.
  - unfold records_consistent. rewrite Hheap, Hdl, Hhist. split_and!.
    + done.
    + done.
    + intros p ->%elem_of_singleton. rewrite lookup_singleton_eq. eauto.
    + intros h p [-> ->]%lookup_singleton_Some. split; [set_solver|].
      rewrite lookup_singleton_eq. eauto.
    + intros p d q ->%elem_of_singleton [_ <-]%lookup_singleton_Some
        [_ <-]%lookup_singleton_Some. done.
  - unfold containers_consistent. rewrite Hdl, Hhist, Hact, Hsp.
    destruct debug; simpl; [|done].
    rewrite !map_img_singleton_L. set_solver.
Qed.

(** [Shutdown] while download 1 is in progress under handle 5. *)
Lemma Shutdown_clears_everything_witness :
  ∃ s', Shutdown (cfg:=sample_config true) (in_history true) = Ok tt s'
        ∧ downloads_ s' = ∅ ∧ active_downloads_ s' = ∅
        ∧ history_downloads_ s' = ∅ ∧ heap s' !! 1%N = None.
Proof.
  destruct (Shutdown_clears_everything (cfg:=sample_config true))
    as [_ Hclears].
  destruct (Hclears (in_history true))
    as (s' & Hrun & _ & Hdl & Hact & _ & Hhist & _ & Hfree & _).
  - apply in_history_consistent.
  - vm_compute. reflexivity.
  - exists s'. split_and!; try done. apply Hfree.
    vm_compute. reflexivity.
Defined.

Ltac removal_ready_entries :=
  split_and!;
  [ vm_compute; eauto
  | vm_compute; reflexivity
  | let Hl := fresh "Hl" in
    intros ? ? Hl%elem_of_map_to_list; vm_compute in Hl;
    repeat (apply elem_of_cons in Hl as [Hl|Hl]);
    [ injection Hl as -> ->; eexists; split; [vm_compute; reflexivity|];
      let Hb := fresh "Hb" in
      let He := fresh "He" in
      let Ht := fresh "Ht" in
      intros [Hb He] Ht; simpl in Hb, He, Ht;
      first
        [ exfalso; lia
        | exfalso; destruct He; (lia || discriminate)
        | exfalso; destruct Ht as [Ht|[Ht|Ht]]; discriminate
        | split_and!; by vm_compute ] ..
    | by apply elem_of_nil in Hl ]
  | vm_compute; reflexivity ].

(** The five replayed rows are ready for a removal of [100, 200). *)
Lemma replayed_removal_ready :
  removal_ready (cfg:=sample_config false) (replayed false) 100 200.
Proof. removal_ready_entries. Qed.

(** The six rows of mixed fate are ready for a removal from 100 on. *)
Lemma replayed_mixed_removal_ready :
  removal_ready (cfg:=sample_config false) (replayed_mixed false) 100 0.
Proof. removal_ready_entries. Qed.

(** Three of the five replayed Records are COMPLETE and started in
    [100, 200): the removal returns 3, leaves two entries in
    [history_downloads_] and notifies the observers once.  And of the six
    Records of mixed fate, a removal from 100 on without an end takes the
    INTERRUPTED one, the CANCELLED one and the two later COMPLETE ones, and
    leaves the earlier one and the unfinished one. *)
Lemma RemoveDownloadsBetween_purges_witness :
  (∃ s',
     RemoveDownloadsBetween (cfg:=sample_config false) 100 200
       (replayed false)
     = Ok 3 s'
     ∧ size (history_downloads_ s') = 2%nat
     ∧ trace s' = trace (replayed false)
                  ++ [HistoryRemoveEntriesBetween 100 200;
                      ObserverModelChanged])
  ∧ (∃ s',
       RemoveDownloadsBetween (cfg:=sample_config false) 100 0
         (replayed_mixed false)
       = Ok 4 s'
       ∧ dom (history_downloads_ s') = ({[1; 4]} : gset Z)).
Proof.
  split.
  - destruct (RemoveDownloadsBetween_purges (cfg:=sample_config false)
                (replayed false) 100 200 replayed_removal_ready)
      as (s' & Hrun & Hhist & _ & _ & _ & _ & Htrace).
    exists s'. split_and!.
    + rewrite Hrun. f_equal.
    + rewrite Hhist. vm_compute. reflexivity.
    + rewrite Htrace. f_equal.
  - destruct (RemoveDownloadsBetween_purges (cfg:=sample_config false)
                (replayed_mixed false) 100 0 replayed_mixed_removal_ready)
      as (s' & Hrun & Hhist & _).
    exists s'. split.
    + rewrite Hrun. f_equal.
    + rewrite Hhist. vm_compute. reflexivity.
Defined.

(** The state in which the history service answered download 1 with the
    uninitialized handle is reachable. *)
Lemma offline_history_reachable :
  reachable (cfg:=sample_config false) (offline_history false).
Proof.
  apply reachable_call
    with (s := awaiting_handle false)
         (c := CallOnCreateDownloadEntryComplete 1 0);
    [|intros p Hp d Hd; vm_compute in Hp; injection Hp as <-;
      vm_compute in Hd; by injection Hd as <-
     |vm_compute; reflexivity].
  apply reachable_call
    with (s := created false) (c := CallFileSelected "/home/a.pdf" 1);
    [|exact I|vm_compute; reflexivity].
  apply reachable_call
    with (s := initialized false)
         (c := CallCreateDownloadItem (sample_info 1));
    [|exact I|vm_compute; reflexivity].
  apply reachable_call
    with (s := DownloadManager_ctor false) (c := CallInit sample_profile false);
    [|exact I|vm_compute; reflexivity].
  apply reachable_ctor.
Qed.

(** * Further properties *)

Section queue_state.
Context {cfg : Config}.
Implicit Types (s : DownloadManager).

Lemma for_each_CHECK_run {A} (l : list A) (test : A → bool) s :
  for_each l (λ it, CHECK (test it)) s
  = if forallb test l then Ok tt s else Crash CheckFailure.
Proof.
  induction l as [|x l IH]; simpl; [done|].
  unfold mbind, M_bind, CHECK at 1. destruct (test x); simpl; [|done].
  apply IH.
Qed.

Lemma CHECK_run (b : bool) s :
  CHECK b s = if b then Ok tt s else Crash CheckFailure.
Proof. by destruct b. Qed.

Lemma forallb_map_entries_ne (m : gmap Z ptr) (download : ptr) :
  forallb (λ it : Z * ptr, bool_decide (it.2 ≠ download)) (map_entries m)
  = true
  ↔ ∀ h, m !! h ≠ Some download.
Proof.
  rewrite forallb_forall. split.
  - intros Hall h Hh.
    assert (In (h, download) (map_entries m)) as Hin
      by (apply list_elem_of_In; by apply elem_of_map_entries).
    apply Hall, bool_decide_eq_true in Hin. done.
  - intros Hne [h p] Hin%list_elem_of_In%elem_of_map_entries.
    apply bool_decide_eq_true. simpl. intros ->. by apply (Hne h).
Qed.

(** X1: on a live Record, [AssertQueueStateConsistent] returns, changing
    nothing, exactly when the Record is filed as its state demands: a
    REMOVING one in none of the four containers; any other one in
    [downloads_], under its handle in [history_downloads_] if the handle is
    assigned and nowhere in that map otherwise, and in [active_downloads_]
    and in [in_progress_] exactly when it is IN_PROGRESS.  In every other
    case a CHECK stops the run, in every build. *)
Theorem AssertQueueStateConsistent_decides s download d :
  heap s !! download = Some d →
  (queue_state_ok s download d →
   AssertQueueStateConsistent download s = Ok tt s)
  ∧ (¬ queue_state_ok s download d →
     AssertQueueStateConsistent download s = Crash CheckFailure).
Proof.
  intros Hd. unfold AssertQueueStateConsistent, queue_state_ok.
  rewrite (bind_Ok (deref _) _ s d s) by by apply deref_Ok.
  rewrite (bind_Ok get _ s s s) by done.
  destruct (bool_decide (state d = REMOVING)) eqn:Hrem.
  - unfold mbind, M_bind. rewrite !CHECK_run.
    repeat (case_bool_decide; simpl; rewrite ?CHECK_run; simpl).
    all: rewrite <- ?not_eq_None_Some in *.
    all: split; intros; try done; exfalso; naive_solver.
  - apply bool_decide_eq_false in Hrem.
    pose proof (forallb_map_entries_ne (history_downloads_ s) download)
      as [Hscan1 Hscan2].
    unfold mbind, M_bind. rewrite !CHECK_run.
    destruct (bool_decide (download ∈ downloads_ s)) eqn:Hin; simpl;
      [apply bool_decide_eq_true in Hin
      |apply bool_decide_eq_false in Hin; naive_solver].
    destruct (bool_decide (db_handle d ≠ kUninitializedHandle)) eqn:Hh;
      simpl; rewrite ?CHECK_run, ?for_each_CHECK_run.
    + repeat (case_bool_decide; simpl; rewrite ?CHECK_run; simpl).
      all: split; intros; try done; exfalso; naive_solver.
    + destruct (forallb _ (map_entries (history_downloads_ s))) eqn:Hall;
        simpl.
      * specialize (Hscan1 eq_refl).
        repeat (case_bool_decide; simpl; rewrite ?CHECK_run; simpl).
        all: split; intros; try done; exfalso; naive_solver.
      * split; [|done]. intros (_ & Hnone & _).
        specialize (Hscan2 Hnone). congruence.
Qed.

End queue_state.

Section lookup_by_id.
Context {cfg : Config}.
Implicit Types (s : DownloadManager).

Lemma GetDownloadItem_scan_spec l download_id s :
  (∀ h p, (h, p) ∈ l → is_Some (heap s !! p)) →
  ∃ r, GetDownloadItem_scan l download_id s = Ok r s
    ∧ ((r = NULL
        ∧ ∀ h p d, (h, p) ∈ l → heap s !! p = Some d → id d ≠ download_id)
       ∨ (∃ l1 h d l2,
            l = l1 ++ (h, r) :: l2 ∧ heap s !! r = Some d
            ∧ id d = download_id
            ∧ ∀ h' p' d', (h', p') ∈ l1 → heap s !! p' = Some d' →
                          id d' ≠ download_id)).
Proof.
  induction l as [|[h p] l IH]; intros Hlive.
  - exists NULL. split; [done|]. left. split; [done|].
    intros ? ? ? []%elem_of_nil.
  - destruct (Hlive h p) as [d Hd]; [set_solver|].
    cbn [GetDownloadItem_scan].
    rewrite (bind_Ok (deref _) _ s d s) by by apply deref_Ok.
    case_bool_decide as Hid.
    + exists p. split; [done|]. right. exists [], h, d, l.
      split_and!; try done. intros ? ? ? []%elem_of_nil.
    + destruct IH as (r & Hrun & Hr); [intros; apply (Hlive h0); set_solver|].
      exists r. split; [done|].
      destruct Hr as [[-> Hnone]|(l1 & h1 & d1 & l2 & -> & Hd1 & Hid1 & Hl1)].
      * left. split; [done|].
        intros h' p' d' [Heq|Hin]%elem_of_cons Hd'; [|by eapply Hnone].
        simplify_eq. done.
      * right. exists ((h, p) :: l1), h1, d1, l2. split_and!; try done.
        intros h' p' d' [Heq|Hin]%elem_of_cons Hd'; [|by eapply Hl1].
        simplify_eq. done.
Qed.

(** The loop finds a Record by id whatever the order of the entries. *)
Lemma GetDownloadItem_scan_finds l download_id s :
  history_live s →
  l ≡ₚ map_entries (history_downloads_ s) →
  ∃ r, GetDownloadItem_scan l download_id s = Ok r s
    ∧ ((r = NULL
        ∧ ∀ h p d, history_downloads_ s !! h = Some p →
                   heap s !! p = Some d → id d ≠ download_id)
       ∨ (∃ h d,
            history_downloads_ s !! h = Some r ∧ heap s !! r = Some d
            ∧ id d = download_id)).
Proof.
  intros Hlive Hl.
  assert (∀ h p, (h, p) ∈ l ↔ history_downloads_ s !! h = Some p) as Hin.
  { intros h p. rewrite Hl. apply elem_of_map_entries. }
  destruct (GetDownloadItem_scan_spec l download_id s)
    as (r & Hrun & Hr).
  { intros h p Hp%Hin. by eapply Hlive. }
  exists r. split; [done|].
  destruct Hr as [[-> Hnone]|(l1 & h & d & l2 & -> & Hd & Hid & _)].
  - left. split; [done|]. intros h p d Hp. apply (Hnone h). by apply Hin.
  - right. exists h, d. split_and!; try done. apply Hin. set_solver.
Qed.

Lemma GetDownloadItem_run download_id s :
  history_live s →
  ∃ r, GetDownloadItem download_id s = Ok r s
    ∧ ((r = NULL
        ∧ ∀ h p d, history_downloads_ s !! h = Some p →
                   heap s !! p = Some d → id d ≠ download_id)
       ∨ (∃ h d,
            history_downloads_ s !! h = Some r ∧ heap s !! r = Some d
            ∧ id d = download_id)).
Proof.
  intros Hlive. unfold GetDownloadItem.
  rewrite (bind_Ok get _ s s s) by done.
  by apply GetDownloadItem_scan_finds.
Qed.

Lemma found_by_id_intro s download_id r :
  heap s !! NULL = None →
  (r = NULL
   ∧ ∀ h p d, history_downloads_ s !! h = Some p →
              heap s !! p = Some d → id d ≠ download_id)
  ∨ (∃ h d,
       history_downloads_ s !! h = Some r ∧ heap s !! r = Some d
       ∧ id d = download_id) →
  found_by_id s download_id r.
Proof.
  intros Hnull [Hnone|(h & d & Hr & Hd & Hid)]; [by left|].
  right. split; [intros ->; congruence|]. by exists h, d.
Qed.

(** X2: [GetDownloadItem] looks a transient id up in the durable index.  It
    never changes the manager; it returns NULL when no indexed Record has
    the id, and otherwise an indexed Record that has it, and this is so in
    whatever order the loop walks the entries.  When one indexed Record
    only has the id, that Record is returned. *)
Theorem GetDownloadItem_finds_by_id download_id s :
  history_live s → heap s !! NULL = None →
  (∀ l, l ≡ₚ map_entries (history_downloads_ s) →
        ∃ r, GetDownloadItem_scan l download_id s = Ok r s
             ∧ found_by_id s download_id r)
  ∧ (∃ r, GetDownloadItem download_id s = Ok r s
          ∧ found_by_id s download_id r)
  ∧ (∀ l r p d h,
       l ≡ₚ map_entries (history_downloads_ s) →
       GetDownloadItem_scan l download_id s = Ok r s →
       history_downloads_ s !! h = Some p → heap s !! p = Some d →
       id d = download_id →
       (∀ h' p' d', history_downloads_ s !! h' = Some p' →
                    heap s !! p' = Some d' → id d' = download_id →
                    p' = p) →
       r = p).
Proof.
  intros Hlive Hnull. split_and!.
  - intros l Hl.
    destruct (GetDownloadItem_scan_finds l download_id s Hlive Hl)
      as (r & Hrun & Hr).
    exists r. split; [done|]. by apply found_by_id_intro.
  - destruct (GetDownloadItem_run download_id s Hlive) as (r & Hrun & Hr).
    exists r. split; [done|]. by apply found_by_id_intro.
  - intros l r p d h Hl Hrun Hp Hd Hid Hone.
    destruct (GetDownloadItem_scan_finds l download_id s Hlive Hl)
      as (r' & Hrun' & Hr).
    assert (r' = r) as -> by congruence.
    destruct Hr as [[-> Hnone]|(h' & d' & Hr & Hd' & Hid')].
    + exfalso. by eapply Hnone.
    + by eapply Hone.
Qed.

End lookup_by_id.

Section progress_updates.
Context {cfg : Config}.
Implicit Types (s : DownloadManager).

(** X3: [UpdateDownload] for an id that is not active, or whose Record is no
    longer in progress, changes nothing.  For an active Record in progress
    it stores the new size in that Record, leaves every container as it
    was, refreshes the application icon and sends the Record to the history
    service. *)
Theorem UpdateDownload_touches_one_record s download_id size :
  (active_downloads_ s !! download_id = None →
   UpdateDownload download_id size s = Ok tt s)
  ∧ (∀ download d,
       active_downloads_ s !! download_id = Some download →
       heap s !! download = Some d →
       (Item.IsInProgress d = false →
        UpdateDownload download_id size s = Ok tt s)
       ∧ (Item.IsInProgress d = true → is_Some (download_history_ s) →
          ∃ s', UpdateDownload download_id size s = Ok tt s'
            ∧ heap s' = <[download := Item.Update size d]> (heap s)
            ∧ same_indices s s'
            ∧ trace s'
              = trace s ++ app_icon_events s
                ++ [HistoryUpdateEntry download (Item.Update size d)])).
Proof.
  split.
  - intros Hact. unfold UpdateDownload. munfold. by rewrite Hact.
  - intros download d Hact Hd. split.
    + intros Hp. unfold UpdateDownload. munfold.
      rewrite Hact. simpl. rewrite Hd. simpl. by rewrite Hp.
    + intros Hp [n Hn]. unfold UpdateDownload, app_icon_events, same_indices.
      munfold. rewrite Hact. simpl. rewrite Hd. simpl. rewrite Hp, Hd.
      simpl.
      destruct (status_updater_ s); simpl; rewrite Hn; simpl;
        rewrite lookup_insert_eq; eexists; (split; [reflexivity|]);
        simpl; split_and!; try done.
      by rewrite <- app_assoc.
Qed.

End progress_updates.

Section completion_callbacks.
Context {cfg : Config}.
Implicit Types (s : DownloadManager).

Lemma GetDownloadItem_found download_id s :
  history_live s → heap s !! NULL = None →
  known_to_history s download_id →
  ∃ r h d, GetDownloadItem download_id s = Ok r s ∧ r ≠ NULL
    ∧ history_downloads_ s !! h = Some r ∧ heap s !! r = Some d
    ∧ id d = download_id.
Proof.
  intros Hlive Hnull (h0 & p0 & d0 & Hp0 & Hd0 & Hid0).
  destruct (GetDownloadItem_run download_id s Hlive)
    as (r & Hrun & [[-> Hnone]|(h & d & Hr & Hd & Hid)]).
  - exfalso. by eapply Hnone.
  - exists r, h, d. split_and!; try done. intros ->. congruence.
Qed.

Lemma GetDownloadItem_not_found download_id s :
  history_live s → ¬ known_to_history s download_id →
  GetDownloadItem download_id s = Ok NULL s.
Proof.
  intros Hlive Hnot.
  destruct (GetDownloadItem_run download_id s Hlive)
    as (r & Hrun & [[-> Hnone]|(h & d & Hr & Hd & Hid)]); [done|].
  exfalso. apply Hnot. by exists h, r, d.
Qed.

(** X4: [DownloadCompleted] finds the Record through the durable index.
    When none has the id, a debug build stops at the DCHECK.  When one has
    it, the history service receives the Record as it is and the id leaves
    [active_downloads_]; [in_progress_], [history_downloads_], [downloads_]
    and the Records themselves are untouched. *)
Theorem DownloadCompleted_releases_active s download_id :
  history_live s → heap s !! NULL = None →
  is_Some (download_history_ s) →
  (¬ known_to_history s download_id → debug_build = true →
   DownloadCompleted download_id s = Crash DCheckFailure)
  ∧ (known_to_history s download_id →
     ∃ download h d s',
       DownloadCompleted download_id s = Ok tt s'
       ∧ history_downloads_ s !! h = Some download
       ∧ heap s !! download = Some d ∧ id d = download_id
       ∧ active_downloads_ s' = delete download_id (active_downloads_ s)
       ∧ in_progress_ s' = in_progress_ s
       ∧ history_downloads_ s' = history_downloads_ s
       ∧ downloads_ s' = downloads_ s ∧ heap s' = heap s
       ∧ trace s' = trace s ++ [HistoryUpdateEntry download d]).
Proof.
  intros Hlive Hnull [n Hn]. split.
  - intros Hnot Hdebug. unfold DownloadCompleted.
    rewrite (bind_Ok _ _ s NULL s) by by apply GetDownloadItem_not_found.
    apply bind_Crash, DCHECK_Crash; [done|].
    by apply bool_decide_eq_false_2; intros [].
  - intros Hknown.
    destruct (GetDownloadItem_found download_id s)
      as (r & h & d & Hrun & Hnn & Hr & Hd & Hid); [done..|].
    exists r, h, d. unfold DownloadCompleted.
    rewrite (bind_Ok _ _ s r s) by done.
    rewrite (bind_Ok (DCHECK _) _ s tt s)
      by (apply DCHECK_Ok; intros _; by apply bool_decide_eq_true_2).
    munfold. rewrite Hn. simpl. rewrite Hd. simpl.
    eexists. split; [reflexivity|]. by split_and!.
Qed.

(** X5: [OnDownloadRenamedToFinalName] does nothing for an id that the
    durable index does not know.  For a known one, a debug build stops when
    a SAFE download arrives with a uniquifier that is not 0; otherwise the
    FILE thread is told to complete the download, the uniquifier is stored
    when it is not 0, the Record takes the final path, the history service
    is told the path, and no container changes. *)
Theorem OnDownloadRenamedToFinalName_updates_path
    s download_id full_path uniquifier :
  history_live s → heap s !! NULL = None →
  (¬ known_to_history s download_id →
   OnDownloadRenamedToFinalName download_id full_path uniquifier s = Ok tt s)
  ∧ (known_to_history s download_id →
     ∃ download h d,
       history_downloads_ s !! h = Some download
       ∧ heap s !! download = Some d ∧ id d = download_id
       ∧ (debug_build = true → safety_state d = SAFE → uniquifier ≠ 0 →
          OnDownloadRenamedToFinalName download_id full_path uniquifier s
          = Crash DCheckFailure)
       ∧ ((debug_build = true → safety_state d = SAFE → uniquifier = 0) →
          is_Some (download_history_ s) →
          ∃ s',
            OnDownloadRenamedToFinalName download_id full_path uniquifier s
            = Ok tt s'
            ∧ heap s'
              = <[download := renamed_to_final_name full_path uniquifier d]>
                  (heap s)
            ∧ same_indices s s'
            ∧ trace s'
              = trace s ++ [PostFileTask (CompleteDownload download_id);
                            HistoryUpdateDownloadPath download full_path])).
Proof.
  intros Hlive Hnull. split.
  - intros Hnot. unfold OnDownloadRenamedToFinalName.
    rewrite (bind_Ok _ _ s NULL s) by by apply GetDownloadItem_not_found.
    by rewrite bool_decide_eq_true_2.
  - intros Hknown.
    destruct (GetDownloadItem_found download_id s)
      as (r & h & d & Hrun & Hnn & Hr & Hd & Hid); [done..|].
    exists r, h, d. split_and!; try done.
    + intros Hdebug Hsafe Hu. unfold OnDownloadRenamedToFinalName.
      rewrite (bind_Ok _ _ s r s) by done.
      rewrite bool_decide_eq_false_2 by done.
      rewrite (bind_Ok (deref _) _ s d s) by by apply deref_Ok.
      rewrite (bool_decide_eq_true_2 (safety_state d = SAFE)) by done.
      apply bind_Crash, DCHECK_Crash; [done|].
      by apply bool_decide_eq_false_2.
    + intros Hcheck [n Hn].
      unfold OnDownloadRenamedToFinalName, renamed_to_final_name,
        same_indices.
      rewrite (bind_Ok _ _ s r s) by done.
      rewrite bool_decide_eq_false_2 by done.
      rewrite (bind_Ok (deref _) _ s d s) by by apply deref_Ok.
      erewrite (bind_Ok _ _ s tt s); cycle 1.
      { case_bool_decide as Hsafe; [|done].
        apply DCHECK_Ok. intros Hdebug.
        apply bool_decide_eq_true_2. by apply Hcheck. }
      munfold. simpl.
      case_bool_decide; simpl; rewrite ?Hd; simpl;
        rewrite ?lookup_insert_eq; simpl; rewrite Hn; simpl;
        rewrite ?lookup_insert_eq; simpl;
        eexists; (split; [reflexivity|]); simpl;
        rewrite ?insert_insert_eq; split_and!; try done;
        by rewrite <- app_assoc.
Qed.

End completion_callbacks.

Section start_and_cancel.
Context {cfg : Config}.
Implicit Types (s : DownloadManager).

(** X6: when the user cancels the file chooser, [FileSelectionCanceled]
    cancels the request and tells the FILE thread to cancel the download,
    and that is all: the Record and all the containers stay as they
    were. *)
Theorem FileSelectionCanceled_keeps_record s download_id download d :
  active_downloads_ s !! download_id = Some download →
  download ≠ NULL → heap s !! download = Some d →
  FileSelectionCanceled download_id s
  = Ok tt (set_trace
             (λ t, t ++ [RequestCancel (request_handle d);
                         PostFileTask (CancelDownload download_id)]) s).
Proof.
  intros Hact Hnn Hd. unfold FileSelectionCanceled.
  rewrite (bind_Ok _ _ s download s)
    by by apply GetActiveDownloadItem_present.
  rewrite bool_decide_eq_false_2 by done.
  rewrite (bind_Ok (deref _) _ s d s) by by apply deref_Ok.
  unfold DownloadCancelledInternal. munfold. simpl.
  unfold set_trace. simpl. by rewrite <- app_assoc.
Qed.

Lemma CheckDownloadUrlDone_run s download_id download d is_dangerous_url :
  active_downloads_ s !! download_id = Some download →
  download ≠ NULL → heap s !! download = Some d →
  is_Some (download_history_ s) →
  ∃ s', CheckDownloadUrlDone download_id is_dangerous_url s = Ok tt s'
    ∧ heap s'
      = (if is_dangerous_url
         then <[download := Item.MarkUrlDangerous d]> (heap s)
         else heap s)
    ∧ same_indices s s'
    ∧ trace s'
      = trace s ++ [HistoryCheckVisitedReferrerBefore download_id
                      (referrer_url d)].
Proof.
  intros Hact Hnn Hd [n Hn]. unfold CheckDownloadUrlDone, same_indices.
  rewrite (bind_Ok _ _ s download s)
    by by apply GetActiveDownloadItem_present.
  rewrite bool_decide_eq_false_2 by done.
  munfold. destruct is_dangerous_url; simpl; rewrite Hd; simpl;
    rewrite ?lookup_insert_eq; simpl; rewrite Hn; simpl;
    eexists; (split; [reflexivity|]); by split_and!.
Qed.

(** X7: [StartDownload] of an active download hands the URL to safe
    browsing when that is compiled in; otherwise it continues as
    [CheckDownloadUrlDone] with a URL that is not dangerous.
    [CheckDownloadUrlDone] marks the Record only when the URL is dangerous,
    and in both cases asks the history service whether the referrer was
    visited before; no container changes. *)
Theorem StartDownload_asks_for_referrer s download_id download d :
  active_downloads_ s !! download_id = Some download →
  download ≠ NULL → heap s !! download = Some d →
  (enable_safe_browsing = true → is_Some (profile_ s) →
   StartDownload download_id s
   = Ok tt (set_trace (λ t, t ++ [SBCheckDownloadUrl download_id]) s))
  ∧ (enable_safe_browsing = false → is_Some (download_history_ s) →
     StartDownload download_id s
     = Ok tt (set_trace
                (λ t, t ++ [HistoryCheckVisitedReferrerBefore download_id
                              (referrer_url d)]) s))
  ∧ (is_Some (download_history_ s) →
     ∀ is_dangerous_url,
     ∃ s', CheckDownloadUrlDone download_id is_dangerous_url s = Ok tt s'
       ∧ heap s'
         = (if is_dangerous_url
            then <[download := Item.MarkUrlDangerous d]> (heap s)
            else heap s)
       ∧ same_indices s s'
       ∧ trace s'
         = trace s ++ [HistoryCheckVisitedReferrerBefore download_id
                         (referrer_url d)]).
Proof.
  intros Hact Hnn Hd. split_and!.
  - intros Hsb [prof Hprof]. unfold StartDownload.
    rewrite (bind_Ok _ _ s download s)
      by by apply GetActiveDownloadItem_present.
    rewrite bool_decide_eq_false_2 by done. rewrite Hsb.
    munfold. by rewrite Hd, Hprof.
  - intros Hsb Hhist. unfold StartDownload.
    rewrite (bind_Ok _ _ s download s)
      by by apply GetActiveDownloadItem_present.
    rewrite bool_decide_eq_false_2 by done. rewrite Hsb.
    destruct (CheckDownloadUrlDone_run s download_id download d false)
      as (s' & Hrun & Hheap & Hsame & Htrace); [done..|].
    rewrite Hrun. f_equal.
    revert Hrun. unfold CheckDownloadUrlDone.
    rewrite (bind_Ok _ _ s download s)
      by by apply GetActiveDownloadItem_present.
    rewrite bool_decide_eq_false_2 by done.
    destruct Hhist as [n Hn]. munfold. rewrite Hd. simpl. rewrite Hn.
    by intros [= <-].
  - intros Hhist is_dangerous_url.
    by apply CheckDownloadUrlDone_run.
Qed.

End start_and_cancel.

Section handle_arrival.
Context {cfg : Config}.
Implicit Types (s : DownloadManager).

Lemma MaybeCompleteDownload_not_ready s download d :
  heap s !! download = Some d → ¬ eligible s d →
  MaybeCompleteDownload download s = Ok tt s.
Proof.
  intros Hd Hne.
  destruct (IsDownloadReadyForCompletion_spec s download d Hd)
    as (b & Hrun & Hb).
  unfold MaybeCompleteDownload.
  rewrite (bind_Ok _ _ s b s) by done.
  destruct b; [exfalso; apply Hne, Hb; done | reflexivity].
Qed.

Lemma MaybeCompleteDownload_ready s download d :
  heap s !! download = Some d → eligible s d →
  (debug_build = true →
   is_Some (in_progress_ s !! id d)
   ∧ is_Some (history_downloads_ s !! db_handle d)) →
  is_Some (download_history_ s) →
  MaybeCompleteDownload download s = Ok tt (completed download d s).
Proof.
  intros Hd He Hdebug [n Hn].
  destruct (IsDownloadReadyForCompletion_spec s download d Hd)
    as (b & Hrun & Hb).
  assert (b = true) as -> by by apply Hb.
  destruct He as (Hsaved & Hsafe & Hact & Hh).
  unfold MaybeCompleteDownload.
  rewrite (bind_Ok _ _ s true s) by done. simpl.
  rewrite (bind_Ok (deref _) _ s d s) by by apply deref_Ok.
  rewrite (bind_Ok get _ s s s) by done.
  do 5 (rewrite (bind_Ok (DCHECK _) _ s tt s);
        [|apply DCHECK_Ok; intros Hdb; destruct (Hdebug Hdb);
          first [done | by apply bool_decide_eq_true_2]]).
  unfold completed, app_icon_events, UpdateAppIcon, history_UpdateEntry.
  munfold. simpl.
  destruct (status_updater_ s); simpl; rewrite Hn; simpl; rewrite Hd;
    simpl; unfold set_trace, set_in_progress; simpl;
    by rewrite <- !app_assoc.
Qed.

Lemma AddDownloadItemToHistory_run s download d db_handle0 :
  heap s !! download = Some d →
  is_Some (download_history_ s) →
  filed_handle s db_handle0 ≠ kUninitializedHandle →
  (debug_build = true →
   db_handle d = kUninitializedHandle
   ∧ history_downloads_ s !! filed_handle s db_handle0 = None) →
  AddDownloadItemToHistory download db_handle0 s
  = Ok tt (filed s download d db_handle0).
Proof.
  intros Hd [n Hn] Hh Hdebug.
  unfold AddDownloadItemToHistory, filed, filed_handle, next_history in *.
  rewrite Hn in *. simpl in *.
  case_bool_decide as Hs; munfold; simpl; unfold history_GetNextFakeDbHandle;
    munfold; rewrite ?Hn; simpl;
    rewrite bool_decide_eq_true_2 by done; simpl; rewrite Hd; simpl;
    (destruct debug_build; simpl;
     [destruct (Hdebug eq_refl) as [Hu Hnone];
      rewrite (bool_decide_eq_true_2 _ Hu); simpl;
      rewrite Hd; simpl; rewrite Hnone; simpl
     |rewrite Hd; simpl]); try done.
  all: by destruct s; simpl in *; subst.
Qed.

Lemma OnCreateDownloadEntryComplete_run s download_id download d db_handle0 :
  active_downloads_ s !! download_id = Some download → download ≠ NULL →
  heap s !! download = Some d →
  is_Some (download_history_ s) →
  filed_handle s db_handle0 ≠ kUninitializedHandle →
  (debug_build = true →
   db_handle d = kUninitializedHandle
   ∧ history_downloads_ s !! filed_handle s db_handle0 = None) →
  OnCreateDownloadEntryComplete download_id db_handle0 s
  = (if Item.IsInProgress d then MaybeCompleteDownload download
     else
       DCHECK (Item.IsCancelled d);;
       modify (set_in_progress (delete download_id));;
       modify (set_active_downloads (delete download_id));;
       history_UpdateEntry download;;
       emit (ItemUpdateObservers download))
      (announced s download d db_handle0).
Proof.
  intros Hact Hnn Hd Hhist Hh Hdebug. unfold OnCreateDownloadEntryComplete.
  rewrite (bind_Ok _ _ s download s)
    by by apply GetActiveDownloadItem_present.
  rewrite bool_decide_eq_false_2 by done.
  rewrite (bind_Ok _ _ s tt (filed s download d db_handle0))
    by by apply AddDownloadItemToHistory_run.
  unfold ShowDownloadInBrowser.
  assert (heap (filed s download d db_handle0) !! download
          = Some (Item.set_db_handle (filed_handle s db_handle0) d)) as Hd'.
  { unfold filed. simpl. apply lookup_insert_eq. }
  unfold announced. generalize dependent (filed s download d db_handle0).
  intros s1 Hd'. munfold. rewrite Hd'. simpl. rewrite Hd'. simpl.
  unfold set_trace. simpl. by rewrite <- !app_assoc.
Qed.

(** X8: when the history service answers for a download that is still
    active but no longer in progress (it was cancelled while the answer was
    pending), [OnCreateDownloadEntryComplete] files the Record under its
    handle, shows it, and then does the clean-up that the cancellation left
    for it: the id leaves [in_progress_] and [active_downloads_], and the
    history service receives the Record with its handle. *)
Theorem OnCreateDownloadEntryComplete_cleans_up_cancelled
    s download_id download d db_handle0 :
  active_downloads_ s !! download_id = Some download → download ≠ NULL →
  heap s !! download = Some d →
  is_Some (download_history_ s) →
  filed_handle s db_handle0 ≠ kUninitializedHandle →
  (debug_build = true →
   db_handle d = kUninitializedHandle
   ∧ history_downloads_ s !! filed_handle s db_handle0 = None) →
  Item.IsInProgress d = false →
  (debug_build = true → Item.IsCancelled d = true) →
  let h := filed_handle s db_handle0 in
  ∃ s',
    OnCreateDownloadEntryComplete download_id db_handle0 s = Ok tt s'
    ∧ heap s' = <[download := Item.set_db_handle h d]> (heap s)
    ∧ history_downloads_ s' = <[h := download]> (history_downloads_ s)
    ∧ active_downloads_ s' = delete download_id (active_downloads_ s)
    ∧ in_progress_ s' = delete download_id (in_progress_ s)
    ∧ downloads_ s' = downloads_ s
    ∧ trace s'
      = trace s ++ [ShowDownload download; ObserverModelChanged;
                    HistoryUpdateEntry download (Item.set_db_handle h d);
                    ItemUpdateObservers download].
Proof.
  intros Hact Hnn Hd Hhist Hh Hdebug Hip Hc h.
  rewrite (OnCreateDownloadEntryComplete_run s download_id download d)
    by done.
  rewrite Hip.
  erewrite (bind_Ok (DCHECK _)) by (by apply DCHECK_Ok).
  destruct Hhist as [n Hn].
  munfold. unfold announced, filed, next_history. simpl.
  case_bool_decide; simpl; rewrite ?Hn; simpl; rewrite lookup_insert_eq;
    simpl; eexists; (split; [reflexivity|]); simpl; split_and!; try done;
    by rewrite <- !app_assoc.
Qed.

End handle_arrival.

Section completion_order.
Context {cfg : Config}.
Implicit Types (s : DownloadManager).

Lemma OnAllDataSaved_run s download_id size hash download d :
  active_downloads_ s !! download_id = Some download →
  heap s !! download = Some d → is_Some (profile_ s) →
  OnAllDataSaved download_id size hash s
  = MaybeCompleteDownload download
      (data_saved s download_id size hash download d).
Proof.
  intros Hact Hd [prof Hprof].
  unfold OnAllDataSaved, data_saved, hash_check_events,
    CheckDownloadHashDone, active_downloads_index.
  munfold. rewrite Hact. simpl. rewrite Hact. simpl. rewrite Hd. simpl.
  case_bool_decide; simpl.
  - destruct enable_safe_browsing; simpl; rewrite ?Hprof; simpl.
    + done.
    + rewrite Hact. simpl. unfold set_trace. simpl.
      by rewrite app_nil_r; destruct s.
  - unfold set_trace. simpl. by rewrite app_nil_r; destruct s.
Qed.

(** X9: for a download in progress that waits for its data and for its
    durable handle, [OnAllDataSaved] and [OnCreateDownloadEntryComplete] may
    arrive in either order.  The first of them never completes the
    download; the second one does; both orders end with the same Records,
    the same [in_progress_], [history_downloads_] and [active_downloads_],
    and [OnDownloadCompleting] is sent once, as the last event. *)
Theorem completion_does_not_depend_on_arrival_order
    s download_id download d size hash db_handle0 :
  awaiting_data_and_handle s download_id download d →
  filed_handle s db_handle0 ≠ kUninitializedHandle →
  history_downloads_ s !! filed_handle s db_handle0 = None →
  let h := filed_handle s db_handle0 in
  let completing := ItemOnDownloadCompleting download in
  ∃ s_data s_handle s1 s2 t1 t2,
    OnAllDataSaved download_id size hash s = Ok tt s_data
    ∧ in_progress_ s_data !! download_id = Some download
    ∧ (completing ∉ drop (length (trace s)) (trace s_data))
    ∧ OnCreateDownloadEntryComplete download_id db_handle0 s_data = Ok tt s1
    ∧ OnCreateDownloadEntryComplete download_id db_handle0 s
      = Ok tt s_handle
    ∧ in_progress_ s_handle !! download_id = Some download
    ∧ (completing ∉ drop (length (trace s)) (trace s_handle))
    ∧ OnAllDataSaved download_id size hash s_handle = Ok tt s2
    ∧ heap s1 = heap s2
    ∧ heap s1 !! download
      = Some (Item.set_db_handle h (Item.OnAllDataSaved size d))
    ∧ in_progress_ s1 = delete download_id (in_progress_ s)
    ∧ in_progress_ s2 = delete download_id (in_progress_ s)
    ∧ history_downloads_ s1 = <[h := download]> (history_downloads_ s)
    ∧ history_downloads_ s2 = <[h := download]> (history_downloads_ s)
    ∧ active_downloads_ s1 = active_downloads_ s
    ∧ active_downloads_ s2 = active_downloads_ s
    ∧ trace s1 = trace s ++ t1 ++ [completing] ∧ (completing ∉ t1)
    ∧ trace s2 = trace s ++ t2 ++ [completing] ∧ (completing ∉ t2).
Proof.
  intros (Hact & Hin & Hnn & Hd & Hid & Hip & Hsafe & Hns & Hu & Hhist
          & Hprof) Hh Hnone h completing.
  set (dA := Item.OnAllDataSaved size d).
  set (sA := data_saved s download_id size hash download d).
  set (dB := Item.set_db_handle h d).
  set (sB := announced s download d db_handle0).
  assert (HdA : heap sA !! download = Some dA)
    by apply lookup_insert_eq.
  assert (HdB : heap sB !! download = Some dB)
    by apply lookup_insert_eq.
  assert (Hnext : is_Some (next_history s db_handle0)).
  { unfold next_history. destruct Hhist as [n ->].
    case_bool_decide; simpl; eauto. }
  (* data first *)
  assert (Hrun_data : OnAllDataSaved download_id size hash s = Ok tt sA).
  { rewrite (OnAllDataSaved_run s download_id size hash download d)
      by done.
    apply MaybeCompleteDownload_not_ready with dA; [done|].
    intros (_ & _ & _ & Hne). by apply Hne. }
  assert (Hrun1 : OnCreateDownloadEntryComplete download_id db_handle0 sA
                  = Ok tt (completed download (Item.set_db_handle h dA)
                             (announced sA download dA db_handle0))).
  { rewrite (OnCreateDownloadEntryComplete_run sA download_id download dA)
      by done.
    change (Item.IsInProgress dA) with (Item.IsInProgress d). rewrite Hip.
    apply MaybeCompleteDownload_ready.
    - apply lookup_insert_eq.
    - split_and!; [done|done| |done]. simpl. rewrite Hid, Hact. eauto.
    - intros _. simpl. rewrite Hid, Hin.
      split; [eauto|].
      change (filed_handle sA db_handle0) with h.
      rewrite lookup_insert_eq. eauto.
    - done. }
  (* handle first *)
  assert (Hrun_handle : OnCreateDownloadEntryComplete download_id
                          db_handle0 s = Ok tt sB).
  { rewrite (OnCreateDownloadEntryComplete_run s download_id download d)
      by done.
    rewrite Hip.
    apply MaybeCompleteDownload_not_ready with dB; [done|].
    intros (Hsaved & _). simpl in Hsaved. congruence. }
  assert (Hrun2 : OnAllDataSaved download_id size hash sB
                  = Ok tt (completed download (Item.OnAllDataSaved size dB)
                             (data_saved sB download_id size hash
                                download dB))).
  { rewrite (OnAllDataSaved_run sB download_id size hash download dB)
      by done.
    apply MaybeCompleteDownload_ready.
    - apply lookup_insert_eq.
    - split_and!; [done|done| |done]. simpl. rewrite Hid, Hact. eauto.
    - intros _. simpl. rewrite Hid, Hin.
      split; [eauto|]. rewrite lookup_insert_eq. eauto.
    - done. }
  exists sA, sB.
  eexists _, _.
  exists (hash_check_events download_id hash
          ++ [ShowDownload download; ObserverModelChanged]
          ++ app_icon_events s
          ++ [HistoryUpdateEntry download (Item.set_db_handle h dA)]).
  exists ([ShowDownload download; ObserverModelChanged]
          ++ hash_check_events download_id hash
          ++ app_icon_events s
          ++ [HistoryUpdateEntry download (Item.OnAllDataSaved size dB)]).
  split; [exact Hrun_data|]. split; [exact Hin|].
  split.
  { simpl. rewrite drop_app_length. unfold hash_check_events.
    destruct (_ && _); set_solver. }
  split; [exact Hrun1|]. split; [exact Hrun_handle|].
  split; [exact Hin|].
  split.
  { simpl. rewrite drop_app_length. set_solver. }
  split; [exact Hrun2|].
  split.
  { simpl. by rewrite !insert_insert_eq. }
  split.
  { simpl. by rewrite insert_insert_eq, lookup_insert_eq. }
  simpl. rewrite Hid. split_and!; try done.
  - unfold app_icon_events. simpl. destruct (status_updater_ s);
      by repeat (progress (rewrite <- ?app_assoc; simpl)).
  - unfold hash_check_events, app_icon_events. simpl.
    destruct (_ && _), (status_updater_ s); set_solver.
  - unfold app_icon_events. simpl. destruct (status_updater_ s);
      by repeat (progress (rewrite <- ?app_assoc; simpl)).
  - unfold hash_check_events, app_icon_events. simpl.
    destruct (_ && _), (status_updater_ s); set_solver.
Qed.

End completion_order.

Section path_resolution.
Context {cfg : Config}.
Implicit Types (s : DownloadManager).

Lemma CheckVisitedReferrerBeforeDone_posts s download_id download d st
    prefs visited :
  active_downloads_ s !! download_id = Some download → download ≠ NULL →
  heap s !! download = Some d → download_prefs_ s = Some prefs →
  CheckVisitedReferrerBeforeDone_state d visited s = Ok st s →
  CheckVisitedReferrerBeforeDone download_id visited s
  = Ok tt (set_trace
             (λ t, t ++ [PostFileTask
                           (CheckIfSuggestedPathExists (id d) st
                              (download_path prefs))]) s).
Proof.
  intros Hact Hnn Hd Hprefs Hst. unfold CheckVisitedReferrerBeforeDone.
  rewrite (bind_Ok _ _ s download s)
    by by apply GetActiveDownloadItem_present.
  rewrite bool_decide_eq_false_2 by done.
  rewrite (bind_Ok (deref _) _ s d s) by by apply deref_Ok.
  rewrite (bind_Ok _ _ s st s) by done.
  rewrite (bind_Ok the_prefs _ s prefs s)
    by (unfold the_prefs; by rewrite Hprefs).
  done.
Qed.

Lemma CheckVisitedReferrerBeforeDone_state_suggests s d prefs prof visited :
  extension_contract →
  download_prefs_ s = Some prefs → profile_ s = Some prof →
  force_file_name (state_info d) = EmptyString →
  ∃ st,
    CheckVisitedReferrerBeforeDone_state d visited s = Ok st s
    ∧ suggested_path st
      = FilePath_Append (suggested_directory s prefs st)
          (GenerateFileNameFromRequest d)
    ∧ (prompt_user_for_save_location st = true →
       is_dangerous_file st = is_dangerous_file (state_info d))
    ∧ (prompt_user_for_save_location st = false →
       IsDangerousFile d st visited s = Ok (is_dangerous_file st) s)
    ∧ same_request (state_info d) st.
Proof.
  intros Hext Hprefs Hprof Hforce.
  destruct (ShouldOpenFileBasedOnExtension_total s prefs
              (GenerateFileNameFromRequest d)) as [auto_open Hauto];
    [done..|].
  pose proof (λ st v, IsDangerousFile_total s prefs prof d st v
                        Hext Hprefs Hprof) as Hdf.
  apply wp_run_state.
  unfold CheckVisitedReferrerBeforeDone_state, suggested_directory,
    same_request.
  cbv zeta.
  destruct prefs as [pfd managed dp autoext].
  destruct (state_info d) as [sp tn pu hg prompt0 df du ei ff] eqn:Hsi.
  simpl in Hforce. subst ff.
  destruct (IsURLUserScript (url d) (mime_type d)
            || bool_decide (mime_type d = kMimeType)) eqn:Hscript,
    (bool_decide (last_download_path_ s = EmptyString)) eqn:Hlast,
    pfd, managed, prompt0, ei, auto_open; simpl.
  all: repeat first
    [ wp_step
    | eapply wp_of_run; [exact Hauto|]
    | match goal with
      | |- wp (IsDangerousFile ?d ?st ?v) _ ?s =>
          let b := fresh "dangerous" in
          let Hb := fresh "Hdangerous" in
          destruct (Hdf st v) as [b Hb];
          eapply wp_of_run; [exact Hb|]
      end ];
    simpl; rewrite ?Hlast; simpl.
  all: try done.
  all: repeat match goal with
       | Hl : bool_decide (last_download_path_ _ = _) = _,
         H : context [bool_decide (last_download_path_ _ = _)] |- _ =>
           rewrite Hl in H; simpl in H
       end.
  all: simpl in *; try (split; [done|]); try split_and!; try done.
Qed.

(** X10: for a download whose file name is not forced,
    [CheckVisitedReferrerBeforeDone] changes nothing in the manager and
    posts one path check to the FILE thread.  The suggested path is the
    generated file name inside the last directory the user chose when the
    user is to be prompted and such a directory is remembered, and inside
    the default download directory otherwise.  The danger verdict is the
    one of [IsDangerousFile] when the user is not prompted, and is left as
    it was when the user is prompted. *)
Theorem CheckVisitedReferrerBeforeDone_suggests_directory
    s download_id download d prefs prof visited :
  extension_contract →
  active_downloads_ s !! download_id = Some download → download ≠ NULL →
  heap s !! download = Some d →
  download_prefs_ s = Some prefs → profile_ s = Some prof →
  force_file_name (state_info d) = EmptyString →
  ∃ st,
    CheckVisitedReferrerBeforeDone download_id visited s
    = Ok tt (set_trace
               (λ t, t ++ [PostFileTask
                             (CheckIfSuggestedPathExists (id d) st
                                (download_path prefs))]) s)
    ∧ suggested_path st
      = FilePath_Append (suggested_directory s prefs st)
          (GenerateFileNameFromRequest d)
    ∧ (prompt_user_for_save_location st = true →
       is_dangerous_file st = is_dangerous_file (state_info d))
    ∧ (prompt_user_for_save_location st = false →
       IsDangerousFile d st visited s = Ok (is_dangerous_file st) s)
    ∧ same_request (state_info d) st.
Proof.
  intros Hext Hact Hnn Hd Hprefs Hprof Hforce.
  destruct (CheckVisitedReferrerBeforeDone_state_suggests s d prefs prof
              visited) as (st & Hst & Hrest); [done..|].
  exists st. split; [|done].
  by apply CheckVisitedReferrerBeforeDone_posts with download.
Qed.

(** X11: for a download whose file name is forced,
    [CheckVisitedReferrerBeforeDone] suggests exactly the forced name and
    decides neither prompting nor danger: only the extension-install mark
    is set from the request. *)
Theorem CheckVisitedReferrerBeforeDone_forced_name
    s download_id download d prefs visited :
  active_downloads_ s !! download_id = Some download → download ≠ NULL →
  heap s !! download = Some d →
  download_prefs_ s = Some prefs →
  force_file_name (state_info d) ≠ EmptyString →
  ∃ st,
    CheckVisitedReferrerBeforeDone download_id visited s
    = Ok tt (set_trace
               (λ t, t ++ [PostFileTask
                             (CheckIfSuggestedPathExists (id d) st
                                (download_path prefs))]) s)
    ∧ suggested_path st = force_file_name (state_info d)
    ∧ prompt_user_for_save_location st
      = prompt_user_for_save_location (state_info d)
    ∧ is_dangerous_file st = is_dangerous_file (state_info d)
    ∧ is_extension_install st = taken_for_extension_install d
    ∧ same_request (state_info d) st.
Proof.
  intros Hact Hnn Hd Hprefs Hforce.
  assert (∃ st,
    CheckVisitedReferrerBeforeDone_state d visited s = Ok st s
    ∧ suggested_path st = force_file_name (state_info d)
    ∧ prompt_user_for_save_location st
      = prompt_user_for_save_location (state_info d)
    ∧ is_dangerous_file st = is_dangerous_file (state_info d)
    ∧ is_extension_install st = taken_for_extension_install d
    ∧ same_request (state_info d) st) as (st & Hst & Hrest).
  { unfold CheckVisitedReferrerBeforeDone_state,
      taken_for_extension_install, same_request.
    cbv zeta.
    destruct (state_info d) as [sp tn pu hg prompt0 df du ei ff] eqn:Hsi.
    simpl in Hforce.
    destruct (IsURLUserScript (url d) (mime_type d)
              || bool_decide (mime_type d = kMimeType)) eqn:Hscript,
      prompt0, ei; munfold; simpl;
      rewrite ?(bool_decide_eq_false_2 (ff = EmptyString)) by done; simpl;
      rewrite ?andb_false_r; simpl;
      eexists; (split; [reflexivity|]); by split_and!. }
  exists st. split; [|done].
  by apply CheckVisitedReferrerBeforeDone_posts with download.
Qed.

End path_resolution.

Section path_commit_runs.
Context {cfg : Config}.
Implicit Types (s : DownloadManager).

Lemma ContinueDownloadWithPath_run s download d chosen_file :
  download ≠ NULL → heap s !! download = Some d →
  (debug_build = true → ready_for_path s download d) →
  is_Some (download_history_ s) →
  ContinueDownloadWithPath download chosen_file s
  = Ok tt (path_committed s download d chosen_file).
Proof.
  intros Hnn Hd Hready [n Hn].
  unfold ContinueDownloadWithPath.
  rewrite (bind_Ok (DCHECK _) _ s tt s)
    by (apply DCHECK_Ok; intros _; by apply bool_decide_eq_true_2).
  rewrite (bind_Ok (deref _) _ s d s) by by apply deref_Ok.
  rewrite (bind_Ok get _ s s s) by done.
  do 4 (rewrite (bind_Ok (DCHECK _) _ s tt s);
        [|apply DCHECK_Ok; intros Hdb;
          destruct (Hready Hdb) as (Hin & Hdl & Hact & Hfp);
          rewrite ?Hin;
          first [by apply bool_decide_eq_true_2 | done]]).
  unfold path_committed, committed_record, committed_name, app_icon_events,
    UpdateAppIcon, history_AddEntry.
  munfold. rewrite Hd. simpl.
  destruct (status_updater_ s);
    repeat (progress (simpl; rewrite ?lookup_insert_eq, ?Hn));
    rewrite ?insert_insert_eq; unfold set_trace; simpl;
    repeat (progress (rewrite <- ?app_assoc; simpl));
    rewrite ?insert_insert_eq; reflexivity.
Qed.

(** X12: [OnPathExistenceAvailable] stores the result of the path check in
    the Record.  When the user is to be prompted it opens the file chooser
    on the suggested path and commits nothing; otherwise it commits the
    suggested path at once, as [ContinueDownloadWithPath] does. *)
Theorem OnPathExistenceAvailable_prompts_or_commits
    s download_id download d new_state :
  active_downloads_ s !! download_id = Some download → download ≠ NULL →
  heap s !! download = Some d →
  let d' := Item.SetFileCheckResults new_state d in
  let s' := set_heap <[download := d']> s in
  (prompt_user_for_save_location new_state = true →
   OnPathExistenceAvailable download_id new_state s
   = Ok tt (set_trace
              (λ t, t ++ [DelegateChooseDownloadPath download_id
                            (suggested_path new_state);
                          ObserverSelectFileDialogDisplayed download_id])
              s'))
  ∧ (prompt_user_for_save_location new_state = false →
     (debug_build = true → ready_for_path s download d) →
     is_Some (download_history_ s) →
     OnPathExistenceAvailable download_id new_state s
     = Ok tt (path_committed s' download d' (suggested_path new_state))).
Proof.
  intros Hact Hnn Hd d' s'.
  assert (Hd' : heap s' !! download = Some d') by apply lookup_insert_eq.
  assert (Hup : update download (Item.SetFileCheckResults new_state) s
                = Ok tt s').
  { unfold update.
    by rewrite (bind_Ok (deref _) _ s d s) by by apply deref_Ok. }
  split.
  - intros Hprompt. unfold OnPathExistenceAvailable.
    rewrite (bind_Ok _ _ s download s)
      by by apply GetActiveDownloadItem_present.
    rewrite bool_decide_eq_false_2 by done.
    rewrite (bind_Ok _ _ s tt s') by done.
    rewrite (bind_Ok (deref _) _ s' d' s') by by apply deref_Ok.
    change (prompt_user_for_save_location (state_info d'))
      with (prompt_user_for_save_location new_state).
    rewrite Hprompt. munfold. unfold set_trace. simpl.
    by rewrite <- app_assoc.
  - intros Hprompt Hready Hhist.
    unfold OnPathExistenceAvailable.
    rewrite (bind_Ok _ _ s download s)
      by by apply GetActiveDownloadItem_present.
    rewrite bool_decide_eq_false_2 by done.
    rewrite (bind_Ok _ _ s tt s') by done.
    rewrite (bind_Ok (deref _) _ s' d' s') by by apply deref_Ok.
    change (prompt_user_for_save_location (state_info d'))
      with (prompt_user_for_save_location new_state).
    rewrite Hprompt.
    by apply ContinueDownloadWithPath_run.
Qed.

(** X13: [FileSelected] commits the chosen path, and remembers its
    directory as [last_download_path_] exactly when the download asked for
    a prompt.  A remembered directory is the one suggested for the next
    prompted download, until [ClearLastDownloadPath] forgets it and the
    default directory is suggested again. *)
Theorem FileSelected_remembers_directory s path download_id download d :
  active_downloads_ s !! download_id = Some download → download ≠ NULL →
  heap s !! download = Some d →
  (debug_build = true → ready_for_path s download d) →
  is_Some (download_history_ s) →
  ∃ s',
    FileSelected path download_id s = Ok tt s'
    ∧ last_download_path_ s'
      = (if prompt_user_for_save_location (state_info d)
         then FilePath_DirName path else last_download_path_ s)
    ∧ heap s' = <[download := committed_record d path]> (heap s)
    ∧ in_progress_ s' = <[id d := download]> (in_progress_ s)
    ∧ (∀ prefs st,
         prompt_user_for_save_location (state_info d) = true →
         prompt_user_for_save_location st = true →
         FilePath_DirName path ≠ EmptyString →
         suggested_directory s' prefs st = FilePath_DirName path)
    ∧ (∀ prefs st,
       ∃ s'', ClearLastDownloadPath s' = Ok tt s''
         ∧ suggested_directory s'' prefs st = download_path prefs).
Proof.
  intros Hact Hnn Hd Hready Hhist.
  set (s1 := if prompt_user_for_save_location (state_info d)
             then set_last_download_path (FilePath_DirName path) s
             else s).
  exists (path_committed s1 download d path).
  assert (Hrun : FileSelected path download_id s
                 = Ok tt (path_committed s1 download d path)).
  { unfold FileSelected.
    rewrite (bind_Ok _ _ s download s)
      by by apply GetActiveDownloadItem_present.
    rewrite bool_decide_eq_false_2 by done.
    rewrite (bind_Ok (deref _) _ s d s) by by apply deref_Ok.
    rewrite (bind_Ok _ _ s tt s1)
      by (unfold s1; by destruct (prompt_user_for_save_location _)).
    apply ContinueDownloadWithPath_run; unfold s1;
      by destruct (prompt_user_for_save_location _). }
  split; [done|].
  unfold s1, suggested_directory.
  destruct (prompt_user_for_save_location (state_info d)); simpl;
    split_and!; try done.
  - intros prefs st _ -> Hdir. simpl.
    by rewrite bool_decide_eq_false_2.
  - intros prefs st. eexists. split; [reflexivity|]. simpl.
    by rewrite andb_false_r.
  - intros prefs st. eexists. split; [reflexivity|]. simpl.
    by rewrite andb_false_r.
Qed.

End path_commit_runs.

Section file_removal.
Context {cfg : Config}.
Implicit Types (s : DownloadManager).

Lemma CheckForFileRemoval_run s download d :
  heap s !! download = Some d →
  CheckForFileRemoval download s
  = Ok tt (set_trace
             (λ t, t ++ (if removal_checked d
                         then [PostFileTask
                                 (CheckForFileRemovalOnFileThread
                                    (db_handle d) (full_path d))]
                         else [])) s).
Proof.
  intros Hd. unfold CheckForFileRemoval, removal_checked. munfold.
  rewrite Hd. simpl. destruct (_ && _); [done|].
  unfold set_trace. rewrite app_nil_r. by destruct s.
Qed.

(** The checks that a pass over the entries [l] posts. *)
Lemma for_each_CheckForFileRemoval l s :
  (∀ h p, (h, p) ∈ l → is_Some (heap s !! p)) →
  ∃ t, for_each l (λ it, CheckForFileRemoval it.2) s
       = Ok tt (set_trace (λ t0, t0 ++ t) s)
    ∧ Forall (λ e, is_Some (removal_check_handle e)) t
    ∧ omap removal_check_handle t
      = omap (λ it : Z * ptr,
                d ← heap s !! it.2;
                if removal_checked d then Some (db_handle d) else None) l.
Proof.
  revert s. induction l as [|[h p] l IH]; intros s Hlive.
  - exists []. split_and!; try done. simpl.
    unfold set_trace. rewrite app_nil_r. by destruct s.
  - destruct (Hlive h p) as [d Hd]; [set_solver|].
    cbn [for_each]. simpl.
    rewrite (bind_Ok _ _ s tt _) by by apply CheckForFileRemoval_run.
    match goal with
    | |- context [for_each l _ ?s1] =>
        destruct (IH s1) as (t & Hrun & Hall & Hh)
    end.
    { intros h' p' Hin. simpl. apply (Hlive h'). set_solver. }
    rewrite Hrun. simpl in Hh. rewrite Hd. simpl.
    destruct (removal_checked d).
    + exists (PostFileTask
                (CheckForFileRemovalOnFileThread (db_handle d)
                   (full_path d)) :: t).
      split_and!.
      * unfold set_trace. simpl. by rewrite <- app_assoc.
      * constructor; [by eexists|done].
      * simpl. f_equal. exact Hh.
    + exists t. split_and!; try done.
      unfold set_trace. simpl. by rewrite app_nil_r.
Qed.

(** X14: [CheckForHistoryFilesRemoval] changes nothing in the manager and
    posts file-removal checks only: one for the handle of each indexed Record
    that is COMPLETE and not yet known to be removed, none for any
    other.  [OnFileRemovalDetected] ignores a handle that is not indexed,
    and marks the Record of an indexed one, after which
    [CheckForFileRemoval] posts nothing for that Record. *)
Theorem file_removal_is_checked_until_detected s :
  history_live s →
  (∃ t, CheckForHistoryFilesRemoval s = Ok tt (set_trace (λ t0, t0 ++ t) s)
     ∧ Forall (λ e, is_Some (removal_check_handle e)) t
     ∧ ∀ h, h ∈ omap removal_check_handle t
            ↔ ∃ k p d, history_downloads_ s !! k = Some p
                       ∧ heap s !! p = Some d
                       ∧ removal_checked d = true ∧ db_handle d = h)
  ∧ (∀ h, history_downloads_ s !! h = None →
          OnFileRemovalDetected h s = Ok tt s)
  ∧ (∀ h p d,
       history_downloads_ s !! h = Some p → heap s !! p = Some d →
       ∃ s', OnFileRemovalDetected h s = Ok tt s'
         ∧ heap s' = <[p := Item.OnDownloadedFileRemoved d]> (heap s)
         ∧ same_indices s s' ∧ trace s' = trace s
         ∧ CheckForFileRemoval p s' = Ok tt s').
Proof.
  intros Hlive. split_and!.
  - destruct (for_each_CheckForFileRemoval
                (map_entries (history_downloads_ s)) s)
      as (t & Hrun & Hall & Hh).
    { intros h p Hp%elem_of_map_entries. by eapply Hlive. }
    exists t. split_and!; try done.
    intros h. rewrite Hh, list_elem_of_omap. split.
    + intros ([k p] & Hin%elem_of_map_entries & Hsome). simpl in Hsome.
      destruct (heap s !! p) as [d|] eqn:Hd; [|done]. simpl in Hsome.
      destruct (removal_checked d) eqn:Hc; [|done].
      exists k, p, d. by simplify_eq.
    + intros (k & p & d & Hp & Hd & Hc & <-). exists (k, p).
      split; [by apply elem_of_map_entries|]. simpl.
      rewrite Hd. simpl. by rewrite Hc.
  - intros h Hh. unfold OnFileRemovalDetected. munfold. by rewrite Hh.
  - intros h p d Hp Hd.
    exists (set_heap <[p := Item.OnDownloadedFileRemoved d]> s).
    split_and!; try done.
    + unfold OnFileRemovalDetected. munfold. rewrite Hp. simpl.
      by rewrite Hd.
    + rewrite (CheckForFileRemoval_run _ p (Item.OnDownloadedFileRemoved d))
        by apply lookup_insert_eq.
      unfold removal_checked. simpl. rewrite andb_false_r.
      unfold set_trace. simpl. by rewrite app_nil_r.
Qed.

End file_removal.

Section replay.
Context {cfg : Config}.
Implicit Types (s : DownloadManager).

Lemma replay_loop_spec no_id entries s :
  NoDup (hi_db_handle <$> entries) →
  (∀ e, e ∈ entries → history_downloads_ s !! hi_db_handle e = None) →
  ∃ s' ps, replay_loop no_id entries s = Ok tt s'
    ∧ replayed_into s no_id entries ps s'
    ∧ trace s' = trace s.
Proof.
  revert s. induction entries as [|e entries IH]; intros s Hnd Hnew.
  - exists s, []. split; [done|]. split; [|done].
    unfold replayed_into. split_and!; try done.
    + constructor.
    + intros ? []%elem_of_nil.
    + set_solver.
  - rewrite fmap_cons in Hnd. apply NoDup_cons in Hnd as [He Hnd].
    unfold replay_loop. cbn [for_each]. fold (replay_loop no_id entries).
    pose proof (is_fresh ({[NULL]} ∪ dom (heap s))) as Hfresh.
    set (p := fresh ({[NULL]} ∪ dom (heap s))) in *.
    assert (Hp0 : p ≠ NULL) by set_solver.
    assert (Hp1 : heap s !! p = None)
      by (apply not_elem_of_dom; set_solver).
    set (s1 := set_history_downloads <[hi_db_handle e := p]>
                 (set_downloads (λ X, {[p]} ∪ X)
                    (set_heap <[p := Item.Restore no_id e]> s))).
    assert (Hbody :
      (download ← new (Item.Restore no_id e);
       d ← deref download;
       s0 ← get;
       DCHECK (negb (bool_decide
                       (is_Some (history_downloads_ s0 !! db_handle d))));;
       modify (set_downloads (λ X, {[download]} ∪ X));;
       modify (set_history_downloads <[db_handle d := download]>)) s
      = Ok tt s1).
    { unfold new. fold p. unfold mbind at 1, M_bind at 1.
      erewrite (bind_Ok (deref _)) by (apply deref_Ok, lookup_insert_eq).
      erewrite (bind_Ok get) by done.
      erewrite (bind_Ok (DCHECK _)); [done|].
      apply DCHECK_Ok. intros _. simpl.
      rewrite Hnew by set_solver.
      by rewrite bool_decide_eq_false_2 by by intros []. }
    rewrite (bind_Ok _ _ s tt s1) by exact Hbody.
    destruct (IH s1) as (s' & ps & Hrun & Hrep & Htrace); [done| |].
    { intros e' He'. simpl. rewrite lookup_insert_ne.
      - apply Hnew. set_solver.
      - intros Heq. apply He. rewrite Heq. by apply list_elem_of_fmap_2. }
    destruct Hrep as (Hlen & Hndp & Hfr & Hent & Hhist & Hheap & Hdl & Hact
                      & Hin).
    assert (Hp : p ∉ ps).
    { intros Hp. destruct (Hfr p Hp) as [_ Hnone]. simpl in Hnone.
      by rewrite lookup_insert_eq in Hnone. }
    exists s', (p :: ps). split; [done|]. split; [|done].
    unfold replayed_into. split_and!.
    + simpl. by rewrite Hlen.
    + by constructor.
    + intros q [->|Hq]%elem_of_cons; [done|].
      destruct (Hfr q Hq) as [Hq0 Hq1]. split; [done|].
      simpl in Hq1. rewrite lookup_insert_ne in Hq1; [done|].
      intros ->. done.
    + intros [|k] e' Hk; simpl in Hk.
      * simplify_eq. exists p. split; [done|].
        rewrite (Hheap p Hp), (Hhist _ He). simpl.
        by rewrite !lookup_insert_eq.
      * destruct (Hent k e' Hk) as (q & Hq & Hqd & Hqh). by exists q.
    + intros h Hh. rewrite fmap_cons, not_elem_of_cons in Hh.
      destruct Hh as [Hne Hh]. rewrite (Hhist h Hh). simpl.
      by rewrite lookup_insert_ne.
    + intros q Hq. rewrite not_elem_of_cons in Hq. destruct Hq as [Hne Hq].
      rewrite (Hheap q Hq). simpl. by rewrite lookup_insert_ne.
    + rewrite Hdl. simpl. set_solver.
    + by rewrite Hact.
    + by rewrite Hin.
Qed.

Lemma replayed_into_live s no_id entries ps s' :
  history_live s → replayed_into s no_id entries ps s' → history_live s'.
Proof.
  intros Hlive (Hlen & Hndp & Hfr & Hent & Hhist & Hheap & _) h q Hq.
  destruct (decide (h ∈ hi_db_handle <$> entries)) as [Hh|Hh].
  - apply list_elem_of_fmap in Hh as (e & -> & He).
    apply list_elem_of_lookup in He as [k Hk].
    destruct (Hent k e Hk) as (p & _ & Hp & Hph).
    assert (q = p) as -> by congruence. eauto.
  - rewrite (Hhist h Hh) in Hq. destruct (Hlive h q Hq) as [d Hd].
    rewrite Hheap; [eauto|]. intros Hin.
    destruct (Hfr q Hin) as [_ Hnone]. congruence.
Qed.

(** X15: [OnQueryDownloadEntriesComplete], given rows with distinct handles
    that are not indexed yet, returns after creating one new Record per
    row, each filed in [downloads_] and under the handle of its row in
    [history_downloads_]; older Records and index entries are untouched,
    [active_downloads_] and [in_progress_] do not change, and the observers
    are told once that the model changed. *)
Theorem OnQueryDownloadEntriesComplete_replays_rows s no_id entries :
  NoDup (hi_db_handle <$> entries) →
  (∀ e, e ∈ entries → history_downloads_ s !! hi_db_handle e = None) →
  history_live s →
  ∃ s' ps t,
    OnQueryDownloadEntriesComplete no_id entries s = Ok tt s'
    ∧ replayed_into s no_id entries ps s'
    ∧ trace s' = trace s ++ ObserverModelChanged :: t
    ∧ (ObserverModelChanged ∉ t).
Proof.
  intros Hnd Hnew Hlive.
  destruct (replay_loop_spec no_id entries s Hnd Hnew)
    as (s1 & ps & Hrun & Hrep & Htrace).
  pose proof (replayed_into_live s no_id entries ps s1 Hlive Hrep) as Hlive1.
  set (s2 := set_trace (λ t, t ++ [ObserverModelChanged]) s1).
  destruct (for_each_CheckForFileRemoval
              (map_entries (history_downloads_ s2)) s2)
    as (t & Hcheck & Hall & _).
  { intros h p Hp%elem_of_map_entries. by eapply Hlive1. }
  exists (set_trace (λ t0, t0 ++ t) s2), ps, t. split_and!.
  - change (OnQueryDownloadEntriesComplete no_id entries)
      with (replay_loop no_id entries;; NotifyModelChanged;;
            CheckForHistoryFilesRemoval).
    rewrite (bind_Ok _ _ s tt s1) by done.
    rewrite (bind_Ok _ _ s1 tt s2) by done.
    unfold CheckForHistoryFilesRemoval.
    by rewrite (bind_Ok get _ s2 s2 s2) by done.
  - exact Hrep.
  - simpl. rewrite Htrace. by rewrite <- app_assoc.
  - intros Hin. rewrite Forall_forall in Hall.
    by destruct (Hall _ Hin).
Qed.

(** X16: [SavePageAsDownloadStarted] files the Record of a page being saved
    in [downloads_] and in [history_downloads_] under the next fake handle
    of the history service, which it uses up; the Record is given that
    handle, the download never becomes active or in progress, and the
    observers are told.  A fake handle equal to the uninitialized one stops
    the run at a CHECK. *)
Theorem SavePageAsDownloadStarted_files_under_fake_handle s download d n :
  heap s !! download = Some d → download_history_ s = Some n →
  (fake_db_handle n = kUninitializedHandle →
   SavePageAsDownloadStarted download s = Crash CheckFailure)
  ∧ (fake_db_handle n ≠ kUninitializedHandle →
     (debug_build = true →
      db_handle d = kUninitializedHandle
      ∧ history_downloads_ s !! fake_db_handle n = None) →
     ∃ s',
       SavePageAsDownloadStarted download s = Ok tt s'
       ∧ heap s'
         = <[download := Item.set_db_handle (fake_db_handle n) d]> (heap s)
       ∧ history_downloads_ s'
         = <[fake_db_handle n := download]> (history_downloads_ s)
       ∧ downloads_ s' = {[download]} ∪ downloads_ s
       ∧ save_page_as_downloads_ s'
         = (if debug_build then {[download]} ∪ save_page_as_downloads_ s
            else save_page_as_downloads_ s)
       ∧ active_downloads_ s' = active_downloads_ s
       ∧ in_progress_ s' = in_progress_ s
       ∧ download_history_ s' = Some (S n)
       ∧ trace s' = trace s ++ [ObserverModelChanged]).
Proof.
  intros Hd Hn. split.
  - intros Hfake.
    unfold SavePageAsDownloadStarted, AddDownloadItemToHistory,
      history_GetNextFakeDbHandle.
    rewrite bool_decide_eq_true_2 by done.
    munfold. destruct debug_build; simpl; rewrite Hn; simpl;
      by rewrite bool_decide_eq_false_2 by (intros Hne; by apply Hne).
  - intros Hfake Hdebug.
    unfold SavePageAsDownloadStarted, AddDownloadItemToHistory,
      history_GetNextFakeDbHandle.
    rewrite bool_decide_eq_true_2 by done.
    munfold. destruct debug_build; simpl; rewrite Hn; simpl;
      rewrite bool_decide_eq_true_2 by done; simpl; rewrite Hd; simpl.
    + destruct (Hdebug eq_refl) as [Hu Hnone].
      rewrite (bool_decide_eq_true_2 _ Hu). simpl. rewrite Hd. simpl.
      rewrite Hnone. simpl.
      eexists. split; [reflexivity|]. by split_and!.
    + rewrite Hd. simpl. eexists. split; [reflexivity|]. by split_and!.
Qed.

End replay.

Section history_queries.
Context {cfg : Config} {acc : ItemAccessors}.
Implicit Types (s : DownloadManager).

Lemma GetTemporaryDownloads_scan_run l dir_path result s :
  (∀ h p, (h, p) ∈ l → is_Some (heap s !! p)) →
  GetTemporaryDownloads_scan l dir_path result s
  = Ok (result ++ selected s (temporary_in dir_path) l) s.
Proof.
  revert result. induction l as [|[h p] l IH]; intros result Hlive.
  - simpl. by rewrite app_nil_r.
  - destruct (Hlive h p) as [d Hd]; [set_solver|].
    cbn [GetTemporaryDownloads_scan].
    rewrite (bind_Ok (deref _) _ s d s) by by apply deref_Ok.
    unfold selected. simpl. rewrite Hd. simpl.
    fold (temporary_in dir_path d).
    destruct (temporary_in dir_path d).
    + rewrite IH by (intros; apply (Hlive h0); set_solver).
      by rewrite <- app_assoc.
    + apply IH. intros; apply (Hlive h0); set_solver.
Qed.

Lemma GetAllDownloads_scan_run l dir_path result s :
  (∀ h p, (h, p) ∈ l → is_Some (heap s !! p)) →
  GetAllDownloads_scan l dir_path result s
  = Ok (result ++ selected s (kept_in dir_path) l) s.
Proof.
  revert result. induction l as [|[h p] l IH]; intros result Hlive.
  - simpl. by rewrite app_nil_r.
  - destruct (Hlive h p) as [d Hd]; [set_solver|].
    cbn [GetAllDownloads_scan].
    rewrite (bind_Ok (deref _) _ s d s) by by apply deref_Ok.
    unfold selected. simpl. rewrite Hd. simpl.
    fold (kept_in dir_path d).
    destruct (kept_in dir_path d).
    + rewrite IH by (intros; apply (Hlive h0); set_solver).
      by rewrite <- app_assoc.
    + apply IH. intros; apply (Hlive h0); set_solver.
Qed.

Lemma elem_of_selected s keep (m : gmap Z ptr) p :
  p ∈ selected s keep (map_entries m)
  ↔ ∃ h d, m !! h = Some p ∧ heap s !! p = Some d ∧ keep d = true.
Proof.
  unfold selected. rewrite list_elem_of_omap. split.
  - intros ([h q] & Hin%elem_of_map_entries & Hsome). simpl in Hsome.
    destruct (heap s !! q) as [d|] eqn:Hd; [|done]. simpl in Hsome.
    destruct (keep d) eqn:Hk; [|done]. simplify_eq. by exists h, d.
  - intros (h & d & Hp & Hd & Hk). exists (h, p).
    split; [by apply elem_of_map_entries|]. simpl.
    rewrite Hd. simpl. by rewrite Hk.
Qed.

(** X17: [GetTemporaryDownloads] and [GetAllDownloads] change nothing and
    push behind what the caller's vector holds.  The first one adds the
    indexed Records that are temporary and lie in the directory; the second
    one the indexed Records that are not temporary and lie in the directory,
    or anywhere when the directory is empty; no Record is reported by
    both. *)
Theorem history_queries_split_by_temporary s dir_path result1 result2 :
  history_live s →
  ∃ temporary kept,
    GetTemporaryDownloads dir_path result1 s = Ok (result1 ++ temporary) s
    ∧ GetAllDownloads dir_path result2 s = Ok (result2 ++ kept) s
    ∧ (∀ p, p ∈ temporary
            ↔ ∃ h d, history_downloads_ s !! h = Some p
                     ∧ heap s !! p = Some d ∧ is_temporary d = true
                     ∧ FilePath_DirName (full_path d) = dir_path)
    ∧ (∀ p, p ∈ kept
            ↔ ∃ h d, history_downloads_ s !! h = Some p
                     ∧ heap s !! p = Some d ∧ is_temporary d = false
                     ∧ (dir_path = EmptyString
                        ∨ FilePath_DirName (full_path d) = dir_path))
    ∧ (∀ p, p ∈ temporary → p ∉ kept).
Proof.
  intros Hlive.
  assert (Hl : ∀ h p, (h, p) ∈ map_entries (history_downloads_ s) →
                      is_Some (heap s !! p)).
  { intros h p Hp%elem_of_map_entries. by eapply Hlive. }
  exists (selected s (temporary_in dir_path)
            (map_entries (history_downloads_ s))),
    (selected s (kept_in dir_path) (map_entries (history_downloads_ s))).
  assert (Ht : ∀ p, p ∈ selected s (temporary_in dir_path)
                          (map_entries (history_downloads_ s))
            ↔ ∃ h d, history_downloads_ s !! h = Some p
                     ∧ heap s !! p = Some d ∧ is_temporary d = true
                     ∧ FilePath_DirName (full_path d) = dir_path).
  { intros p. rewrite elem_of_selected. unfold temporary_in.
    split; intros (h & d & Hp & Hd & Hk); exists h, d.
    - apply andb_prop in Hk as [Htmp Hdir%bool_decide_eq_true]. done.
    - destruct Hk as [-> Hdir]. split_and!; try done.
      by apply bool_decide_eq_true_2. }
  assert (Hkp : ∀ p, p ∈ selected s (kept_in dir_path)
                          (map_entries (history_downloads_ s))
            ↔ ∃ h d, history_downloads_ s !! h = Some p
                     ∧ heap s !! p = Some d ∧ is_temporary d = false
                     ∧ (dir_path = EmptyString
                        ∨ FilePath_DirName (full_path d) = dir_path)).
  { intros p. rewrite elem_of_selected. unfold kept_in.
    split; intros (h & d & Hp & Hd & Hk); exists h, d.
    - apply andb_prop in Hk as [Htmp%negb_true_iff Hdir%orb_prop].
      split_and!; try done.
      destruct Hdir as [Hdir%bool_decide_eq_true|Hdir%bool_decide_eq_true];
        auto.
    - destruct Hk as [-> Hdir]. split_and!; try done. simpl.
      destruct Hdir as [Hdir|Hdir];
        rewrite (bool_decide_eq_true_2 _ Hdir); by rewrite ?orb_true_r. }
  split_and!; try done.
  - unfold GetTemporaryDownloads. rewrite (bind_Ok get _ s s s) by done.
    by apply GetTemporaryDownloads_scan_run.
  - unfold GetAllDownloads. rewrite (bind_Ok get _ s s s) by done.
    by apply GetAllDownloads_scan_run.
  - intros p (h & d & _ & Hd & Htemp & _)%Ht
      (h' & d' & _ & Hd' & Hkept & _)%Hkp.
    congruence.
Qed.

End history_queries.

Section progress.
Context {cfg : Config} {acc : ItemAccessors}.
Implicit Types (s : DownloadManager).

Lemma to_int64_add_l a b : to_int64 (to_int64 a + b) = to_int64 (a + b).
Proof.
  unfold to_int64.
  replace ((a + 2 ^ 63) `mod` 2 ^ 64 - 2 ^ 63 + b + 2 ^ 63)
    with ((a + 2 ^ 63) `mod` 2 ^ 64 + b) by lia.
  rewrite Zplus_mod_idemp_l. f_equal. f_equal. lia.
Qed.

Lemma IsDownloadProgressKnown_scan_run l s :
  (∀ h p, (h, p) ∈ l → is_Some (heap s !! p)) →
  ∃ b, IsDownloadProgressKnown_scan l s = Ok b s
    ∧ (b = true ↔ ∀ h p d, (h, p) ∈ l → heap s !! p = Some d →
                           0 < total_bytes d).
Proof.
  induction l as [|[h p] l IH]; intros Hlive.
  - exists true. split; [done|]. split; [|done].
    intros _ ? ? ? []%elem_of_nil.
  - destruct (Hlive h p) as [d Hd]; [set_solver|].
    cbn [IsDownloadProgressKnown_scan].
    rewrite (bind_Ok (deref _) _ s d s) by by apply deref_Ok.
    case_bool_decide as Hle.
    + exists false. split; [done|]. split; [done|].
      intros Hall.
      assert (0 < total_bytes d); [|lia].
      apply (Hall h p d); [set_solver|done].
    + destruct IH as (b & Hrun & Hb);
        [intros; apply (Hlive h0); set_solver|].
      exists b. split; [done|]. rewrite Hb. split.
      * intros Hall h' p' d' [Heq|Hin]%elem_of_cons Hd';
          [simplify_eq; lia|by eapply Hall].
      * intros Hall h' p' d' Hin. apply (Hall h'). set_solver.
Qed.

Lemma sum_bytes_scan_run l bytes acc_bytes s :
  (∀ h p, (h, p) ∈ l → is_Some (heap s !! p)) →
  sum_bytes_scan l bytes (to_int64 acc_bytes) s
  = Ok (to_int64
          (acc_bytes
           + foldr Z.add 0
               ((λ it : Z * ptr, from_option bytes 0 (heap s !! it.2))
                  <$> l))) s.
Proof.
  revert acc_bytes. induction l as [|[h p] l IH]; intros acc_bytes Hlive.
  - simpl. by rewrite Z.add_0_r.
  - destruct (Hlive h p) as [d Hd]; [set_solver|].
    cbn [sum_bytes_scan].
    rewrite (bind_Ok (deref _) _ s d s) by by apply deref_Ok.
    rewrite to_int64_add_l.
    rewrite IH by (intros; apply (Hlive h0); set_solver).
    simpl. rewrite Hd. simpl. f_equal. apply (f_equal to_int64).
    symmetry. apply Z.add_assoc.
Qed.

Lemma foldr_add_Permutation (l1 l2 : list Z) :
  l1 ≡ₚ l2 → foldr Z.add 0 l1 = foldr Z.add 0 l2.
Proof. induction 1; simpl; lia. Qed.

(** X18: [IsDownloadProgressKnown] tells whether every download in progress
    has a positive total size.  [GetReceivedDownloadBytes] and
    [GetTotalDownloadBytes] stop at their DCHECK in a debug build when it
    does not hold; otherwise they change nothing and return the sum, in
    64-bit arithmetic, of the received and the total sizes of the downloads
    in progress. *)
Theorem progress_is_summed_over_in_progress s :
  in_progress_live s →
  (∃ b, IsDownloadProgressKnown s = Ok b s ∧ (b = true ↔ progress_known s))
  ∧ (debug_build = true → ¬ progress_known s →
     GetReceivedDownloadBytes s = Crash DCheckFailure
     ∧ GetTotalDownloadBytes s = Crash DCheckFailure)
  ∧ ((debug_build = true → progress_known s) →
     GetReceivedDownloadBytes s
     = Ok (to_int64 (in_progress_sum s received_bytes)) s
     ∧ GetTotalDownloadBytes s
       = Ok (to_int64 (in_progress_sum s total_bytes)) s).
Proof.
  intros Hlive.
  assert (Hl : ∀ h p, (h, p) ∈ map_entries (in_progress_ s) →
                      is_Some (heap s !! p)).
  { intros h p Hp%elem_of_map_entries. by eapply Hlive. }
  assert (Hknown : ∃ b, IsDownloadProgressKnown s = Ok b s
                        ∧ (b = true ↔ progress_known s)).
  { destruct (IsDownloadProgressKnown_scan_run
                (map_entries (in_progress_ s)) s Hl) as (b & Hrun & Hb).
    exists b. split.
    - unfold IsDownloadProgressKnown. by rewrite (bind_Ok get _ s s s).
    - rewrite Hb. unfold progress_known.
      split; intros Hall i p d Hp; apply (Hall i p d);
        by apply elem_of_map_entries. }
  destruct Hknown as (b & Hrun & Hb).
  assert (Hcheck : (debug_build = true → progress_known s) →
                   DCHECK_call IsDownloadProgressKnown s = Ok tt s).
  { intros Hk. unfold DCHECK_call.
    destruct debug_build eqn:Hdebug; [|done].
    rewrite (bind_Ok _ _ s b s) by done.
    apply DCHECK_Ok. intros _. apply Hb. by apply Hk. }
  assert (Hfail : debug_build = true → ¬ progress_known s →
                  DCHECK_call IsDownloadProgressKnown s
                  = Crash DCheckFailure).
  { intros Hdebug Hk. unfold DCHECK_call. rewrite Hdebug.
    rewrite (bind_Ok _ _ s b s) by done.
    apply DCHECK_Crash; [done|]. destruct b; [|done].
    exfalso. by apply Hk, Hb. }
  assert (Hsum : ∀ bytes,
            sum_bytes_scan (map_entries (in_progress_ s)) bytes 0 s
            = Ok (to_int64 (in_progress_sum s bytes)) s).
  { intros bytes. change 0 with (to_int64 0) at 1.
    rewrite sum_bytes_scan_run by done. simpl. f_equal.
    unfold in_progress_sum. apply (f_equal to_int64).
    apply foldr_add_Permutation, fmap_Permutation, map_entries_Permutation. }
  split_and!.
  - by exists b.
  - intros Hdebug Hk. unfold GetReceivedDownloadBytes, GetTotalDownloadBytes.
    split; apply bind_Crash; by apply Hfail.
  - intros Hk. unfold GetReceivedDownloadBytes, GetTotalDownloadBytes.
    rewrite !(bind_Ok _ _ s tt s) by by apply Hcheck.
    rewrite !(bind_Ok get _ s s s) by done. by rewrite !Hsum.
Qed.

End progress.

Section lifecycle.
Context {cfg : Config} {acc : ItemAccessors}.
Implicit Types (s : DownloadManager).

Lemma Shutdown_clears_flag s :
  wlp Shutdown (λ _ s', shutdown_needed_ s' = false) s.
Proof.
  unfold Shutdown. apply wlp_bind, wlp_get.
  destruct (shutdown_needed_ s) eqn:Hneeded; simpl; [|done].
  repeat (apply wlp_bind; eapply wlp_mono; [apply wlp_trivial|];
          intros ? ? _; simpl).
  done.
Qed.

(** X19: [Init] sets [shutdown_needed_], the profile, the history service
    and the preferences, asks the history service for its rows, and touches
    no Record and no container; a second [Init] without a [Shutdown] stops a
    debug build, and so does destroying the manager then.  After any
    [Shutdown] that returns, the flag is clear, the destructor's DCHECK
    passes and [Init] can run again. *)
Theorem Init_and_Shutdown_toggle_the_flag :
  (∀ s profile rdh,
     debug_build = true → shutdown_needed_ s = true →
     Init profile rdh s = Crash DCheckFailure)
  ∧ (∀ s profile rdh,
       (debug_build = true → shutdown_needed_ s = false) →
       ∃ s', Init profile rdh s = Ok true s'
         ∧ shutdown_needed_ s' = true ∧ profile_ s' = Some profile
         ∧ download_history_ s' = Some 0%nat
         ∧ download_prefs_ s' = Some (GetPrefs profile)
         ∧ file_manager_ s' = rdh || file_manager_ s
         ∧ same_indices s s' ∧ heap s' = heap s
         ∧ trace s' = trace s ++ [HistoryLoad]
         ∧ (debug_build = true →
            DownloadManager_dtor s' = Crash DCheckFailure))
  ∧ (∀ s s',
       Shutdown s = Ok tt s' →
       shutdown_needed_ s' = false
       ∧ DownloadManager_dtor s' = Ok tt s'
       ∧ ∀ profile rdh, ∃ s'', Init profile rdh s' = Ok true s'').
Proof.
  split_and!.
  - intros s profile rdh Hdebug Hneeded. unfold Init. munfold.
    by rewrite Hdebug, Hneeded.
  - intros s profile rdh Hfresh. unfold Init, DownloadManager_dtor.
    munfold.
    destruct debug_build eqn:Hdebug; simpl;
      [rewrite Hfresh by done; simpl|];
      destruct rdh; simpl; eexists; (split; [reflexivity|]); simpl;
      unfold same_indices; split_and!; try done; by intros.
  - intros s s' Hrun.
    pose proof (Shutdown_clears_flag s) as Hflag.
    unfold wlp in Hflag. rewrite Hrun in Hflag. split_and!; [done| |].
    + unfold DownloadManager_dtor. munfold. rewrite Hflag. simpl.
      by rewrite andb_false_r.
    + intros profile rdh. unfold Init. munfold. rewrite Hflag. simpl.
      rewrite andb_false_r. destruct rdh; by eexists.
Qed.

(** X20: a user gesture and a referrer visited before can only lower the
    verdict of [IsDangerousFile]: a file that is found dangerous with both
    is found dangerous whatever the gesture and the referrer history are,
    for the same suggested path and extension-install mark. *)
Theorem IsDangerousFile_gesture_only_lowers
    s d st1 st2 visited2 prefs prof :
  extension_contract →
  download_prefs_ s = Some prefs → profile_ s = Some prof →
  suggested_path st1 = suggested_path st2 →
  is_extension_install st1 = is_extension_install st2 →
  has_user_gesture st1 = true →
  IsDangerousFile d st1 true s = Ok true s →
  IsDangerousFile d st2 visited2 s = Ok true s.
Proof.
  intros Hext Hprefs Hprof Hpath Hinstall Hgesture.
  destruct (ShouldOpenFileBasedOnExtension_total s prefs (suggested_path st1))
    as [auto_open Hauto]; [done..|].
  unfold IsDangerousFile.
  rewrite (bind_Ok _ _ s auto_open s) by done.
  rewrite <- Hpath, <- Hinstall.
  rewrite (bind_Ok _ _ s auto_open s) by done.
  rewrite Hgesture. munfold.
  destruct (GetFileDangerLevel _), (has_user_gesture st2), visited2,
    auto_open, (is_extension_install st1); simpl;
    repeat case_bool_decide; simpl; rewrite ?Hprof; simpl; try done;
    try (destruct (_ || _); done).
Qed.

End lifecycle.

Section response_errors.
Context {cfg : Config}.
Implicit Types (s : DownloadManager).

(** X22: a response that completes with an error other than
    ERR_CONNECTION_CLOSED is handled by [OnDownloadError].  The Record
    becomes interrupted and the FILE thread is told to cancel; a Record
    without a durable handle stays in [active_downloads_] and
    [in_progress_], one with a handle leaves both and is sent to the
    history service.  The Record is never deleted and never leaves
    [downloads_] or [history_downloads_]. *)
Theorem OnResponseCompleted_error_interrupts
    s download_id size os_error hash download d :
  active_downloads_ s !! download_id = Some download →
  heap s !! download = Some d →
  os_error ≠ 0 → os_error ≠ ERR_CONNECTION_CLOSED →
  let d' := Item.Interrupted size os_error d in
  OnResponseCompleted download_id size os_error hash s
  = OnDownloadError download_id size os_error s
  ∧ (db_handle d = kUninitializedHandle →
     OnDownloadError download_id size os_error s
     = Ok tt (set_trace
                (λ t, t ++ [PostFileTask (CancelDownload download_id)])
                (set_heap <[download := d']> s)))
  ∧ (db_handle d ≠ kUninitializedHandle → is_Some (download_history_ s) →
     ∃ s',
       OnDownloadError download_id size os_error s = Ok tt s'
       ∧ heap s' = <[download := d']> (heap s)
       ∧ active_downloads_ s' = delete download_id (active_downloads_ s)
       ∧ in_progress_ s' = delete download_id (in_progress_ s)
       ∧ history_downloads_ s' = history_downloads_ s
       ∧ downloads_ s' = downloads_ s
       ∧ trace s'
         = trace s ++ app_icon_events s
           ++ [HistoryUpdateEntry download d';
               PostFileTask (CancelDownload download_id)]).
Proof.
  intros Hact Hd H0 Hclosed d'. split_and!.
  - unfold OnResponseCompleted.
    by rewrite !bool_decide_eq_false_2 by done.
  - intros Hh. unfold OnDownloadError. munfold. rewrite Hact. simpl.
    rewrite Hd. simpl. rewrite lookup_insert_eq. simpl.
    rewrite (bool_decide_eq_false_2 (_ ≠ _)) by (intros Hne; by apply Hne).
    simpl. reflexivity.
  - intros Hh [n Hn]. unfold OnDownloadError, app_icon_events. munfold.
    rewrite Hact. simpl. rewrite Hd. simpl. rewrite lookup_insert_eq. simpl.
    rewrite (bool_decide_eq_true_2 (_ ≠ _)) by done. simpl.
    destruct (status_updater_ s); simpl; rewrite Hn; simpl;
      rewrite lookup_insert_eq; simpl; eexists; (split; [reflexivity|]);
      simpl; split_and!; try done;
      repeat (progress (rewrite <- ?app_assoc; simpl)); reflexivity.
Qed.

End response_errors.

Section ownership.
Context {cfg : Config}.
Implicit Types (s : DownloadManager).

Lemma keeps_bind {A B} (m : M A) (f : A → M B) :
  keeps m → (∀ a, keeps (f a)) → keeps (m ≫= f).
Proof.
  intros Hm Hf s Hs. apply wlp_bind. eapply wlp_mono; [by apply Hm|].
  intros a s' Hs'. by apply Hf.
Qed.

Lemma keeps_ret {A} (a : A) : keeps (mret a).
Proof. by intros s Hs. Qed.

Lemma keeps_crash {A} e : keeps (crash (A:=A) e).
Proof. by intros s Hs. Qed.

Lemma keeps_reader {A} (m : M A) :
  (∀ s, wlp m (λ _ s', s' = s) s) → keeps m.
Proof.
  intros Hm s Hs. eapply wlp_mono; [apply Hm|]. by intros _ ? ->.
Qed.

Lemma keeps_get : keeps get.
Proof. by intros s Hs. Qed.

Lemma keeps_DCHECK b : keeps (DCHECK b).
Proof. intros s Hs. by apply wlp_DCHECK. Qed.

Lemma keeps_CHECK b : keeps (CHECK b).
Proof. intros s Hs. by apply wlp_CHECK. Qed.

Lemma keeps_deref p : keeps (deref p).
Proof. intros s Hs. by apply wlp_deref. Qed.

Lemma keeps_the_history : keeps the_history.
Proof. intros s Hs. by apply wlp_the_history. Qed.

Lemma keeps_the_prefs : keeps the_prefs.
Proof. intros s Hs. by apply wlp_the_prefs. Qed.

Lemma keeps_the_profile : keeps the_profile.
Proof. intros s Hs. by apply wlp_the_profile. Qed.

(** A field update that touches neither the free store nor the master
    collection. *)
Lemma keeps_frame f :
  (∀ s, heap (f s) = heap s ∧ downloads_ (f s) = downloads_ s) →
  keeps (modify f).
Proof.
  intros Hf s Hs. apply wlp_modify. unfold owned_live.
  destruct (Hf s) as [-> ->]. done.
Qed.

Lemma keeps_emit e : keeps (emit e).
Proof. by apply keeps_frame. Qed.

Lemma owned_live_update s p d d' :
  heap s !! p = Some d → owned_live s →
  owned_live (set_heap <[p := d']> s).
Proof.
  intros Hd [Hnull Hlive]. split; simpl.
  - rewrite lookup_insert_ne; [done|]. intros ->. congruence.
  - intros q Hq. destruct (decide (q = p)) as [->|Hne].
    + rewrite lookup_insert_eq. eauto.
    + rewrite lookup_insert_ne by done. by apply Hlive.
Qed.

Lemma keeps_update p f : keeps (update p f).
Proof.
  intros s Hs. apply wlp_update. intros d Hd.
  by eapply owned_live_update.
Qed.

Lemma owned_live_new s p d :
  p ≠ NULL → owned_live s → owned_live (set_heap <[p := d]> s).
Proof.
  intros Hp [Hnull Hlive]. split; simpl.
  - by rewrite lookup_insert_ne.
  - intros q Hq. destruct (decide (q = p)) as [->|Hne].
    + rewrite lookup_insert_eq. eauto.
    + rewrite lookup_insert_ne by done. by apply Hlive.
Qed.

Lemma keeps_new d : keeps (new d).
Proof.
  intros s Hs. apply wlp_new. intros p Hnn Hp. by apply owned_live_new.
Qed.

(** Erasing from the master collection. *)
Lemma keeps_erase (X : gset ptr) :
  keeps (modify (set_downloads (λ Y, Y ∖ X))).
Proof.
  intros s [Hnull Hlive]. apply wlp_modify. split; [done|]. simpl.
  intros p Hp. apply Hlive. set_solver.
Qed.

Lemma keeps_clear : keeps (modify (set_downloads (λ _, ∅))).
Proof.
  intros s [Hnull Hlive]. apply wlp_modify. split; [done|]. simpl.
  set_solver.
Qed.

Lemma keeps_for_each {A} (l : list A) (body : A → M unit) :
  (∀ x, x ∈ l → keeps (body x)) → keeps (for_each l body).
Proof.
  induction l as [|x l IH]; intros Hbody; simpl.
  - apply keeps_ret.
  - apply keeps_bind; [apply Hbody; set_solver|].
    intros _. apply IH. intros y Hy. apply Hbody. set_solver.
Qed.

End ownership.

Ltac keeps_step :=
  lazymatch goal with
  | |- keeps (mbind _ _) => apply keeps_bind; [|intros ?]
  | |- keeps (mret _) => apply keeps_ret
  | |- keeps (crash _) => apply keeps_crash
  | |- keeps get => apply keeps_get
  | |- keeps (DCHECK _) => apply keeps_DCHECK
  | |- keeps (CHECK _) => apply keeps_CHECK
  | |- keeps (deref _) => apply keeps_deref
  | |- keeps the_history => apply keeps_the_history
  | |- keeps the_prefs => apply keeps_the_prefs
  | |- keeps the_profile => apply keeps_the_profile
  | |- keeps (emit _) => apply keeps_emit
  | |- keeps NotifyModelChanged => apply keeps_emit
  | |- keeps (modify (set_downloads (λ _, ∅))) => apply keeps_clear
  | |- keeps (modify (set_downloads (λ X, X ∖ _))) => apply keeps_erase
  | |- keeps (modify _) => apply keeps_frame; by intros ?
  | |- keeps (update _ _) => apply keeps_update
  | |- keeps (new _) => apply keeps_new
  | |- keeps (for_each _ _) => apply keeps_for_each; intros ? ?
  | |- keeps (if ?b then _ else _) => destruct b
  | |- keeps (match ?x with _ => _ end) => destruct x
  | |- keeps (let _ := _ in _) => cbv zeta
  | |- keeps UpdateAppIcon => unfold UpdateAppIcon
  | |- keeps (history_AddEntry _) => unfold history_AddEntry
  | |- keeps (history_UpdateEntry _) => unfold history_UpdateEntry
  | |- keeps (history_RemoveEntry _) => unfold history_RemoveEntry
  | |- keeps (history_UpdateDownloadPath _ _) =>
      unfold history_UpdateDownloadPath
  | |- keeps (history_RemoveEntriesBetween _ _) =>
      unfold history_RemoveEntriesBetween
  | |- keeps (history_CheckVisitedReferrerBefore _ _) =>
      unfold history_CheckVisitedReferrerBefore
  | |- keeps history_GetNextFakeDbHandle =>
      unfold history_GetNextFakeDbHandle
  | |- keeps (active_downloads_index _) => unfold active_downloads_index
  | |- keeps (GetActiveDownloadItem _) => unfold GetActiveDownloadItem
  | |- keeps (DownloadCancelledInternal _ _) =>
      unfold DownloadCancelledInternal
  | |- keeps (ShowDownloadInBrowser _) => unfold ShowDownloadInBrowser
  | |- keeps (CheckDownloadHashDone _ _) => unfold CheckDownloadHashDone
  | |- keeps (IsDownloadReadyForCompletion _) =>
      unfold IsDownloadReadyForCompletion
  | |- keeps (MaybeCompleteDownload _) => unfold MaybeCompleteDownload
  | |- keeps (ContinueDownloadWithPath _ _) =>
      unfold ContinueDownloadWithPath
  | |- keeps (ShouldOpenFileBasedOnExtension _) =>
      unfold ShouldOpenFileBasedOnExtension
  | |- keeps (IsDangerousFile _ _ _) => unfold IsDangerousFile
  | |- keeps (CheckVisitedReferrerBeforeDone_state _ _) =>
      unfold CheckVisitedReferrerBeforeDone_state
  | |- keeps (CheckForFileRemoval _) => unfold CheckForFileRemoval
  | |- keeps (OnAllDataSaved _ _ _) => unfold OnAllDataSaved
  | |- keeps (OnDownloadError _ _ _) => unfold OnDownloadError
  | |- keeps (DownloadCancelled _) => unfold DownloadCancelled
  | |- keeps (CheckDownloadUrlDone _ _) => unfold CheckDownloadUrlDone
  | |- keeps (AddDownloadItemToHistory _ _) =>
      unfold AddDownloadItemToHistory
  | |- keeps (AssertQueueStateConsistent _) =>
      unfold AssertQueueStateConsistent
  | |- keeps (AssertContainersConsistent) =>
      unfold AssertContainersConsistent
  end.

Ltac keeps_auto := repeat keeps_step.

Ltac as_keeps :=
  match goal with
  | |- ∀ s, owned_live s → wlp ?m _ s => change (keeps m)
  end.

Section ownership_calls.
Context {cfg : Config}.
Implicit Types (s : DownloadManager).

Lemma GetDownloadItem_scan_keeps l i : keeps (GetDownloadItem_scan l i).
Proof. induction l as [|[h p] l IH]; simpl; keeps_auto. apply IH. Qed.

Lemma GetDownloadItem_keeps i : keeps (GetDownloadItem i).
Proof. unfold GetDownloadItem. keeps_auto. apply GetDownloadItem_scan_keeps. Qed.

Lemma CreateDownloadItem_keeps info : keeps (CreateDownloadItem info).
Proof.
  intros s Hs. unfold CreateDownloadItem. wlp_all.
  destruct (owned_live_new s p
              (Item.Create info (IsOffTheRecord x)) ltac:(done) Hs)
    as [Hnull Hlive].
  split; [done|]. simpl in *. intros q [->%elem_of_singleton|Hq]%elem_of_union.
  - rewrite lookup_insert_eq. eauto.
  - by apply Hlive.
Qed.

Lemma RemoveDownload_keeps h : keeps (RemoveDownload h).
Proof.
  intros s [Hnull Hlive]. unfold RemoveDownload. apply wlp_bind, wlp_get.
  destruct (history_downloads_ s !! h) as [p|] eqn:Hp; [|done].
  unfold history_RemoveEntry. wlp_all.
  - split; [done|]. simpl. intros q Hq. apply Hlive. set_solver.
  - split; simpl.
    + by rewrite lookup_delete_ne.
    + intros q Hq. rewrite lookup_delete_ne by set_solver.
      apply Hlive. set_solver.
Qed.

Lemma DownloadItem_Delete_keeps r p : keeps (DownloadItem_Delete r p).
Proof. unfold DownloadItem_Delete. keeps_auto. apply RemoveDownload_keeps. Qed.

Lemma DownloadItem_Cancel_keeps b p : keeps (DownloadItem_Cancel b p).
Proof. unfold DownloadItem_Cancel. keeps_auto. Qed.

Lemma SavePageAsDownloadStarted_keeps download :
  keeps (SavePageAsDownloadStarted download).
Proof.
  intros s [Hnull Hlive].
  unfold SavePageAsDownloadStarted, AddDownloadItemToHistory.
  wlp_all.
  all: split; simpl in *;
    [rewrite lookup_insert_ne; [done|]; intros ->; congruence|].
  all: intros q Hq; destruct (decide (q = download)) as [->|Hne];
    [rewrite lookup_insert_eq; eauto|];
    rewrite lookup_insert_ne by done; apply Hlive; set_solver.
Qed.

Lemma OnQueryDownloadEntriesComplete_keeps no_id entries :
  keeps (OnQueryDownloadEntriesComplete no_id entries).
Proof.
  unfold OnQueryDownloadEntriesComplete.
  apply keeps_bind; [|intros _; unfold CheckForHistoryFilesRemoval;
                      keeps_auto].
  apply keeps_for_each. intros e _ s Hs. wlp_all.
  match goal with
  | Hp : ?p ≠ NULL |- _ =>
      destruct (owned_live_new s p (Item.Restore no_id e) Hp Hs)
        as [Hnull Hlive]
  end.
  split; [done|]. simpl in *.
  intros q [->%elem_of_singleton|Hq]%elem_of_union.
  - rewrite lookup_insert_eq. eauto.
  - by apply Hlive.
Qed.

Lemma for_each_delete_keeps (l : list ptr) s :
  owned_live s → (∀ p, p ∈ l → p ∉ downloads_ s) →
  wlp (for_each l delete_) (λ _ s', owned_live s') s.
Proof.
  revert s. induction l as [|p l IH]; intros s Hs Hl; simpl; [done|].
  apply wlp_bind, wlp_delete.
  - intros ->. apply IH; [done|]. intros q Hq. apply Hl. set_solver.
  - intros Hnn _. apply IH.
    + destruct Hs as [Hnull Hlive]. split; simpl.
      * by rewrite lookup_delete_ne.
      * intros q Hq. rewrite lookup_delete_ne; [by apply Hlive|].
        intros ->. apply (Hl q); [set_solver|done].
    + intros q Hq. simpl. apply Hl. set_solver.
Qed.

Lemma AssertQueueStateConsistent_keeps p :
  keeps (AssertQueueStateConsistent p).
Proof. keeps_auto. Qed.

Lemma RemoveDownloadsBetween_scan_keeps l b e pending :
  keeps (RemoveDownloadsBetween_scan l b e pending).
Proof.
  revert pending. induction l as [|[h p] l IH]; intros pending; simpl.
  - apply keeps_ret.
  - apply keeps_bind; [apply keeps_deref|intros d].
    destruct (in_removal_range b e d); [|apply IH].
    apply keeps_bind; [apply AssertQueueStateConsistent_keeps|intros ?].
    apply keeps_bind; [apply keeps_frame; by intros ?|intros ?]. apply IH.
Qed.

Lemma foldl_erase_not_elem (l : list ptr) (X : gset ptr) p :
  p ∈ foldl (λ X p, X ∖ {[p]}) X l ↔ p ∈ X ∧ p ∉ l.
Proof.
  revert X. induction l as [|q l IH]; intros X; simpl.
  - set_solver.
  - rewrite IH. set_solver.
Qed.

Lemma RemoveDownloadsBetween_keeps b e : keeps (RemoveDownloadsBetween b e).
Proof.
  intros s Hs. unfold RemoveDownloadsBetween, history_RemoveEntriesBetween.
  apply wlp_bind, wlp_bind, wlp_the_history. intros n Hn.
  apply wlp_emit, wlp_bind, wlp_get, wlp_bind.
  eapply wlp_mono.
  { apply RemoveDownloadsBetween_scan_keeps. by apply keeps_emit. }
  intros pending s2 Hs2. simpl.
  case_bool_decide; [done|].
  apply wlp_bind. unfold wlp at 1. rewrite for_each_erase_downloads.
  apply wlp_bind, wlp_emit, wlp_bind.
  eapply wlp_mono; [apply for_each_delete_keeps|].
  - destruct Hs2 as [Hnull Hlive]. split; [done|]. simpl.
    intros q [Hq _]%foldl_erase_not_elem. by apply Hlive.
  - simpl. intros q Hq [_ Hin]%foldl_erase_not_elem. by apply Hin.
  - done.
Qed.

Lemma Shutdown_visit_keeps p : keeps (Shutdown_visit p).
Proof.
  unfold Shutdown_visit.
  apply keeps_bind; [apply keeps_deref|intros d].
  destruct (_ && _); [apply DownloadItem_Delete_keeps|].
  destruct (IsPartialDownload d); [|apply keeps_ret].
  apply keeps_bind; [apply DownloadItem_Cancel_keeps|intros ?].
  keeps_auto.
Qed.

Lemma Shutdown_loop_keeps l : keeps (Shutdown_loop l).
Proof.
  induction l as [|p l IH]; simpl; [apply keeps_ret|].
  intros s Hs. apply wlp_bind, wlp_get.
  case_bool_decide; [|by apply IH].
  apply wlp_bind. eapply wlp_mono; [by apply Shutdown_visit_keeps|].
  intros [] s1 Hs1. apply wlp_bind, wlp_get.
  destruct (head _); [|by apply IH].
  case_bool_decide; [by apply IH|done].
Qed.

Lemma Shutdown_keeps : keeps Shutdown.
Proof.
  intros s Hs. unfold Shutdown. apply wlp_bind, wlp_get.
  destruct (shutdown_needed_ s); simpl; [|done].
  remember (file_manager_ s) as fm eqn:Hfm.
  remember (set_entries (downloads_ s)) as l eqn:Hl. clear Hfm Hl.
  revert s Hs. as_keeps.
  do 5 (apply keeps_bind;
        [first [apply Shutdown_loop_keeps|keeps_auto]|intros ?]).
  intros s Hs. apply wlp_bind, wlp_get.
  do 4 apply wlp_bind, wlp_modify.
  apply wlp_bind.
  match goal with
  | |- wlp ?m _ ?s0 =>
      apply (wlp_mono m (λ _ s', owned_live s' ∧ downloads_ s' = ∅))
  end.
  { destruct Hs as [Hnull Hlive].
    destruct debug_build; wlp_all; (split; [split; [done|]|done]);
      simpl; set_solver. }
  intros [] s1 [Hs1 He]. apply wlp_bind.
  eapply wlp_mono;
    [apply for_each_delete_keeps; [done|rewrite He; set_solver]|].
  intros [] s2 Hs2. revert s2 Hs2. as_keeps. keeps_auto.
Qed.

Lemma run_call_keeps c : keeps (run_call c).
Proof.
  destruct c; unfold run_call.
  - unfold Init. keeps_auto.
  - apply Shutdown_keeps.
  - unfold StartDownload. keeps_auto.
  - keeps_auto.
  - unfold CheckVisitedReferrerBeforeDone. keeps_auto.
  - unfold OnPathExistenceAvailable. keeps_auto.
  - apply CreateDownloadItem_keeps.
  - unfold FileSelected. keeps_auto.
  - unfold FileSelectionCanceled. keeps_auto.
  - unfold UpdateDownload. keeps_auto.
  - unfold OnResponseCompleted. keeps_auto.
  - keeps_auto.
  - keeps_auto.
  - keeps_auto.
  - keeps_auto.
  - unfold DownloadCompleted.
    apply keeps_bind; [apply GetDownloadItem_keeps|intros ?]. keeps_auto.
  - unfold OnDownloadRenamedToFinalName.
    apply keeps_bind; [apply GetDownloadItem_keeps|intros ?]. keeps_auto.
  - keeps_auto.
  - apply RemoveDownload_keeps.
  - apply keeps_bind; [apply RemoveDownloadsBetween_keeps|intros ?].
    apply keeps_ret.
  - apply keeps_bind; [apply RemoveDownloadsBetween_keeps|intros ?].
    apply keeps_ret.
  - apply SavePageAsDownloadStarted_keeps.
  - apply OnQueryDownloadEntriesComplete_keeps.
  - unfold OnCreateDownloadEntryComplete. keeps_auto.
  - unfold OnFileRemovalDetected. keeps_auto.
  - unfold ClearLastDownloadPath. keeps_auto.
  - unfold CheckForHistoryFilesRemoval. keeps_auto.
  - keeps_auto.
  - apply DownloadItem_Cancel_keeps.
  - apply DownloadItem_Delete_keeps.
  - apply keeps_update.
  - keeps_auto.
Qed.

(** X21: [downloads_] never holds a null or a dangling pointer.  This holds
    when the manager is constructed, every entry point that returns keeps
    it, and so in every reachable state each element of [downloads_] is not
    NULL and leads to a Record. *)
Theorem downloads_never_dangle :
  (∀ status_updater, owned_live (DownloadManager_ctor status_updater))
  ∧ (∀ c s s', owned_live s → run_call c s = Ok tt s' → owned_live s')
  ∧ (∀ s p, reachable s → p ∈ downloads_ s →
            p ≠ NULL ∧ is_Some (heap s !! p)).
Proof.
  assert (∀ c s s', owned_live s → run_call c s = Ok tt s' → owned_live s')
    as Hstep.
  { intros c s s' Hs Hrun. pose proof (run_call_keeps c s Hs) as Hwlp.
    unfold wlp in Hwlp. by rewrite Hrun in Hwlp. }
  assert (∀ b, owned_live (DownloadManager_ctor b)) as Hctor.
  { intros b. split; [done|]. simpl. set_solver. }
  split; [done|]. split; [done|].
  intros s p Hs Hp.
  assert (owned_live s) as [Hnull Hlive].
  { clear p Hp. induction Hs as [b|s c s' _ IH _ Hrun]; [done|].
    by eapply Hstep. }
  split; [|by apply Hlive]. intros ->. apply Hlive in Hp as [d Hd].
  congruence.
Qed.

End ownership_calls.

(** * Uniqueness of the durable handles *)

Section handle_uniqueness.
Context {cfg : Config}.
Implicit Types (s : DownloadManager).

Lemma wlp_and {A} (m : M A) (P Q : A → DownloadManager → Prop) s :
  wlp m P s → wlp m Q s → wlp m (λ a s', P a s' ∧ Q a s') s.
Proof. unfold wlp. by destruct (m s). Qed.

Lemma files_bind {A B} (m : M A) (f : A → M B) :
  files m → (∀ a, files (f a)) → files (m ≫= f).
Proof.
  intros Hm Hf s Hs. apply wlp_bind. eapply wlp_mono; [by apply Hm|].
  intros a s' Hs'. by apply Hf.
Qed.

Lemma files_ret {A} (a : A) : files (mret a).
Proof. by intros s Hs. Qed.

Lemma files_crash {A} e : files (crash (A:=A) e).
Proof. by intros s Hs. Qed.

Lemma files_get : files get.
Proof. by intros s Hs. Qed.

Lemma files_DCHECK b : files (DCHECK b).
Proof. intros s Hs. by apply wlp_DCHECK. Qed.

Lemma files_CHECK b : files (CHECK b).
Proof. intros s Hs. by apply wlp_CHECK. Qed.

Lemma files_deref p : files (deref p).
Proof. intros s Hs. by apply wlp_deref. Qed.

Lemma files_the_history : files the_history.
Proof. intros s Hs. by apply wlp_the_history. Qed.

Lemma files_the_prefs : files the_prefs.
Proof. intros s Hs. by apply wlp_the_prefs. Qed.

Lemma files_the_profile : files the_profile.
Proof. intros s Hs. by apply wlp_the_profile. Qed.

Lemma handles_ok_same s s' : same_handles s s' → handles_ok s → handles_ok s'.
Proof.
  intros (Hh & Hd & Hi & Hn & Hf).
  unfold handles_ok, owned_live, history_index_ok, handles_filed,
    fakes_issued, history_while_needed.
  by rewrite Hh, Hd, Hi, Hn, Hf.
Qed.

Lemma files_frame f : (∀ s, same_handles s (f s)) → files (modify f).
Proof.
  intros Hf s Hs. apply wlp_modify. by eapply handles_ok_same.
Qed.

Lemma files_emit e : files (emit e).
Proof. by apply files_frame. Qed.

Lemma handles_ok_update s p d d' :
  heap s !! p = Some d → db_handle d' = db_handle d →
  handles_ok s → handles_ok (set_heap <[p := d']> s).
Proof.
  intros Hd Hdb (Ho & Hi & H2 & H3 & H4). split_and!; try done.
  - by eapply owned_live_update.
  - intros h q Hq. destruct (Hi h q Hq) as (Hne & dq & Hdq & Hh).
    split; [done|]. simpl. destruct (decide (q = p)) as [->|Hqp].
    + exists d'. rewrite lookup_insert_eq. split; [done|]. congruence.
    + exists dq. by rewrite lookup_insert_ne.
  - intros q dq Hq Hdq Hne. simpl in *.
    destruct (decide (q = p)) as [->|Hqp].
    + rewrite lookup_insert_eq in Hdq. simplify_eq. rewrite Hdb in *.
      by apply (H2 p d).
    + rewrite lookup_insert_ne in Hdq by done. by apply (H2 q dq).
Qed.

Lemma files_update p f :
  (∀ d, db_handle (f d) = db_handle d) → files (update p f).
Proof.
  intros Hf s Hs. apply wlp_update. intros d Hd.
  by eapply handles_ok_update.
Qed.

Lemma handles_ok_new s p d :
  p ≠ NULL → heap s !! p = None →
  handles_ok s → handles_ok (set_heap <[p := d]> s).
Proof.
  intros Hp Hfresh (Ho & Hi & H2 & H3 & H4). split_and!; try done.
  - by apply owned_live_new.
  - intros h q Hq. destruct (Hi h q Hq) as (Hne & dq & Hdq & Hh).
    split; [done|]. exists dq. simpl. rewrite lookup_insert_ne; [done|].
    intros ->. congruence.
  - intros q dq Hq Hdq Hne. simpl in *.
    destruct Ho as [_ Hlive]. destruct (Hlive q Hq) as [dq' Hdq'].
    rewrite lookup_insert_ne in Hdq by (intros ->; congruence).
    by apply (H2 q dq).
Qed.

Lemma files_new d : files (new d).
Proof.
  intros s Hs. apply wlp_new. intros p Hnn Hp. by apply handles_ok_new.
Qed.

Lemma files_for_each {A} (l : list A) (body : A → M unit) :
  (∀ x, x ∈ l → files (body x)) → files (for_each l body).
Proof.
  induction l as [|x l IH]; intros Hbody; simpl.
  - apply files_ret.
  - apply files_bind; [apply Hbody; set_solver|].
    intros _. apply IH. intros y Hy. apply Hbody. set_solver.
Qed.

End handle_uniqueness.

Ltac files_step :=
  lazymatch goal with
  | |- files (mbind _ _) => apply files_bind; [|intros ?]
  | |- files (mret _) => apply files_ret
  | |- files (crash _) => apply files_crash
  | |- files get => apply files_get
  | |- files (DCHECK _) => apply files_DCHECK
  | |- files (CHECK _) => apply files_CHECK
  | |- files (deref _) => apply files_deref
  | |- files the_history => apply files_the_history
  | |- files the_prefs => apply files_the_prefs
  | |- files the_profile => apply files_the_profile
  | |- files (emit _) => apply files_emit
  | |- files NotifyModelChanged => apply files_emit
  | |- files (modify _) => apply files_frame; by intros ?
  | |- files (update _ _) => apply files_update; by intros ?
  | |- files (new _) => apply files_new
  | |- files (for_each _ _) => apply files_for_each; intros ? ?
  | |- files (if ?b then _ else _) => destruct b
  | |- files (match ?x with _ => _ end) => destruct x
  | |- files (let _ := _ in _) => cbv zeta
  | |- files UpdateAppIcon => unfold UpdateAppIcon
  | |- files (history_AddEntry _) => unfold history_AddEntry
  | |- files (history_UpdateEntry _) => unfold history_UpdateEntry
  | |- files (history_RemoveEntry _) => unfold history_RemoveEntry
  | |- files (history_UpdateDownloadPath _ _) =>
      unfold history_UpdateDownloadPath
  | |- files (history_RemoveEntriesBetween _ _) =>
      unfold history_RemoveEntriesBetween
  | |- files (history_CheckVisitedReferrerBefore _ _) =>
      unfold history_CheckVisitedReferrerBefore
  | |- files (active_downloads_index _) => unfold active_downloads_index
  | |- files (GetActiveDownloadItem _) => unfold GetActiveDownloadItem
  | |- files (DownloadCancelledInternal _ _) =>
      unfold DownloadCancelledInternal
  | |- files (ShowDownloadInBrowser _) => unfold ShowDownloadInBrowser
  | |- files (CheckDownloadHashDone _ _) => unfold CheckDownloadHashDone
  | |- files (IsDownloadReadyForCompletion _) =>
      unfold IsDownloadReadyForCompletion
  | |- files (MaybeCompleteDownload _) => unfold MaybeCompleteDownload
  | |- files (ContinueDownloadWithPath _ _) =>
      unfold ContinueDownloadWithPath
  | |- files (ShouldOpenFileBasedOnExtension _) =>
      unfold ShouldOpenFileBasedOnExtension
  | |- files (IsDangerousFile _ _ _) => unfold IsDangerousFile
  | |- files (CheckVisitedReferrerBeforeDone_state _ _) =>
      unfold CheckVisitedReferrerBeforeDone_state
  | |- files (CheckForFileRemoval _) => unfold CheckForFileRemoval
  | |- files (OnAllDataSaved _ _ _) => unfold OnAllDataSaved
  | |- files (OnDownloadError _ _ _) => unfold OnDownloadError
  | |- files (DownloadCancelled _) => unfold DownloadCancelled
  | |- files (CheckDownloadUrlDone _ _) => unfold CheckDownloadUrlDone
  | |- files (AssertQueueStateConsistent _) =>
      unfold AssertQueueStateConsistent
  end.

Ltac files_auto := repeat files_step.

Ltac as_files :=
  match goal with
  | |- ∀ s, handles_ok s → wlp ?m _ s => change (files m)
  end.

Section handle_calls.
Context {cfg : Config}.
Implicit Types (s : DownloadManager).

Lemma GetDownloadItem_scan_files l i : files (GetDownloadItem_scan l i).
Proof. induction l as [|[h p] l IH]; simpl; files_auto. apply IH. Qed.

Lemma GetDownloadItem_files i : files (GetDownloadItem i).
Proof. unfold GetDownloadItem. files_auto. apply GetDownloadItem_scan_files. Qed.

Lemma AssertQueueStateConsistent_files p :
  files (AssertQueueStateConsistent p).
Proof. files_auto. Qed.

Lemma DownloadItem_Cancel_files b p : files (DownloadItem_Cancel b p).
Proof. unfold DownloadItem_Cancel. files_auto. Qed.

Lemma MaybeCompleteDownload_files p : files (MaybeCompleteDownload p).
Proof. files_auto. Qed.

(** Filing a Record that had no handle under a handle that is new to the
    durable index. *)
Lemma handles_ok_file s s' download d handle :
  handles_ok s → heap s !! download = Some d →
  db_handle d = kUninitializedHandle →
  handle ≠ kUninitializedHandle →
  history_downloads_ s !! handle = None →
  heap s' = <[download := Item.set_db_handle handle d]> (heap s) →
  history_downloads_ s' = <[handle := download]> (history_downloads_ s) →
  downloads_ s' = downloads_ s →
  shutdown_needed_ s' = shutdown_needed_ s →
  (download_history_ s' = download_history_ s
   ∧ ∀ k, handle ≠ fake_db_handle k)
  ∨ (fake_handles_unique
     ∧ ∃ n, download_history_ s = Some n
            ∧ download_history_ s' = Some (S n)
            ∧ handle = fake_db_handle n) →
  handles_ok s'.
Proof.
  intros ([Hnull Hlive] & Hi & H2 & H3 & H4) Hd Hdb Hhandle Hnew
    Hheap Hindex Hdl Hflag Hcounter.
  assert (download ≠ NULL) as Hnn by (intros ->; congruence).
  unfold handles_ok, owned_live, history_index_ok, handles_filed,
    fakes_issued, history_while_needed.
  rewrite Hheap, Hindex, Hdl, Hflag. split_and!.
  - by rewrite lookup_insert_ne.
  - intros q Hq. destruct (decide (q = download)) as [->|Hne].
    + rewrite lookup_insert_eq. eauto.
    + rewrite lookup_insert_ne by done. by apply Hlive.
  - intros h q Hq. destruct (decide (h = handle)) as [->|Hne].
    + rewrite lookup_insert_eq in Hq. simplify_eq. split; [done|].
      rewrite lookup_insert_eq. by eexists.
    + rewrite lookup_insert_ne in Hq by done.
      destruct (Hi h q Hq) as (Hh & dq & Hdq & Hdbq). split; [done|].
      exists dq. rewrite lookup_insert_ne; [done|]. intros ->. congruence.
  - intros q dq Hq Hdq Hne. destruct (decide (q = download)) as [->|Hqd].
    + rewrite lookup_insert_eq in Hdq. simplify_eq. simpl.
      by rewrite lookup_insert_eq.
    + rewrite lookup_insert_ne in Hdq by done.
      rewrite lookup_insert_ne; [by apply (H2 q dq)|].
      intros Heq. specialize (H2 q dq Hq Hdq Hne). congruence.
  - intros h q k Hq Hk. destruct (decide (h = handle)) as [->|Hne].
    + destruct Hcounter as [[_ Hreal]|(Hunique & n & Hn & Hn' & ->)].
      * by destruct (Hreal k).
      * exists (S n). split; [done|]. apply Hunique in Hk. lia.
    + rewrite lookup_insert_ne in Hq by done.
      destruct (H3 h q k Hq Hk) as (n0 & Hn0 & Hlt).
      destruct Hcounter as [[-> _]|(_ & n & Hn & -> & _)].
      * by exists n0.
      * exists (S n). split; [done|]. simplify_eq. lia.
  - intros Hfalse. specialize (H4 Hfalse).
    destruct Hcounter as [[-> _]|(_ & n & Hn & _)]; [done|congruence].
Qed.

Lemma AddDownloadItemToHistory_files download h0 s :
  fake_handles_unique →
  handles_ok s → no_handle_yet s download →
  h0 = kUninitializedHandle
  ∨ (real_handle h0 ∧ history_downloads_ s !! h0 = None) →
  wlp (AddDownloadItemToHistory download h0) (λ _ s', handles_ok s') s.
Proof.
  intros Hunique Hs Hnone Hh0. unfold AddDownloadItemToHistory.
  destruct (decide (h0 = kUninitializedHandle)) as [->|Hreal].
  - rewrite bool_decide_eq_true_2 by done.
    wlp_all. simplify_map_eq.
    match goal with
    | H : bool_decide (_ ≠ kUninitializedHandle) = true |- _ =>
        apply bool_decide_eq_true in H
    end.
    match goal with
    | Hn : download_history_ _ = Some ?n,
      Hd : heap _ !! download = Some ?d |- _ =>
        apply (handles_ok_file s _ download d (fake_db_handle n));
          try done; [by apply Hnone| |right; eauto];
          destruct Hs as (_ & _ & _ & H3 & _);
          destruct (history_downloads_ s !! fake_db_handle n)
            as [q|] eqn:Hq; [|done];
          destruct (H3 _ q n Hq eq_refl) as (n0 & Hn0 & Hlt);
          simplify_eq; lia
    end.
  - destruct Hh0 as [?|[[Hne Hnofake] Hnew]]; [done|].
    rewrite bool_decide_eq_false_2 by done.
    wlp_all. simplify_map_eq.
    match goal with
    | Hd : heap _ !! download = Some ?d |- _ =>
        apply (handles_ok_file s _ download d h0);
          try done; [by apply Hnone|left; eauto]
    end.
Qed.

(** [downloads_] takes in a Record that has no handle. *)
Lemma handles_ok_adopt s s' p d :
  handles_ok s → heap s !! p = Some d →
  db_handle d = kUninitializedHandle →
  heap s' = heap s → history_downloads_ s' = history_downloads_ s →
  downloads_ s' = {[p]} ∪ downloads_ s →
  download_history_ s' = download_history_ s →
  shutdown_needed_ s' = shutdown_needed_ s →
  handles_ok s'.
Proof.
  intros ([Hnull Hlive] & Hi & H2 & H3 & H4) Hd Hdb Hheap Hindex Hdl Hn
    Hflag.
  unfold handles_ok, owned_live, history_index_ok, handles_filed,
    fakes_issued, history_while_needed.
  rewrite Hheap, Hindex, Hdl, Hn, Hflag. split_and!; try done.
  - intros q [->%elem_of_singleton|Hq]%elem_of_union; [eauto|].
    by apply Hlive.
  - intros q dq [->%elem_of_singleton|Hq]%elem_of_union Hdq Hne.
    + congruence.
    + by apply (H2 q dq).
Qed.

Lemma CreateDownloadItem_files info : files (CreateDownloadItem info).
Proof.
  intros s Hs. unfold CreateDownloadItem. wlp_all.
  match goal with
  | |- handles_ok
         (set_active_downloads _
            (set_downloads _ (set_heap <[?p := ?d]> _))) =>
      apply (handles_ok_adopt (set_heap <[p := d]> s) _ p d);
        [by apply handles_ok_new|apply lookup_insert_eq|done..]
  end.
Qed.

Lemma AddDownloadItemToHistory_dead download h0 s
    (Q : unit → DownloadManager → Prop) :
  heap s !! download = None →
  wlp (AddDownloadItemToHistory download h0) Q s.
Proof.
  intros Hdead. unfold AddDownloadItemToHistory. wlp_all.
  all: simpl in *; congruence.
Qed.

Lemma SavePageAsDownloadStarted_files download s :
  fake_handles_unique →
  handles_ok s → no_handle_yet s download →
  wlp (SavePageAsDownloadStarted download) (λ _ s', handles_ok s') s.
Proof.
  intros Hunique Hs Hnone. unfold SavePageAsDownloadStarted.
  apply wlp_bind.
  apply (wlp_mono _ (λ _ s1, same_handles s s1)).
  { destruct debug_build; wlp_all; done. }
  intros [] s1 Hsame. apply wlp_bind, wlp_modify, wlp_bind.
  assert (handles_ok s1) as Hs1 by by eapply handles_ok_same.
  assert (no_handle_yet s1 download) as Hnone1.
  { destruct Hsame as (Hheap & _). unfold no_handle_yet.
    by rewrite Hheap. }
  destruct (heap s1 !! download) as [d|] eqn:Hd.
  - eapply wlp_mono.
    + apply AddDownloadItemToHistory_files; [done| |done|by left].
      by eapply (handles_ok_adopt s1 _ download d); [|try done; eauto..].
    + intros [] s2 Hs2. by apply files_emit.
  - by apply AddDownloadItemToHistory_dead.
Qed.

Lemma OnCreateDownloadEntryComplete_files i h0 s :
  fake_handles_unique →
  handles_ok s →
  (∀ p, active_downloads_ s !! i = Some p → no_handle_yet s p) →
  h0 = kUninitializedHandle
  ∨ (real_handle h0 ∧ history_downloads_ s !! h0 = None) →
  wlp (OnCreateDownloadEntryComplete i h0) (λ _ s', handles_ok s') s.
Proof.
  intros Hunique Hs Hnone Hh0. unfold OnCreateDownloadEntryComplete.
  apply wlp_bind, wlp_GetActiveDownloadItem.
  - intros download Hact Hnn. case_bool_decide; [done|].
    apply wlp_bind. eapply wlp_mono;
      [apply AddDownloadItemToHistory_files; auto|].
    intros [] s1 Hs1. revert s1 Hs1.
    as_files. files_auto.
  - intros Hact Hdebug. rewrite bool_decide_eq_true_2 by done.
    apply wlp_ret. by eapply handles_ok_same.
Qed.

(** A Record leaves the durable index, [downloads_] and the free
    store. *)
Lemma handles_ok_remove s s' h p :
  handles_ok s → history_downloads_ s !! h = Some p →
  heap s' = delete p (heap s) →
  history_downloads_ s' = delete h (history_downloads_ s) →
  downloads_ s' = downloads_ s ∖ {[p]} →
  download_history_ s' = download_history_ s →
  shutdown_needed_ s' = shutdown_needed_ s →
  handles_ok s'.
Proof.
  intros ([Hnull Hlive] & Hi & H2 & H3 & H4) Hp Hheap Hindex Hdl Hn Hflag.
  destruct (Hi h p Hp) as (Hh & d & Hd & Hdb).
  unfold handles_ok, owned_live, history_index_ok, handles_filed,
    fakes_issued, history_while_needed.
  rewrite Hheap, Hindex, Hdl, Hn, Hflag. split_and!; try done.
  - rewrite lookup_delete_ne; [done|]. intros ->. congruence.
  - intros q [Hq Hne%not_elem_of_singleton]%elem_of_difference.
    rewrite lookup_delete_ne by done. by apply Hlive.
  - intros h' q [Hne Hq]%lookup_delete_Some.
    destruct (Hi h' q Hq) as (Hh' & dq & Hdq & Hdbq). split; [done|].
    exists dq. rewrite lookup_delete_ne; [done|]. intros ->. congruence.
  - intros q dq [Hq Hne%not_elem_of_singleton]%elem_of_difference Hdq Hnu.
    rewrite lookup_delete_ne in Hdq by done.
    specialize (H2 q dq Hq Hdq Hnu).
    rewrite lookup_delete_ne; [done|]. intros Heq. congruence.
  - intros h' q k [Hne Hq]%lookup_delete_Some. by apply (H3 h' q k).
Qed.

Lemma RemoveDownload_files h : files (RemoveDownload h).
Proof.
  intros s Hs. unfold RemoveDownload. apply wlp_bind, wlp_get.
  destruct (history_downloads_ s !! h) as [p|] eqn:Hp; [|done].
  unfold history_RemoveEntry. wlp_all.
  - (* the null pointer is not in the durable index *)
    destruct Hs as ([Hnull _] & _). simplify_eq.
  - by eapply (handles_ok_remove s _ h p).
Qed.

Lemma DownloadItem_Delete_files r p : files (DownloadItem_Delete r p).
Proof. unfold DownloadItem_Delete. files_auto. apply RemoveDownload_files. Qed.

Lemma Init_files profile rdh s :
  handles_ok s → shutdown_needed_ s = false →
  wlp (Init profile rdh) (λ _ s', handles_ok s') s.
Proof.
  intros (Ho & Hi & H2 & H3 & H4) Hflag.
  specialize (H4 Hflag). unfold Init. wlp_all.
  all: unfold handles_ok, owned_live, history_index_ok, handles_filed,
    fakes_issued, history_while_needed in *; simpl.
  all: split_and!; try done; try apply Ho.
  all: intros h p k Hp Hk; destruct (H3 h p k Hp Hk) as (n & Hn & _);
    congruence.
Qed.

(** A replayed Record enters the free store, [downloads_] and the
    durable index. *)
Lemma handles_ok_replay s s' p d :
  handles_ok s → p ≠ NULL → heap s !! p = None →
  real_handle (db_handle d) →
  history_downloads_ s !! db_handle d = None →
  heap s' = <[p := d]> (heap s) →
  history_downloads_ s' = <[db_handle d := p]> (history_downloads_ s) →
  downloads_ s' = {[p]} ∪ downloads_ s →
  download_history_ s' = download_history_ s →
  shutdown_needed_ s' = shutdown_needed_ s →
  handles_ok s'.
Proof.
  intros ([Hnull Hlive] & Hi & H2 & H3 & H4) Hp Hfresh [Hreal Hnofake] Hnew
    Hheap Hindex Hdl Hn Hflag.
  unfold handles_ok, owned_live, history_index_ok, handles_filed,
    fakes_issued, history_while_needed.
  rewrite Hheap, Hindex, Hdl, Hn, Hflag. split_and!; try done.
  - by rewrite lookup_insert_ne.
  - intros q [->%elem_of_singleton|Hq]%elem_of_union.
    + rewrite lookup_insert_eq. eauto.
    + rewrite lookup_insert_ne; [by apply Hlive|].
      intros ->. apply Hlive in Hq as [? ?]. congruence.
  - intros h q Hq. destruct (decide (h = db_handle d)) as [->|Hne].
    + rewrite lookup_insert_eq in Hq. simplify_eq. split; [done|].
      rewrite lookup_insert_eq. by eexists.
    + rewrite lookup_insert_ne in Hq by done.
      destruct (Hi h q Hq) as (Hh & dq & Hdq & Hdbq). split; [done|].
      exists dq. rewrite lookup_insert_ne; [done|]. intros ->. congruence.
  - intros q dq [->%elem_of_singleton|Hq]%elem_of_union Hdq Hne.
    + rewrite lookup_insert_eq in Hdq. simplify_eq.
      by rewrite lookup_insert_eq.
    + destruct (Hlive q Hq) as [dq' Hdq'].
      rewrite lookup_insert_ne in Hdq by (intros ->; congruence).
      specialize (H2 q dq Hq Hdq Hne).
      rewrite lookup_insert_ne; [done|]. intros Heq. congruence.
  - intros h q k Hq Hk. destruct (decide (h = db_handle d)) as [->|Hne].
    + by destruct (Hnofake k).
    + rewrite lookup_insert_ne in Hq by done. by apply (H3 h q k).
Qed.

Lemma replay_loop_files no_id entries s :
  handles_ok s →
  NoDup (hi_db_handle <$> entries) →
  (∀ e, e ∈ entries →
        real_handle (hi_db_handle e)
        ∧ history_downloads_ s !! hi_db_handle e = None) →
  wlp (replay_loop no_id entries) (λ _ s', handles_ok s') s.
Proof.
  revert s. induction entries as [|e entries IH]; intros s Hs Hnd Hrows.
  - done.
  - rewrite fmap_cons in Hnd. apply NoDup_cons in Hnd as [He Hnd].
    destruct (Hrows e) as [Hreal Hnew]; [set_solver|].
    unfold replay_loop. cbn [for_each]. fold (replay_loop no_id entries).
    apply wlp_bind. wlp_all. simplify_map_eq.
    match goal with
    | |- wlp _ _ ?s1 => apply (IH s1)
    end.
    + match goal with
      | Hp : ?p ≠ NULL |- _ =>
          by apply (handles_ok_replay s _ p (Item.Restore no_id e))
      end.
    + done.
    + intros e' He'. destruct (Hrows e') as [Hreal' Hnew']; [set_solver|].
      split; [done|]. simpl. rewrite lookup_insert_ne; [done|].
      intros Heq. apply He. rewrite Heq.
      by apply list_elem_of_fmap_2.
Qed.

Lemma CheckForHistoryFilesRemoval_files : files CheckForHistoryFilesRemoval.
Proof. unfold CheckForHistoryFilesRemoval. files_auto. Qed.

Lemma OnQueryDownloadEntriesComplete_files no_id entries s :
  handles_ok s →
  NoDup (hi_db_handle <$> entries) →
  (∀ e, e ∈ entries →
        real_handle (hi_db_handle e)
        ∧ history_downloads_ s !! hi_db_handle e = None) →
  wlp (OnQueryDownloadEntriesComplete no_id entries)
    (λ _ s', handles_ok s') s.
Proof.
  intros Hs Hnd Hrows. unfold OnQueryDownloadEntriesComplete.
  apply wlp_bind. fold (replay_loop no_id entries).
  eapply wlp_mono; [by apply replay_loop_files|].
  intros [] s1 Hs1. revert s1 Hs1. as_files.
  apply files_bind; [apply files_emit|intros ?].
  apply CheckForHistoryFilesRemoval_files.
Qed.

(** What the scan of [RemoveDownloadsBetween] does to the fields that the
    handles depend on: it erases entries of the durable index, and the Record
    of each erased entry is pending. *)
Lemma RemoveDownloadsBetween_scan_relates l b e pending s :
  NoDup l.*1 →
  (∀ h p, (h, p) ∈ l → history_downloads_ s !! h = Some p) →
  wlp (RemoveDownloadsBetween_scan l b e pending)
    (λ pending' s',
       heap s' = heap s ∧ downloads_ s' = downloads_ s
       ∧ download_history_ s' = download_history_ s
       ∧ shutdown_needed_ s' = shutdown_needed_ s
       ∧ (∀ h q, history_downloads_ s' !! h = Some q →
                 history_downloads_ s !! h = Some q)
       ∧ (∀ h q, history_downloads_ s !! h = Some q →
                 history_downloads_ s' !! h = Some q ∨ q ∈ pending')
       ∧ (∀ q, q ∈ pending → q ∈ pending')) s.
Proof.
  revert pending s. induction l as [|[h p] l IH]; intros pending s Hnd Hl.
  - simpl. split_and!; try done. intros h q Hq. by left.
  - rewrite fmap_cons in Hnd. apply NoDup_cons in Hnd as [Hh Hnd].
    assert (history_downloads_ s !! h = Some p) as Hp
      by (apply Hl; set_solver).
    cbn [RemoveDownloadsBetween_scan].
    apply wlp_bind, wlp_deref. intros d Hd.
    destruct (in_removal_range b e d).
    + apply wlp_bind.
      eapply wlp_mono; [apply AssertQueueStateConsistent_reader|].
      intros [] s1 ->. apply wlp_bind, wlp_modify.
      eapply wlp_mono; [apply IH; [done|]|].
      * intros h' p' Hin. simpl. rewrite lookup_delete_ne; [|].
        -- apply Hl. set_solver.
        -- intros <-. apply Hh. by apply (list_elem_of_fmap_2 fst _ (h, p')).
      * intros pending' s' (Hheap & Hdl & Hn & Hflag & Hsub & Hkept & Hpend).
        simpl in *. split_and!; try done.
        -- intros h' q Hq. apply Hsub in Hq.
           by apply lookup_delete_Some in Hq as [_ Hq].
        -- intros h' q Hq. destruct (decide (h' = h)) as [->|Hne].
           ++ right. apply Hpend. simplify_eq. set_solver.
           ++ apply Hkept. by rewrite lookup_delete_ne.
        -- intros q Hq. apply Hpend. set_solver.
    + apply IH; [done|]. intros h' p' Hin. apply Hl. set_solver.
Qed.

Lemma for_each_delete_relates (l : list ptr) s :
  wlp (for_each l delete_)
    (λ _ s',
       downloads_ s' = downloads_ s
       ∧ history_downloads_ s' = history_downloads_ s
       ∧ download_history_ s' = download_history_ s
       ∧ shutdown_needed_ s' = shutdown_needed_ s
       ∧ ∀ q, q ∉ l → heap s' !! q = heap s !! q) s.
Proof.
  revert s. induction l as [|p l IH]; intros s; simpl; [done|].
  apply wlp_bind, wlp_delete.
  - intros ->. eapply wlp_mono; [apply IH|].
    intros [] s' (? & ? & ? & ? & Hheap). split_and!; try done.
    intros q Hq. apply Hheap. set_solver.
  - intros Hnn _. eapply wlp_mono; [apply IH|].
    intros [] s' (? & ? & ? & ? & Hheap). split_and!; try done.
    intros q Hq. rewrite Hheap by set_solver. simpl.
    rewrite lookup_delete_ne; [done|]. set_solver.
Qed.

Lemma RemoveDownloadsBetween_filed b e s :
  handles_ok s →
  wlp (RemoveDownloadsBetween b e)
    (λ _ s', handles_filed s' ∧ fakes_issued s' ∧ history_while_needed s')
    s.
Proof.
  intros (Ho & Hi & H2 & H3 & H4).
  unfold RemoveDownloadsBetween, history_RemoveEntriesBetween.
  apply wlp_bind, wlp_bind, wlp_the_history. intros n Hn.
  apply wlp_emit, wlp_bind, wlp_get, wlp_bind.
  eapply wlp_mono.
  { apply RemoveDownloadsBetween_scan_relates.
    - apply NoDup_fst_map_entries.
    - by intros h p ?%elem_of_map_entries. }
  intros pending s2 (Hheap & Hdl & Hhist & Hflag & Hsub & Hkept & _).
  simpl in *.
  assert (fakes_issued s2 ∧ history_while_needed s2) as [H3' H4'].
  { split.
    - intros h q k Hq Hk. rewrite Hhist. apply (H3 h q k); [|done].
      by apply Hsub.
    - unfold history_while_needed. by rewrite Hhist, Hflag. }
  case_bool_decide as Hpending.
  - apply wlp_ret. split_and!; try done.
    intros q dq Hq Hdq Hne. rewrite Hheap in Hdq. rewrite Hdl in Hq.
    destruct (Hkept _ _ (H2 q dq Hq Hdq Hne)) as [?|Hin]; [done|].
    rewrite Hpending in Hin. by apply elem_of_nil in Hin.
  - apply wlp_bind. unfold wlp at 1. rewrite for_each_erase_downloads.
    apply wlp_bind, wlp_emit, wlp_bind.
    eapply wlp_mono; [apply for_each_delete_relates|].
    intros [] s4 (Hdl4 & Hindex4 & Hhist4 & Hflag4 & Hheap4). simpl in *.
    apply wlp_ret. split_and!.
    + intros q dq Hq Hdq Hne. rewrite Hdl4 in Hq.
      apply foldl_erase_not_elem in Hq as [Hq Hnotin].
      rewrite Hheap4, Hheap in Hdq by done. rewrite Hdl in Hq.
      rewrite Hindex4.
      by destruct (Hkept _ _ (H2 q dq Hq Hdq Hne)).
    + intros h q k Hq Hk. rewrite Hindex4 in Hq. rewrite Hhist4.
      by apply (H3' h q k).
    + unfold history_while_needed. rewrite Hhist4, Hflag4. apply H4'.
Qed.

Lemma RemoveDownloadsBetween_files b e : files (RemoveDownloadsBetween b e).
Proof.
  intros s Hs.
  pose proof (RemoveDownloadsBetween_filed b e s Hs) as Hfiled.
  destruct Hs as (Ho & Hi & _).
  pose proof (RemoveDownloadsBetween_keeps b e s Ho) as Hkeeps.
  pose proof (RemoveDownloadsBetween_preserves b e s Hi) as Hpreserves.
  eapply wlp_mono; [exact (wlp_and _ _ _ _ Hkeeps
                             (wlp_and _ _ _ _ Hpreserves Hfiled))|].
  intros ? s' (? & ? & ? & ? & ?). by split_and!.
Qed.

Lemma Shutdown_empties s :
  wlp Shutdown
    (λ _ s', s' = s
             ∨ (downloads_ s' = ∅ ∧ history_downloads_ s' = ∅
                ∧ download_history_ s' = None)) s.
Proof.
  unfold Shutdown. apply wlp_bind, wlp_get.
  destruct (shutdown_needed_ s); simpl; [|by left].
  do 5 (apply wlp_bind; eapply wlp_mono; [apply wlp_trivial|];
        intros [] ? _).
  apply wlp_bind, wlp_get.
  do 4 apply wlp_bind, wlp_modify.
  apply wlp_bind.
  match goal with
  | |- wlp ?m _ ?s0 =>
      apply (wlp_mono m (λ _ s', downloads_ s' = ∅
                                 ∧ history_downloads_ s' = ∅))
  end.
  { by destruct debug_build. }
  intros [] s1 [Hdl1 Hindex1]. apply wlp_bind.
  eapply wlp_mono; [apply for_each_delete_relates|].
  intros [] s2 (Hdl2 & Hindex2 & _). wlp_all. right. simpl.
  by rewrite Hdl2, Hindex2.
Qed.

Lemma Shutdown_files : files Shutdown.
Proof.
  intros s Hs.
  pose proof (Shutdown_empties s) as Hempties.
  pose proof Hs as (Ho & Hi & _).
  pose proof (Shutdown_keeps s Ho) as Hkeeps.
  pose proof (Shutdown_preserves s Hi) as Hpreserves.
  eapply wlp_mono; [exact (wlp_and _ _ _ _ Hkeeps
                             (wlp_and _ _ _ _ Hpreserves Hempties))|].
  intros ? s' (Ho' & Hi' & [->|(Hdl & Hindex & Hhist)]); [done|].
  split_and!; try done.
  - intros q dq Hq. rewrite Hdl in Hq. by apply elem_of_empty in Hq.
  - intros h q k Hq. by rewrite Hindex in Hq.
  - by intros _.
Qed.

Lemma run_call_files c s :
  fake_handles_unique → serviced_call c s → handles_ok s →
  wlp (run_call c) (λ _ s', handles_ok s') s.
Proof.
  intros Hunique [Hadm Hcontract] Hs.
  destruct c; simpl in Hadm, Hcontract; unfold run_call.
  - apply wlp_bind. eapply wlp_mono; [by apply Init_files|].
    by intros ? ? ?.
  - by apply Shutdown_files.
  - revert s Hs. clear. as_files. unfold StartDownload. files_auto.
  - revert s Hs. clear. as_files. files_auto.
  - revert s Hs. clear. as_files.
    unfold CheckVisitedReferrerBeforeDone. files_auto.
  - revert s Hs. clear. as_files. unfold OnPathExistenceAvailable.
    files_auto.
  - by apply CreateDownloadItem_files.
  - revert s Hs. clear. as_files. unfold FileSelected. files_auto.
  - revert s Hs. clear. as_files. unfold FileSelectionCanceled.
    files_auto.
  - revert s Hs. clear. as_files. unfold UpdateDownload. files_auto.
  - revert s Hs. clear. as_files. unfold OnResponseCompleted. files_auto.
  - revert s Hs. clear. as_files. files_auto.
  - revert s Hs. clear. as_files. files_auto.
  - revert s Hs. clear. as_files. files_auto.
  - revert s Hs. clear. as_files. files_auto.
  - revert s Hs. clear. as_files. unfold DownloadCompleted.
    apply files_bind; [apply GetDownloadItem_files|intros ?]. files_auto.
  - revert s Hs. clear. as_files. unfold OnDownloadRenamedToFinalName.
    apply files_bind; [apply GetDownloadItem_files|intros ?]. files_auto.
  - revert s Hs. clear. as_files. files_auto.
  - by apply RemoveDownload_files.
  - apply wlp_bind. eapply wlp_mono;
      [by apply RemoveDownloadsBetween_files|]. by intros ? ? ?.
  - apply wlp_bind. eapply wlp_mono;
      [by apply RemoveDownloadsBetween_files|]. by intros ? ? ?.
  - by apply SavePageAsDownloadStarted_files.
  - destruct Hcontract as [Hnd Hrows].
    by apply OnQueryDownloadEntriesComplete_files.
  - by apply OnCreateDownloadEntryComplete_files.
  - revert s Hs. clear. as_files. unfold OnFileRemovalDetected.
    files_auto.
  - revert s Hs. clear. as_files. unfold ClearLastDownloadPath.
    files_auto.
  - by apply CheckForHistoryFilesRemoval_files.
  - by apply AssertQueueStateConsistent_files.
  - by apply DownloadItem_Cancel_files.
  - by apply DownloadItem_Delete_files.
  - by apply files_update.
  - apply wlp_bind. eapply wlp_mono; [by apply files_new|].
    by intros ? ? ?.
Qed.

Lemma serviced_handles_ok s :
  fake_handles_unique → serviced s → handles_ok s.
Proof.
  intros Hunique. induction 1 as [status_updater|s c s' _ IH Hcall Hrun].
  - unfold handles_ok, owned_live, history_index_ok, handles_filed,
      fakes_issued, history_while_needed. simpl.
    split_and!; try done; set_solver.
  - pose proof (run_call_files c s Hunique Hcall IH) as Hwlp.
    unfold wlp in Hwlp. by rewrite Hrun in Hwlp.
Qed.

(** C10: when the history service answers with the uninitialized handle,
    [AddDownloadItemToHistory] files the Record under a fake handle that is
    not the uninitialized one.  While the generator hands out each fake
    handle once and the callers keep to [serviced_call], in every state
    that the manager reaches no key of [history_downloads_] is the
    uninitialized handle, each key is the handle of the Record it leads to,
    no two Records of [downloads_] share an assigned handle, and the fake
    handle that would be handed out next is the handle of no Record and no
    key of the index. *)
Theorem durable_index_keys_assigned :
  fake_handles_unique →
  (∀ s download s',
     AddDownloadItemToHistory download kUninitializedHandle s = Ok tt s' →
     ∃ n, download_history_ s = Some n
          ∧ fake_db_handle n ≠ kUninitializedHandle
          ∧ history_downloads_ s'
            = <[fake_db_handle n := download]> (history_downloads_ s))
  ∧ (∀ s, serviced s →
       (∀ h p, history_downloads_ s !! h = Some p →
               h ≠ kUninitializedHandle
               ∧ ∃ d, heap s !! p = Some d ∧ db_handle d = h)
       ∧ (∀ p1 p2 d1 d2,
            p1 ∈ downloads_ s → p2 ∈ downloads_ s →
            heap s !! p1 = Some d1 → heap s !! p2 = Some d2 →
            db_handle d1 ≠ kUninitializedHandle →
            db_handle d1 = db_handle d2 → p1 = p2)
       ∧ (∀ n, download_history_ s = Some n →
               history_downloads_ s !! fake_db_handle n = None
               ∧ (fake_db_handle n ≠ kUninitializedHandle →
                  ∀ p d, p ∈ downloads_ s → heap s !! p = Some d →
                         db_handle d ≠ fake_db_handle n))).
Proof.
  intros Hunique. split; [apply AddDownloadItemToHistory_fake_handle|].
  intros s (_ & Hi & H2 & H3 & _)%serviced_handles_ok; [|done].
  split_and!.
  - exact Hi.
  - intros p1 p2 d1 d2 Hp1 Hp2 Hd1 Hd2 Hne Heq.
    pose proof (H2 p1 d1 Hp1 Hd1 Hne) as Hfiled1.
    rewrite Heq in Hne, Hfiled1.
    pose proof (H2 p2 d2 Hp2 Hd2 Hne) as Hfiled2. congruence.
  - intros n Hn.
    assert (history_downloads_ s !! fake_db_handle n = None) as Hnew.
    { destruct (history_downloads_ s !! fake_db_handle n) as [q|] eqn:Hq;
        [|done].
      destruct (H3 _ q n Hq eq_refl) as (n0 & Hn0 & Hlt).
      simplify_eq. lia. }
    split; [done|]. intros Hfake p d Hp Hd Heq.
    rewrite <- Heq in Hfake. specialize (H2 p d Hp Hd Hfake). congruence.
Qed.

End handle_calls.

(** * Sample runs of the further properties *)

Lemma in_history_fields debug :
  heap (in_history debug) = {[1%N := filed_item debug]}
  ∧ downloads_ (in_history debug) = {[1%N]}
  ∧ history_downloads_ (in_history debug) = {[5 := 1%N]}
  ∧ active_downloads_ (in_history debug) = {[1 := 1%N]}
  ∧ in_progress_ (in_history debug) = {[1 := 1%N]}.
Proof. destruct debug; split_and!; vm_compute; reflexivity. Qed.

Lemma in_history_live debug :
  history_live (in_history debug) ∧ heap (in_history debug) !! NULL = None
  ∧ in_progress_live (in_history debug).
Proof.
  destruct (in_history_fields debug) as (Hheap & _ & Hhist & _ & Hprog).
  unfold history_live, in_progress_live. rewrite Hheap, Hhist, Hprog.
  split_and!.
  - intros h p [<- <-]%lookup_singleton_Some. rewrite lookup_singleton_eq.
    eauto.
  - done.
  - intros h p [<- <-]%lookup_singleton_Some. rewrite lookup_singleton_eq.
    eauto.
Qed.

Lemma AssertQueueStateConsistent_decides_witness :
  AssertQueueStateConsistent (cfg:=sample_config true) 1%N (in_history true)
  = Ok tt (in_history true).
Proof.
  destruct (AssertQueueStateConsistent_decides (cfg:=sample_config true)
              (in_history true) 1%N (filed_item true))
    as [Hok _].
  - vm_compute. reflexivity.
  - apply Hok. unfold queue_state_ok.
    destruct (in_history_fields true) as (_ & -> & -> & -> & ->).
    rewrite bool_decide_eq_false_2 by (vm_compute; discriminate).
    rewrite bool_decide_eq_true_2 by (vm_compute; discriminate).
    change (id (filed_item true)) with 1.
    change (db_handle (filed_item true)) with 5.
    change (state (filed_item true)) with IN_PROGRESS.
    rewrite !lookup_singleton_eq. split_and!; [set_solver|eauto|done|done].
Defined.

Lemma replayed_live :
  history_live (replayed false) ∧ heap (replayed false) !! NULL = None.
Proof.
  split; [|vm_compute; reflexivity].
  intros h p Hp%elem_of_map_to_list. vm_compute in Hp.
  repeat (apply elem_of_cons in Hp as [Hp|Hp]);
    [injection Hp as -> ->; vm_compute; eauto..|by apply elem_of_nil in Hp].
Qed.

Lemma GetDownloadItem_finds_by_id_witness :
  ∃ r, GetDownloadItem (-1) (replayed false) = Ok r (replayed false)
       ∧ r ≠ NULL.
Proof.
  destruct (GetDownloadItem_finds_by_id (-1) (replayed false))
    as (_ & (r & Hrun & Hfound) & _); [apply replayed_live..|].
  exists r. split; [done|].
  destruct Hfound as [[_ Hnone]|[Hnn _]]; [|done].
  exfalso.
  assert (∃ p d, history_downloads_ (replayed false) !! 2 = Some p
                 ∧ heap (replayed false) !! p = Some d ∧ id d = -1)
    as (p & d & Hp & Hd & Hid)
    by (do 2 eexists; split_and!; vm_compute; reflexivity).
  exact (Hnone 2 p d Hp Hd Hid).
Defined.

Lemma UpdateDownload_touches_one_record_witness :
  ∃ s', UpdateDownload 1 500 (in_history true)
        = Ok tt s'
        ∧ heap s' = <[1%N := Item.Update 500 (filed_item true)]>
                      (heap (in_history true)).
Proof.
  destruct (UpdateDownload_touches_one_record
              (in_history true) 1 500)
    as [_ Hfound].
  destruct (Hfound 1%N (filed_item true)) as [_ Hupdate].
  - vm_compute. reflexivity.
  - vm_compute. reflexivity.
  - destruct Hupdate as (s' & Hrun & Hheap & _).
    + vm_compute. reflexivity.
    + vm_compute. eauto.
    + by exists s'.
Defined.

Lemma in_history_known debug :
  known_to_history (in_history debug) 1.
Proof.
  exists 5, 1%N, (filed_item debug).
  destruct debug; split_and!; vm_compute; reflexivity.
Qed.

Lemma DownloadCompleted_releases_active_witness :
  ∃ s', DownloadCompleted (cfg:=sample_config true) 1 (in_history true)
        = Ok tt s'
        ∧ active_downloads_ s' = delete 1 (active_downloads_ (in_history true)).
Proof.
  destruct (DownloadCompleted_releases_active (cfg:=sample_config true)
              (in_history true) 1)
    as [_ Hknown].
  - apply in_history_live.
  - apply in_history_live.
  - vm_compute. eauto.
  - destruct (Hknown (in_history_known true))
      as (download & h & d & s' & Hrun & _ & _ & _ & Hact & _).
    by exists s'.
Defined.

Lemma OnDownloadRenamedToFinalName_updates_path_witness :
  ∃ s', OnDownloadRenamedToFinalName (cfg:=sample_config false) 1
          "/home/a (1).pdf" 1 (in_history false)
        = Ok tt s'
        ∧ same_indices (in_history false) s'.
Proof.
  destruct (OnDownloadRenamedToFinalName_updates_path
              (cfg:=sample_config false) (in_history false) 1
              "/home/a (1).pdf" 1)
    as [_ Hknown].
  - apply in_history_live.
  - apply in_history_live.
  - destruct (Hknown (in_history_known false))
      as (download & h & d & _ & _ & _ & _ & Hrun).
    destruct Hrun as (s' & Hrun & _ & Hsame & _).
    + discriminate.
    + vm_compute. eauto.
    + by exists s'.
Defined.

Lemma FileSelectionCanceled_keeps_record_witness :
  FileSelectionCanceled (cfg:=sample_config true) 1 (created true)
  = Ok tt (set_trace
             (λ t, t ++ [RequestCancel 1;
                         PostFileTask (CancelDownload 1)]) (created true)).
Proof.
  apply (FileSelectionCanceled_keeps_record (cfg:=sample_config true)
           (created true) 1 1%N
           (Item.Create (cfg:=sample_config true) (sample_info 1) false)).
  - vm_compute. reflexivity.
  - discriminate.
  - vm_compute. reflexivity.
Defined.

Lemma StartDownload_asks_for_referrer_witness :
  StartDownload (cfg:=sample_config true) 1 (created true)
  = Ok tt (set_trace
             (λ t, t ++ [HistoryCheckVisitedReferrerBefore 1
                           "http://example.org/"]) (created true)).
Proof.
  destruct (StartDownload_asks_for_referrer (cfg:=sample_config true)
              (created true) 1 1%N
              (Item.Create (cfg:=sample_config true) (sample_info 1) false))
    as (_ & Hrun & _).
  - vm_compute. reflexivity.
  - discriminate.
  - vm_compute. reflexivity.
  - apply Hrun; [reflexivity|vm_compute; eauto].
Defined.

Lemma OnCreateDownloadEntryComplete_cleans_up_cancelled_witness :
  ∃ s', OnCreateDownloadEntryComplete (cfg:=sample_config true) 1 5
          (cancelled_early true)
        = Ok tt s'
        ∧ active_downloads_ s' = delete 1 (active_downloads_ (cancelled_early true))
        ∧ history_downloads_ s'
          = <[5 := 1%N]> (history_downloads_ (cancelled_early true)).
Proof.
  edestruct (OnCreateDownloadEntryComplete_cleans_up_cancelled
               (cfg:=sample_config true) (cancelled_early true) 1 1%N
               (Item.Cancelled (committed_item true)) 5)
    as (s' & Hrun & _ & Hhist & Hact & _).
  - vm_compute. reflexivity.
  - discriminate.
  - vm_compute. reflexivity.
  - vm_compute. eauto.
  - vm_compute. discriminate.
  - intros _. split; vm_compute; reflexivity.
  - vm_compute. reflexivity.
  - intros _. vm_compute. reflexivity.
  - by exists s'.
Defined.

Lemma awaiting_handle_awaits :
  awaiting_data_and_handle (cfg:=sample_config true) (awaiting_handle true)
    1 1%N (committed_item true).
Proof.
  unfold awaiting_data_and_handle.
  split_and!; try (vm_compute; reflexivity); try (vm_compute; eauto; fail);
    discriminate.
Qed.

Lemma completion_does_not_depend_on_arrival_order_witness :
  ∃ s_data s1,
    OnAllDataSaved (cfg:=sample_config true) 1 1000 EmptyString
      (awaiting_handle true)
    = Ok tt s_data
    ∧ OnCreateDownloadEntryComplete (cfg:=sample_config true) 1 5 s_data
      = Ok tt s1
    ∧ in_progress_ s1 = delete 1 (in_progress_ (awaiting_handle true)).
Proof.
  destruct (completion_does_not_depend_on_arrival_order
              (cfg:=sample_config true) (awaiting_handle true) 1 1%N
              (committed_item true) 1000 EmptyString 5)
    as (s_data & s_handle & s1 & s2 & t1 & t2 & Hdata & _ & _ & Hhandle & _
        & _ & _ & _ & _ & _ & Hprog & _).
  - apply awaiting_handle_awaits.
  - vm_compute. discriminate.
  - vm_compute. reflexivity.
  - by exists s_data, s1.
Defined.

Lemma CheckVisitedReferrerBeforeDone_suggests_directory_witness :
  ∃ st,
    CheckVisitedReferrerBeforeDone (cfg:=sample_config false) 1 false
      (created false)
    = Ok tt (set_trace
               (λ t, t ++ [PostFileTask
                             (CheckIfSuggestedPathExists 1 st "/downloads")])
               (created false))
    ∧ suggested_path st = "/downloads/report.pdf"%string.
Proof.
  destruct (CheckVisitedReferrerBeforeDone_suggests_directory
              (cfg:=sample_config false) (created false) 1 1%N
              (Item.Create (cfg:=sample_config false) (sample_info 1) false)
              (sample_prefs false false) sample_profile false)
    as (st & Hrun & Hpath & _).
  - apply sample_extension_contract.
  - vm_compute. reflexivity.
  - discriminate.
  - vm_compute. reflexivity.
  - vm_compute. reflexivity.
  - vm_compute. reflexivity.
  - vm_compute. reflexivity.
  - exists st. split; [exact Hrun|]. rewrite Hpath.
    unfold suggested_directory.
    rewrite (bool_decide_eq_true_2 (last_download_path_ (created false) = _))
      by (vm_compute; reflexivity).
    rewrite andb_false_r. reflexivity.
Defined.

Lemma CheckVisitedReferrerBeforeDone_forced_name_witness :
  ∃ st,
    CheckVisitedReferrerBeforeDone (cfg:=sample_config false) 2 true
      (forced false)
    = Ok tt (set_trace
               (λ t, t ++ [PostFileTask
                             (CheckIfSuggestedPathExists 2 st "/downloads")])
               (forced false))
    ∧ suggested_path st = "/tmp/forced.pdf"%string.
Proof.
  destruct (CheckVisitedReferrerBeforeDone_forced_name
              (cfg:=sample_config false) (forced false) 2 1%N
              (Item.Create (cfg:=sample_config false) forced_info false)
              (sample_prefs false false) true)
    as (st & Hrun & Hpath & _).
  - vm_compute. reflexivity.
  - discriminate.
  - vm_compute. reflexivity.
  - vm_compute. reflexivity.
  - discriminate.
  - exists st. split; [exact Hrun|exact Hpath].
Defined.

Lemma OnPathExistenceAvailable_prompts_or_commits_witness :
  ∃ s', OnPathExistenceAvailable (cfg:=sample_config true) 1 prompt_state
          (created true)
        = Ok tt s'
        ∧ in_progress_ s' = ∅.
Proof.
  destruct (OnPathExistenceAvailable_prompts_or_commits
              (cfg:=sample_config true) (created true) 1 1%N
              (Item.Create (cfg:=sample_config true) (sample_info 1) false)
              prompt_state)
    as [Hprompt _].
  - vm_compute. reflexivity.
  - discriminate.
  - vm_compute. reflexivity.
  - eexists. split; [apply Hprompt; reflexivity|]. vm_compute. reflexivity.
Defined.

Lemma created_ready_for_path :
  ready_for_path (created true) 1%N
    (Item.Create (cfg:=sample_config true) (sample_info 1) false).
Proof.
  unfold ready_for_path. split_and!.
  - vm_compute. reflexivity.
  - apply (bool_decide_unpack _). vm_compute. reflexivity.
  - vm_compute. eauto.
  - vm_compute. reflexivity.
Qed.

Lemma FileSelected_remembers_directory_witness :
  ∃ s', FileSelected (cfg:=sample_config true) "/home/a.pdf" 1 (created true)
        = Ok tt s'
        ∧ in_progress_ s' = <[1 := 1%N]> (in_progress_ (created true))
        ∧ last_download_path_ s' = last_download_path_ (created true).
Proof.
  destruct (FileSelected_remembers_directory (cfg:=sample_config true)
              (created true) "/home/a.pdf" 1 1%N
              (Item.Create (cfg:=sample_config true) (sample_info 1) false))
    as (s' & Hrun & Hlast & _ & Hprog & _).
  - vm_compute. reflexivity.
  - discriminate.
  - vm_compute. reflexivity.
  - intros _. apply created_ready_for_path.
  - vm_compute. eauto.
  - by exists s'.
Defined.

Lemma file_removal_is_checked_until_detected_witness :
  ∃ s', OnFileRemovalDetected 5 (in_history true) = Ok tt s'
        ∧ CheckForFileRemoval 1%N s' = Ok tt s'.
Proof.
  destruct (file_removal_is_checked_until_detected (in_history true))
    as (_ & _ & Hdetected).
  - apply in_history_live.
  - destruct (Hdetected 5 1%N (filed_item true))
      as (s' & Hrun & _ & _ & _ & Hcheck).
    + vm_compute. reflexivity.
    + vm_compute. reflexivity.
    + by exists s'.
Defined.

Lemma OnQueryDownloadEntriesComplete_replays_rows_witness :
  ∃ s' ps,
    OnQueryDownloadEntriesComplete (cfg:=sample_config true) (-1) sample_rows
      (initialized true)
    = Ok tt s'
    ∧ replayed_into (initialized true) (-1) sample_rows ps s'.
Proof.
  destruct (OnQueryDownloadEntriesComplete_replays_rows
              (cfg:=sample_config true) (initialized true) (-1) sample_rows)
    as (s' & ps & t & Hrun & Hinto & _).
  - apply (bool_decide_unpack _). vm_compute. reflexivity.
  - intros e _. vm_compute. reflexivity.
  - intros h p Hp. vm_compute in Hp. discriminate.
  - by exists s', ps.
Defined.

Lemma SavePageAsDownloadStarted_files_under_fake_handle_witness :
  ∃ s', SavePageAsDownloadStarted (cfg:=sample_config true) 7%N
          (saving_page true)
        = Ok tt s'
        ∧ history_downloads_ s' = {[ -1 := 7%N ]}
        ∧ download_history_ s' = Some 1%nat.
Proof.
  destruct (SavePageAsDownloadStarted_files_under_fake_handle
              (cfg:=sample_config true) (saving_page true) 7%N
              (Item.Create (cfg:=sample_config true) (sample_info 7) false)
              0%nat)
    as [_ Hfiled].
  - vm_compute. reflexivity.
  - vm_compute. reflexivity.
  - destruct Hfiled as (s' & Hrun & _ & Hhist & _ & _ & _ & _ & Hnext & _).
    + discriminate.
    + intros _. split; vm_compute; reflexivity.
    + exists s'. split_and!; [done| |done]. rewrite Hhist.
      vm_compute. reflexivity.
Defined.

Lemma history_queries_split_by_temporary_witness :
  ∃ temporary kept,
    GetTemporaryDownloads (cfg:=sample_config true) (acc:=sample_accessors)
      "/home" [] (in_history true)
    = Ok temporary (in_history true)
    ∧ GetAllDownloads (cfg:=sample_config true) (acc:=sample_accessors)
        EmptyString [] (in_history true)
      = Ok kept (in_history true).
Proof.
  destruct (history_queries_split_by_temporary
              (cfg:=sample_config true) (acc:=sample_accessors)
              (in_history true) "/home" [] [])
    as (temporary & _ & Htemporary & _).
  { apply in_history_live. }
  destruct (history_queries_split_by_temporary
              (cfg:=sample_config true) (acc:=sample_accessors)
              (in_history true) EmptyString [] [])
    as (_ & kept & _ & Hkept & _).
  { apply in_history_live. }
  by exists temporary, kept.
Defined.

Lemma in_history_progress_known : progress_known (in_history true).
Proof.
  intros i p d Hp Hd. destruct (in_history_fields true) as (Hheap & _ & _ & _ & Hprog).
  rewrite Hprog in Hp. apply lookup_singleton_Some in Hp as [<- <-].
  rewrite Hheap, lookup_singleton_eq in Hd. injection Hd as <-.
  vm_compute. reflexivity.
Qed.

Lemma progress_is_summed_over_in_progress_witness :
  GetReceivedDownloadBytes (cfg:=sample_config true) (in_history true)
  = Ok 0 (in_history true)
  ∧ GetTotalDownloadBytes (cfg:=sample_config true) (in_history true)
    = Ok 1000 (in_history true).
Proof.
  destruct (progress_is_summed_over_in_progress (cfg:=sample_config true)
              (in_history true))
    as (_ & _ & Hsum).
  - apply in_history_live.
  - destruct Hsum as [Hreceived Htotal].
    + intros _. apply in_history_progress_known.
    + split.
      * rewrite Hreceived. f_equal.
      * rewrite Htotal. f_equal.
Defined.

Lemma Init_and_Shutdown_toggle_the_flag_witness :
  Init (cfg:=sample_config true) sample_profile false (initialized true)
  = Crash DCheckFailure
  ∧ DownloadManager_dtor (cfg:=sample_config true) (shut_down true)
    = Ok tt (shut_down true).
Proof.
  destruct (Init_and_Shutdown_toggle_the_flag (cfg:=sample_config true))
    as (Htwice & _ & Hshutdown).
  split.
  - apply Htwice; vm_compute; reflexivity.
  - destruct (Hshutdown (initialized true) (shut_down true)) as (_ & Hdtor & _).
    + vm_compute. reflexivity.
    + exact Hdtor.
Defined.

Lemma IsDangerousFile_gesture_only_lowers_witness :
  IsDangerousFile (cfg:=sample_config true)
    (Item.Create (cfg:=sample_config true) (sample_info 1) false)
    (install_state false) false (created true)
  = Ok true (created true).
Proof.
  apply (IsDangerousFile_gesture_only_lowers (cfg:=sample_config true)
           (created true) _ (install_state true) (install_state false) false
           (sample_prefs false false) sample_profile).
  - apply sample_extension_contract.
  - vm_compute. reflexivity.
  - vm_compute. reflexivity.
  - reflexivity.
  - reflexivity.
  - reflexivity.
  - vm_compute. reflexivity.
Defined.

Lemma downloads_never_dangle_witness :
  1%N ≠ NULL ∧ is_Some (heap (offline_history false) !! 1%N).
Proof.
  destruct (downloads_never_dangle (cfg:=sample_config false))
    as (_ & _ & Hreach).
  apply Hreach; [apply offline_history_reachable|].
  apply (bool_decide_unpack _). vm_compute. reflexivity.
Defined.

Lemma OnResponseCompleted_error_interrupts_witness :
  ∃ s', OnResponseCompleted (cfg:=sample_config true) 1 400 (-7) EmptyString
          (in_history true)
        = Ok tt s'
        ∧ active_downloads_ s' = delete 1 (active_downloads_ (in_history true))
        ∧ downloads_ s' = downloads_ (in_history true).
Proof.
  destruct (OnResponseCompleted_error_interrupts (cfg:=sample_config true)
              (in_history true) 1 400 (-7) EmptyString 1%N (filed_item true))
    as (Hdispatch & _ & Hfiled).
  - vm_compute. reflexivity.
  - vm_compute. reflexivity.
  - discriminate.
  - discriminate.
  - destruct Hfiled as (s' & Hrun & _ & Hact & _ & _ & Hdl & _).
    + discriminate.
    + vm_compute. eauto.
    + exists s'. rewrite Hdispatch. done.
Defined.

(** The sample generator hands out -1, -2, ...: no handle twice. *)
Lemma sample_fake_handles_unique debug :
  fake_handles_unique (cfg:=sample_config debug).
Proof. intros m n Heq. simpl in Heq. lia. Qed.

Ltac serviced_by call state :=
  apply (serviced_step state call);
  [|split; [try exact I|try exact I]|vm_compute; reflexivity].

(** The state with the two offline downloads is one the manager reaches
    while its callers keep to [serviced_call]. *)
Lemma two_offline_serviced :
  serviced (cfg:=sample_config false) (two_offline false).
Proof.
  serviced_by (CallOnCreateDownloadEntryComplete 2 0)
    (state_after
       (OnCreateDownloadEntryComplete (cfg:=sample_config false) 1 0)
       (two_awaiting false)).
  2:{ intros p Hp d Hd. vm_compute in Hp. injection Hp as <-.
      vm_compute in Hd. by injection Hd as <-. }
  2:{ by left. }
  serviced_by (CallOnCreateDownloadEntryComplete 1 0) (two_awaiting false).
  2:{ intros p Hp d Hd. vm_compute in Hp. injection Hp as <-.
      vm_compute in Hd. by injection Hd as <-. }
  2:{ by left. }
  serviced_by (CallFileSelected "/home/b.pdf" 2)
    (state_after (FileSelected (cfg:=sample_config false) "/home/a.pdf" 1)
       (two_created false)).
  serviced_by (CallFileSelected "/home/a.pdf" 1) (two_created false).
  serviced_by (CallCreateDownloadItem (sample_info 2)) (created false).
  serviced_by (CallCreateDownloadItem (sample_info 1)) (initialized false).
  serviced_by (CallInit sample_profile false) (DownloadManager_ctor false).
  2:{ reflexivity. }
  apply serviced_ctor.
Qed.

(** The history service was offline for downloads 1 and 2: they are filed
    under the fake handles -1 and -2, and no two Records of [downloads_]
    share a handle. *)
Lemma durable_index_keys_assigned_witness :
  history_downloads_ (two_offline false) = {[ -1 := 1%N; -2 := 2%N ]}
  ∧ downloads_ (two_offline false) = {[ 1%N; 2%N ]}
  ∧ ∀ p1 p2 d1 d2,
      p1 ∈ downloads_ (two_offline false) →
      p2 ∈ downloads_ (two_offline false) →
      heap (two_offline false) !! p1 = Some d1 →
      heap (two_offline false) !! p2 = Some d2 →
      db_handle d1 ≠ kUninitializedHandle (Config:=sample_config false) →
      db_handle d1 = db_handle d2 → p1 = p2.
Proof.
  split; [vm_compute; reflexivity|]. split; [vm_compute; reflexivity|].
  destruct (durable_index_keys_assigned (cfg:=sample_config false)
              (sample_fake_handles_unique false))
    as [_ Hserviced].
  destruct (Hserviced (two_offline false) two_offline_serviced)
    as (_ & Hunique & _).
  exact Hunique.
Defined.
